(** * Daily-activity-report generator: the event parser of [dar_logic.py]

    A shallow embedding of the line scanner [parse_events], of its helpers
    ([to_past_tense], [bold_officer], [classify], [_extract_dt],
    [build_event_line], [format_location_name]) and of the final
    aggregation pass, followed by the properties of the report they
    produce.

    Text is modelled as [string] over single-byte characters with the
    ASCII reading of Python's character predicates; the en dash that the
    source writes between the parts of an entry is its three-byte UTF-8
    form.  A Python [dict] is a [gmap] keyed by [string]. *)

From Stdlib Require Import String Ascii List ZArith Lia Bool Permutation Sorted.
From stdpp Require Import base option list gmap strings.

Open Scope string_scope.

(* string concatenation computes under [simpl] *)
#[global] Arguments String.append !s1 s2 : simpl nomatch.

(** ** Python's string primitives *)

Module Py.

Definition code (c : ascii) : nat := nat_of_ascii c.

Definition between (lo hi : nat) (c : ascii) : bool :=
  (lo <=? code c)%nat && (code c <=? hi)%nat.

(** [str.isspace] on one character: TAB..CR, FS..US and the blank. *)
Definition is_space (c : ascii) : bool :=
  between 9 13 c || between 28 32 c.

Definition is_digit (c : ascii) : bool := between 48 57 c.
Definition is_upper (c : ascii) : bool := between 65 90 c.
Definition is_lower (c : ascii) : bool := between 97 122 c.
Definition is_alpha (c : ascii) : bool := is_upper c || is_lower c.
Definition is_alnum (c : ascii) : bool := is_alpha c || is_digit c.

(** The class [\w] of the [re] module. *)
Definition is_word (c : ascii) : bool := is_alnum c || (code c =? 95)%nat.

Definition to_lower (c : ascii) : ascii :=
  if is_upper c then ascii_of_nat (code c + 32) else c.

Definition to_upper (c : ascii) : ascii :=
  if is_lower c then ascii_of_nat (code c - 32) else c.

Definition ceqb (a b : ascii) : bool := Ascii.eqb a b.

Fixpoint smap (f : ascii -> ascii) (s : string) : string :=
  match s with
  | EmptyString => EmptyString
  | String c r => String (f c) (smap f r)
  end.

Fixpoint sall (p : ascii -> bool) (s : string) : bool :=
  match s with
  | EmptyString => true
  | String c r => p c && sall p r
  end.

Fixpoint sany (p : ascii -> bool) (s : string) : bool :=
  match s with
  | EmptyString => false
  | String c r => p c || sany p r
  end.

Definition lower (s : string) : string := smap to_lower s.
Definition upper (s : string) : string := smap to_upper s.

(** [str.capitalize]: first character upper-cased, the rest lower-cased. *)
Definition capitalize (s : string) : string :=
  match s with
  | EmptyString => EmptyString
  | String c r => String (to_upper c) (lower r)
  end.

(** [str.isupper]: some cased character, and no lower-case one. *)
Definition isupper (s : string) : bool :=
  sany is_upper s && negb (sany is_lower s).

(** [str.islower]: some cased character, and no upper-case one. *)
Definition islower (s : string) : bool :=
  sany is_lower s && negb (sany is_upper s).

(** [s[0]] and [s[1:]] for a string known to be non-empty; on the empty
    string [s[1:]] is empty as in Python, and [head] is empty where Python
    would raise (the callers below only index tokens produced by
    [split], which are never empty). *)
Definition head (s : string) : string :=
  match s with
  | EmptyString => EmptyString
  | String c _ => String c EmptyString
  end.

Definition tail (s : string) : string :=
  match s with
  | EmptyString => EmptyString
  | String _ r => r
  end.

Fixpoint srev_onto (s acc : string) : string :=
  match s with
  | EmptyString => acc
  | String c r => srev_onto r (String c acc)
  end.

Definition srev (s : string) : string := srev_onto s EmptyString.

Fixpoint lstrip_by (p : ascii -> bool) (s : string) : string :=
  match s with
  | EmptyString => EmptyString
  | String c r => if p c then lstrip_by p r else s
  end.

Definition rstrip_by (p : ascii -> bool) (s : string) : string :=
  srev (lstrip_by p (srev s)).

Definition strip_by (p : ascii -> bool) (s : string) : string :=
  rstrip_by p (lstrip_by p s).

(** [str.strip()], [str.lstrip()], [str.rstrip()] without argument. *)
Definition strip (s : string) : string := strip_by is_space s.
Definition rstrip (s : string) : string := rstrip_by is_space s.

Definition mem_char (cs : string) (c : ascii) : bool := sany (ceqb c) cs.

(** [str.strip(cs)] and [str.rstrip(cs)] for a set [cs] of one-byte
    characters. *)
Definition strip_chars (cs : string) (s : string) : string :=
  strip_by (mem_char cs) s.
Definition rstrip_chars (cs : string) (s : string) : string :=
  rstrip_by (mem_char cs) s.

Fixpoint startswith (p s : string) : bool :=
  match p, s with
  | EmptyString, _ => true
  | String a p', String b s' => ceqb a b && startswith p' s'
  | String _ _, EmptyString => false
  end.

Definition endswith (p s : string) : bool := startswith (srev p) (srev s).

(** [sub in s]. *)
Fixpoint contains (sub s : string) : bool :=
  startswith sub s ||
  match s with
  | EmptyString => false
  | String _ r => contains sub r
  end.

Fixpoint drop (n : nat) (s : string) : string :=
  match n, s with
  | O, _ => s
  | S n', String _ r => drop n' r
  | S _, EmptyString => EmptyString
  end.

Fixpoint take (n : nat) (s : string) : string :=
  match n, s with
  | O, _ => EmptyString
  | S n', String c r => String c (take n' r)
  | S _, EmptyString => EmptyString
  end.

(** [s[-n:]]. *)
Definition last_n (n : nat) (s : string) : string :=
  drop (String.length s - n) s.

(** [sep.join(l)]. *)
Fixpoint join (sep : string) (l : list string) : string :=
  match l with
  | [] => EmptyString
  | [x] => x
  | x :: r => x ++ sep ++ join sep r
  end.

(** [str.split()] without argument: the maximal runs of non-blank
    characters. *)
Fixpoint split_go (s : string) (cur : string) : list string :=
  match s with
  | EmptyString =>
      match cur with EmptyString => [] | _ => [srev cur] end
  | String c r =>
      if is_space c
      then match cur with
           | EmptyString => split_go r EmptyString
           | _ => srev cur :: split_go r EmptyString
           end
      else split_go r (String c cur)
  end.

Definition split (s : string) : list string := split_go s EmptyString.

(** [s.split(":", 1)[-1]]: what follows the first colon, or all of [s]
    when it has none. *)
Fixpoint after_colon_go (s : string) : option string :=
  match s with
  | EmptyString => None
  | String c r => if ceqb c ":" then Some r else after_colon_go r
  end.

Definition after_colon (s : string) : string :=
  match after_colon_go s with Some r => r | None => s end.

(** [len(s.split(":", 1)) > 1]. *)
Definition has_colon (s : string) : bool :=
  match after_colon_go s with Some _ => true | None => false end.

(** [str.replace(old, new)] for a non-empty [old]. *)
Fixpoint replace_go (fuel : nat) (old new s : string) : string :=
  match fuel with
  | O => s
  | S f =>
      match s with
      | EmptyString => EmptyString
      | String c r =>
          if startswith old s
          then new ++ replace_go f old new (drop (String.length old) s)
          else String c (replace_go f old new r)
      end
  end.

Definition replace (old new s : string) : string :=
  replace_go (S (String.length s)) old new s.

(** Python truthiness of a string. *)
Definition truthy (s : string) : bool :=
  match s with EmptyString => false | _ => true end.

Definition seqb (a b : string) : bool := String.eqb a b.

(** Decimal digits of a number, and [f"{n:02d}"]. *)
Definition digit_char (d : nat) : ascii := ascii_of_nat (48 + d).

Fixpoint digits_go (fuel n : nat) (acc : string) : string :=
  match fuel with
  | O => acc
  | S f =>
      let acc' := String (digit_char (n mod 10)) acc in
      if (n <? 10)%nat then acc' else digits_go f (n / 10) acc'
  end.

Definition str_of_nat (n : nat) : string := digits_go (S n) n EmptyString.

Definition pad2 (n : nat) : string :=
  if (n <? 10)%nat then String "0" (str_of_nat n) else str_of_nat n.

(** [int(s)] for a string of decimal digits. *)
Fixpoint int_go (s : string) (acc : nat) : nat :=
  match s with
  | EmptyString => acc
  | String c r => int_go r (10 * acc + (code c - 48))
  end.

Definition int_of (s : string) : nat := int_go s 0.

End Py.

(** ** The fragment of Python's [re] that the parser uses

    A backtracking matcher in continuation-passing style: alternatives are
    tried left to right, a greedy repetition tries one more iteration
    before stopping and a lazy one the other way round, as [re] does.
    [prev] is the character before the current position ([None] at the
    start of the subject), which is what [^] and [\b] look at. *)

Module Re.
Import Py.

Inductive re : Type :=
| Eps
| Chr (p : ascii -> bool)
| Cat (a b : re)
| Alt (a b : re)
| Rep (greedy : bool) (lo : nat) (hi : option nat) (a : re)
| Grp (n : nat) (a : re)
| Bol
| Eol
| WordB.

(** Captured groups, the most recent binding of a group first. *)
Definition caps : Type := list (nat * string).

Fixpoint group (n : nat) (cs : caps) : option string :=
  match cs with
  | [] => None
  | (m, v) :: r => if (m =? n)%nat then Some v else group n r
  end.

(** [m.group(n)] for a group that took part in the match. *)
Definition grp (n : nat) (cs : caps) : string := default "" (group n cs).

Definition cont : Type := option ascii -> string -> caps -> option (string * caps).

Definition word_before (prev : option ascii) : bool :=
  match prev with Some c => is_word c | None => false end.

Definition word_after (s : string) : bool :=
  match s with String c _ => is_word c | EmptyString => false end.

Definition more_allowed (hi : option nat) : bool :=
  match hi with Some O => false | _ => true end.

Definition one_less (hi : option nat) : option nat :=
  match hi with Some n => Some (pred n) | None => None end.

Definition or_else {A} (x y : option A) : option A :=
  match x with Some _ => x | None => y end.

Fixpoint run (r : re) (prev : option ascii) (s : string) (cs : caps) (k : cont)
  {struct r} : option (string * caps) :=
  match r with
  | Eps => k prev s cs
  | Chr p =>
      match s with
      | String c t => if p c then k (Some c) t cs else None
      | EmptyString => None
      end
  | Cat a b => run a prev s cs (fun prev' s' cs' => run b prev' s' cs' k)
  | Alt a b => or_else (run a prev s cs k) (run b prev s cs k)
  | Grp n a =>
      run a prev s cs (fun prev' s' cs' =>
        k prev' s' ((n, take (String.length s - String.length s') s) :: cs'))
  | Bol => match prev with None => k prev s cs | Some _ => None end
  | Eol =>
      match s with
      | EmptyString => k prev s cs
      | String c EmptyString => if ceqb c "010" then k prev s cs else None
      | _ => None
      end
  | WordB => if xorb (word_before prev) (word_after s) then k prev s cs else None
  | Rep g lo hi a =>
      (fix loop (budget lo : nat) (hi : option nat)
               (prev : option ascii) (s : string) (cs : caps)
               {struct budget} : option (string * caps) :=
         let stop := match lo with O => k prev s cs | S _ => None end in
         let more :=
           match budget with
           | O => None
           | S b =>
               if more_allowed hi
               then run a prev s cs (fun prev' s' cs' =>
                      if (lo =? 0)%nat && (String.length s' =? String.length s)%nat
                      then None
                      else loop b (pred lo) (one_less hi) prev' s' cs')
               else None
           end in
         if g then or_else more stop else or_else stop more)
        (lo + String.length s + 1)%nat lo hi prev s cs
  end.

Record found : Type := Found {
  start : nat;          (* offset of the match in the subject *)
  whole : string;       (* [m.group(0)] *)
  rest : string;        (* the subject after the match *)
  groups : caps
}.

Definition match_at (r : re) (prev : option ascii) (off : nat) (s : string)
  : option found :=
  match run r prev s [] (fun _ s' cs' => Some (s', cs')) with
  | Some (s', cs') =>
      Some (Found off (take (String.length s - String.length s') s) s' cs')
  | None => None
  end.

(** [re.match(r, s)]. *)
Definition rmatch (r : re) (s : string) : option found := match_at r None 0 s.

(** [re.search(r, s)]: the leftmost position where [r] matches. *)
Fixpoint search_from (r : re) (prev : option ascii) (off : nat) (s : string)
  : option found :=
  match match_at r prev off s with
  | Some f => Some f
  | None =>
      match s with
      | EmptyString => None
      | String c t => search_from r (Some c) (S off) t
      end
  end.

Definition search (r : re) (s : string) : option found := search_from r None 0 s.

Definition matches (r : re) (s : string) : bool := bool_decide (is_Some (rmatch r s)).
Definition occurs (r : re) (s : string) : bool := bool_decide (is_Some (search r s)).

(** [re.sub(r, repl, s)]: the non-overlapping matches, left to right, each
    replaced by what [repl] makes of it; an empty match lets one
    character through before the search resumes. *)
Fixpoint sub_go (fuel : nat) (r : re) (repl : found -> string)
  (prev : option ascii) (s : string) : string :=
  match fuel with
  | O => s
  | S fuel' =>
      match match_at r prev 0 s with
      | Some f =>
          match whole f with
          | EmptyString =>
              match s with
              | EmptyString => repl f
              | String c t => repl f ++ String c (sub_go fuel' r repl (Some c) t)
              end
          | String _ _ =>
              let w := whole f in
              let last := match srev w with String c _ => Some c | EmptyString => prev end in
              repl f ++ sub_go fuel' r repl last (rest f)
          end
      | None =>
          match s with
          | EmptyString => EmptyString
          | String c t => String c (sub_go fuel' r repl (Some c) t)
          end
      end
  end.

Definition sub (r : re) (repl : found -> string) (s : string) : string :=
  sub_go (S (String.length s)) r repl None s.

(** [re.sub(r, "", s)]. *)
Definition remove (r : re) (s : string) : string := sub r (fun _ => "") s.

(** *** Building patterns *)

Fixpoint lit (s : string) : re :=
  match s with
  | EmptyString => Eps
  | String c EmptyString => Chr (ceqb c)
  | String c t => Cat (Chr (ceqb c)) (lit t)
  end.

Definition ceqbi (a b : ascii) : bool := ceqb (to_lower a) (to_lower b).

(** A literal under [re.IGNORECASE]. *)
Fixpoint liti (s : string) : re :=
  match s with
  | EmptyString => Eps
  | String c EmptyString => Chr (ceqbi c)
  | String c t => Cat (Chr (ceqbi c)) (liti t)
  end.

Fixpoint seq (l : list re) : re :=
  match l with
  | [] => Eps
  | [a] => a
  | a :: t => Cat a (seq t)
  end.

Fixpoint alts (l : list re) : re :=
  match l with
  | [] => Chr (fun _ => false)
  | [a] => a
  | a :: t => Alt a (alts t)
  end.

Definition star (a : re) : re := Rep true 0 None a.
Definition plus (a : re) : re := Rep true 1 None a.
Definition opt (a : re) : re := Rep true 0 (Some 1) a.
Definition lazy_star (a : re) : re := Rep false 0 None a.
Definition lazy_plus (a : re) : re := Rep false 1 None a.
Definition times (lo hi : nat) (a : re) : re := Rep true lo (Some hi) a.

Definition d : re := Chr is_digit.                       (* \d *)
Definition s_ : re := Chr is_space.                      (* \s *)
Definition w_ : re := Chr is_word.                       (* \w *)
Definition dot : re := Chr (fun c => negb (ceqb c "010")). (* . *)
Definition ws : re := star s_.                           (* \s* *)
Definition ws1 : re := plus s_.                          (* \s+ *)
Definition set (cs : string) : re := Chr (mem_char cs).  (* [...] *)
Definition seti (cs : string) : re :=                    (* [...] under IGNORECASE *)
  Chr (fun c => mem_char (lower cs) (to_lower c)).

End Re.

Import Py Re.

(** ** Sections of the report *)

Definition SEC_IR : string := "Incident Reports (IR) / Alarms".
Definition SEC_ELEVATOR : string := "Elevator Entrapment Incidents".
Definition SEC_SPD : string := "SPD Presence/Emergency Response on Site".
Definition SEC_DAMAGE : string := "Property Damage".
Definition SEC_TENANT : string := "Tenant Issues".
Definition SEC_RETAIL : string := "Retail Issues".
Definition SEC_TRANSIENT : string := "Transient Removal".
Definition SEC_KEY : string := "Key Service (Lock & Unlock)".
Definition SEC_DOCK : string := "Loading Dock Access (Lock & Unlock)".
Definition SEC_FIRE : string := "Fire Panel Bypass/Online".
Definition SEC_AES : string := "AES Phone Calls".
Definition SEC_WORK : string := "Work Orders".
Definition SEC_JANITORIAL : string := "Janitorial".
Definition SEC_ADDITIONAL : string := "Additional Information".

(** The label [classify] answers when nothing matches; it is not a
    section of the report. *)
Definition UNCLASSIFIED : string := "Unclassified".

Definition SECTIONS : list string :=
  [ SEC_IR; SEC_ELEVATOR; SEC_SPD; SEC_DAMAGE; SEC_TENANT; SEC_RETAIL;
    SEC_TRANSIENT; SEC_KEY; SEC_DOCK; SEC_FIRE; SEC_AES; SEC_WORK;
    SEC_JANITORIAL; SEC_ADDITIONAL ].

Definition PLACEHOLDER : string := "None to Report".

(** ** Event buffers: the [dict] of fields of the event being read *)

Abbreviation Buffer := (gmap string string).

(** [buffer.get(k, "")], which is also [buffer.get(k) or ""]. *)
Definition get (b : Buffer) (k : string) : string := default "" (b !! k).

(** Truthiness of [buffer.get(k)]: present and not empty. *)
Definition filled (b : Buffer) (k : string) : bool := truthy (get b k).

(** [k in buffer]. *)
Definition present (b : Buffer) (k : string) : bool :=
  match b !! k with Some _ => true | None => false end.

(** Truthiness of the [dict] itself. *)
Definition nonempty (b : Buffer) : bool := negb (bool_decide (b = ∅)).

(** [any(k in txt for k in ks)]. *)
Definition any_in (ks : list string) (txt : string) : bool :=
  existsb (fun k => contains k txt) ks.

(** ** Verb and name normalisation *)

Definition VERB_MAP : gmap string string :=
  list_to_map
    [ ("open", "opened"); ("unlock", "unlocked"); ("lock", "locked");
      ("secure", "secured"); ("issue", "issued"); ("collect", "collected");
      ("deliver", "delivered"); ("remove", "removed"); ("escort", "escorted");
      ("close", "closed"); ("receive", "received"); ("call", "called");
      ("handle", "handled"); ("extend", "extended"); ("bypass", "bypassed");
      ("bring", "brought"); ("brought", "brought"); ("put", "put");
      ("was", "was"); ("putted", "put"); ("puted", "put"); ("set", "set");
      ("hit", "hit"); ("cut", "cut"); ("shut", "shut"); ("leave", "left") ].

Definition to_past_tense (text : string) : string :=
  match split text with
  | [] => text
  | w :: ws =>
      let first := lower w in
      let w' :=
        match VERB_MAP !! first with
        | Some v => v
        | None =>
            if endswith "ed" first then w
            else first ++ (if endswith "e" first then "d" else "ed")
        end in
      join " " (w' :: ws)
  end.

(** [^(Officer|S/O)\s+] under IGNORECASE. *)
Definition rx_officer_prefix : re :=
  seq [Bol; Grp 1 (Alt (liti "Officer") (liti "S/O")); ws1].

(** The name inside the markup that [bold_officer] returns. *)
Definition officer_name (name : string) : string :=
  let n := Re.remove rx_officer_prefix (strip name) in
  match split n with
  | [first; second] =>
      if isupper first && isupper (head second) && islower (tail second)
      then capitalize second ++ " " ++ capitalize first
      else capitalize first ++ " " ++ capitalize second
  | parts => join " " (map capitalize parts)
  end.

Definition bold_officer (name : string) : string :=
  if truthy (strip name)
  then "<b>Officer " ++ officer_name name ++ "</b>"
  else "".

(** ** The section classifier *)

(** [\bkey\s*(lock|unlock|service|issued|return|pickup|drop|set)?\b] *)
Definition rx_key_action : re :=
  seq [WordB; lit "key"; ws;
       opt (Grp 1 (alts [lit "lock"; lit "unlock"; lit "service"; lit "issued";
                         lit "return"; lit "pickup"; lit "drop"; lit "set"]));
       WordB].

(** [\b(ir|incident)\s*#\s*\d+] *)
Definition rx_ir_number : re :=
  seq [WordB; Grp 1 (Alt (lit "ir") (lit "incident")); ws; lit "#"; ws; plus d].

(** The first layer: the rules on the explicit category line. *)
Definition classify_explicit (buffer : Buffer) : option string :=
  match buffer !! "category" with
  | None => None
  | Some c =>
      let cat := lower c in
      if contains "aes phone call" cat then Some SEC_AES
      else if (contains "loading dock" cat || contains "dock gate" cat)
              && negb (contains "abm" (lower (get buffer "action")))
      then Some SEC_DOCK
      else if contains "key service" cat || contains "key" cat then Some SEC_KEY
      else if contains "bypass online" cat || contains "fire panel" cat
              || contains "fire system online" cat || contains "until" cat
      then Some SEC_FIRE
      else if contains "transient" cat then Some SEC_TRANSIENT
      else if contains "work order" cat then Some SEC_WORK
      else if contains "retail" cat then Some SEC_RETAIL
      else if contains "incident report" cat || contains "alarm" cat then Some SEC_IR
      else if contains "janitorial" cat then Some SEC_JANITORIAL
      else if contains "other/miscellaneous" cat then Some SEC_ADDITIONAL
      else None
  end.

(** The text that the second layer searches.  [labels] is the label set
    in the order in which Python iterates over it. *)
Definition classify_text (buffer : Buffer) (labels : list string) : string :=
  lower (join " " (labels ++ [ get buffer "action"; get buffer "company";
                               get buffer "location"; get buffer "category" ])).

Definition issue_words : list string :=
  [ "issue"; "concern"; "complaint"; "problem";
    "request"; "notify"; "notified"; "reported" ].

(** The strong incident-report signals of the second layer. *)
Definition strong_ir_signal (txt : string) : bool :=
  contains "incident report" txt
  || occurs rx_ir_number txt
  || any_in [ "police"; "911"; "injury"; "assault"; "theft"; "robbery" ] txt.

(** The second layer: keyword rules on the whole text, in this order. *)
Definition classify_heuristic (buffer : Buffer) (txt : string) : string :=
  if any_in [ "elevator entrapment incident"; "stuck in elevator";
              "elevator incident"; "got stuck in cap"; "doors stayed closed";
              "kone technician"; "otis elevator" ] txt
  then SEC_ELEVATOR
  else if contains "tenant" txt && any_in issue_words txt
          && negb (any_in [ "elevator"; "entrapment"; "stuck in elevator";
                            "kone"; "otis" ] txt)
  then SEC_TENANT
  else if any_in [ "damage"; "damaged"; "bent"; "broken"; "crack"; "dent";
                   "unable to close"; "hit"; "struck"; "collision"; "impact" ] txt
          && any_in [ "gate"; "door"; "frame"; "lock"; "glass";
                      "loading dock"; "dock gate" ] txt
  then SEC_DAMAGE
  else if (contains "elevator" txt || contains "entrapment" txt
           || contains "stuck in elevator" txt)
          && negb (contains "tenant" txt)
  then SEC_ELEVATOR
  else if any_in [ "spd presence/emergency response on site"; "spd presence";
                   "emergency response on site"; "spd response"; "sfd medics";
                   "911 called"; "police responded"; "medical emergency on site";
                   "officer contacted spd"; "security called 911";
                   "security called spd" ] txt
  then SEC_SPD
  else if (contains "spd" txt && contains "response" txt)
          || contains "emergency response on site" txt
  then SEC_SPD
  else if contains "tenant" txt && any_in issue_words txt
          && negb (any_in [ "elevator"; "entrapment"; "stuck in elevator" ] txt)
  then SEC_TENANT
  else if contains "aes" txt || contains "phone call" txt then SEC_AES
  else if (contains "loading dock" txt || contains "dock gate" txt)
          && negb (any_in [ "abm notified"; "upload picture" ] txt)
  then SEC_DOCK
  else if contains "key service" txt || occurs rx_key_action txt then SEC_KEY
  else if any_in [ "panel"; "bypass"; "trbl"; "supv"; "fire alarm";
                   "alarm test"; "hold" ] txt
  then SEC_FIRE
  else if contains "transient" txt || contains "trespass" txt
          || (contains "removed" txt && contains "person" txt)
  then SEC_TRANSIENT
  else if contains "work order" txt || contains "building engines" txt
  then SEC_WORK
  else if strong_ir_signal txt then SEC_IR
  else if existsb (seqb (lower (get buffer "category")))
                  [ "janitorial"; "seattle ambassadors" ]
          || any_in [ "janitorial"; "abm notified"; "upload picture"; "abm";
                      "clean"; "trash"; "garbage"; "spill"; "vacuum"; "mop";
                      "sweep"; "ambassador"; "mid call"; "mid dispatch";
                      "seattle ambassadors" ] txt
  then SEC_JANITORIAL
  else UNCLASSIFIED.

Definition classify (buffer : Buffer) (labels : list string) : string :=
  match classify_explicit buffer with
  | Some sec => sec
  | None => classify_heuristic buffer (classify_text buffer labels)
  end.

(** ** Timestamps of built entries *)

Record datetime : Type := DateTime {
  year : Z; month : Z; day : Z;
  hour : Z; minute : Z; second : Z; microsecond : Z
}.

(** [datetime.max] *)
Definition dt_max : datetime := DateTime 9999 12 31 23 59 59 999999.

(** The position of a [datetime] on the time line; [datetime]s compare
    as these numbers do. *)
Definition dt_ord (t : datetime) : Z :=
  ((((((year t * 12 + (month t - 1)) * 31 + (day t - 1)) * 24 + hour t) * 60
     + minute t) * 60 + second t) * 1000000 + microsecond t)%Z.

Definition dt_le (a b : datetime) : Prop := (dt_ord a <= dt_ord b)%Z.
Definition dt_lt (a b : datetime) : Prop := (dt_ord a < dt_ord b)%Z.
Definition dt_leb (a b : datetime) : bool := (dt_ord a <=? dt_ord b)%Z.
Definition dt_ltb (a b : datetime) : bool := (dt_ord a <? dt_ord b)%Z.

Definition is_leap (y : nat) : bool :=
  ((y mod 4 =? 0) && negb (y mod 100 =? 0) || (y mod 400 =? 0))%nat.

Definition days_in_month (y m : nat) : nat :=
  match m with
  | 2 => if is_leap y then 29 else 28
  | 4 | 6 | 9 | 11 => 30
  | _ => 31
  end.

Definition nonzero_digit : re := set "123456789".

(** The pattern that [strptime] compiles for ["%m/%d/%y %I:%M %p"]; it is
    matched ignoring case, and a blank of the format stands for [\s+]. *)
Definition rx_strptime : re :=
  seq [ Grp 1 (alts [ Cat (lit "1") (set "012"); Cat (lit "0") nonzero_digit;
                      nonzero_digit ]);
        lit "/";
        Grp 2 (alts [ Cat (lit "3") (set "01"); Cat (set "12") d;
                      Cat (lit "0") nonzero_digit; nonzero_digit;
                      Cat (lit " ") nonzero_digit ]);
        lit "/";
        Grp 3 (Cat d d);
        ws1;
        Grp 4 (alts [ Cat (lit "1") (set "012"); Cat (lit "0") nonzero_digit;
                      nonzero_digit ]);
        lit ":";
        Grp 5 (Alt (Cat (set "012345") d) d);
        ws1;
        Grp 6 (Alt (liti "am") (liti "pm")) ].

(** The ranges that the [datetime] constructor checks. *)
Definition valid_datetime (y m dd h mi : nat) : bool :=
  (1 <=? y)%nat && (Z.of_nat y <=? 9999)%Z && (1 <=? m)%nat && (m <=? 12)%nat
  && (1 <=? dd)%nat && (dd <=? days_in_month y m)%nat
  && (h <=? 23)%nat && (mi <=? 59)%nat.

(** [datetime.strptime(s, "%m/%d/%y %I:%M %p")]; [None] where Python
    raises [ValueError]: the pattern does not match, text remains after
    the match, or the fields are not those of a date. *)
Definition strptime (s : string) : option datetime :=
  match rmatch rx_strptime s with
  | None => None
  | Some f =>
      if truthy (rest f) then None
      else
        let g := groups f in
        let yy := int_of (grp 3 g) in
        let y := (if yy <=? 68 then 2000 + yy else 1900 + yy)%nat in
        let m := int_of (strip (grp 1 g)) in
        let dd := int_of (strip (grp 2 g)) in
        let h12 := int_of (grp 4 g) in
        let mi := int_of (grp 5 g) in
        let pm := seqb (lower (grp 6 g)) "pm" in
        let h := (if pm then (if h12 =? 12 then 12 else h12 + 12)
                  else (if h12 =? 12 then 0 else h12))%nat in
        if valid_datetime y m dd h mi
        then Some (DateTime (Z.of_nat y) (Z.of_nat m) (Z.of_nat dd) (Z.of_nat h)
                            (Z.of_nat mi) 0 0)
        else None
  end.

(** [^(\d{2}/\d{2}/\d{2})\s+(\d{1,2}:\d{2}\s*[AP]M)] *)
Definition rx_entry_stamp : re :=
  seq [ Bol;
        Grp 1 (seq [ d; d; lit "/"; d; d; lit "/"; d; d ]);
        ws1;
        Grp 2 (seq [ times 1 2 d; lit ":"; d; d; ws; set "AP"; lit "M" ]) ].

(** The timestamp that an entry starts with, when it has one that
    [strptime] reads. *)
Definition entry_time (line : string) : option datetime :=
  match rmatch rx_entry_stamp line with
  | None => None
  | Some f => strptime (grp 1 (groups f) ++ " " ++ grp 2 (groups f))
  end.

Definition _extract_dt (line : string) : datetime :=
  default dt_max (entry_time line).

(** ** Location names and entry lines *)

(** [re.split(r"(\s+)", loc)]: the runs of blank and of non-blank
    characters of [loc], alternating; [true] marks a run of blanks. *)
Fixpoint runs_go (s : string) (cur : string) (blank : bool) : list (bool * string) :=
  match s with
  | EmptyString => [(blank, srev cur)]
  | String c r =>
      if Bool.eqb (is_space c) blank
      then runs_go r (String c cur) blank
      else (blank, srev cur) :: runs_go r (String c EmptyString) (is_space c)
  end.

Definition runs (s : string) : list (bool * string) := runs_go s EmptyString false.

Definition skip_words : list string :=
  [ "and"; "or"; "of"; "the"; "to"; "from"; "at"; "in" ].

Definition format_word (first : bool) (w : bool * string) : string :=
  let word := snd w in
  if fst w || negb (truthy word) then word
  else if isupper word && (1 <? String.length word)%nat then word
  else if first || negb (existsb (seqb (lower word)) skip_words)
       then capitalize (lower word)
       else lower word.

Definition format_location_name (loc : string) : string :=
  if truthy loc then
    match runs (strip loc) with
    | [] => ""
    | w :: ws => String.concat "" (format_word true w :: map (format_word false) ws)
    end
  else "".

(** The en dash (U+2013) that separates the parts of an entry. *)
Definition EN_DASH : string := String "226" (String "128" (String "147" "")).
Definition DASH_SEP : string := " " ++ EN_DASH ++ " ".

(** [s.strip(" –")]: blanks and en dashes removed at both ends. *)
Fixpoint lstrip_dash_go (fuel : nat) (s : string) : string :=
  match fuel with
  | O => s
  | S f =>
      if startswith " " s then lstrip_dash_go f (drop 1 s)
      else if startswith EN_DASH s then lstrip_dash_go f (drop 3 s)
      else s
  end.

Definition lstrip_dash (s : string) : string := lstrip_dash_go (String.length s) s.

Fixpoint rstrip_dash_go (fuel : nat) (r : string) : string :=
  match fuel with
  | O => r
  | S f =>
      if startswith " " r then rstrip_dash_go f (drop 1 r)
      else if startswith (srev EN_DASH) r then rstrip_dash_go f (drop 3 r)
      else r
  end.

Definition strip_dash (s : string) : string :=
  let l := lstrip_dash s in
  srev (rstrip_dash_go (String.length l) (srev l)).

(** [(\d{1,2})/(\d{1,2})/(\d{4})\s+(\d{1,2}:\d{2}\s*[AP]M)] under IGNORECASE *)
Definition rx_date_time : re :=
  seq [ Grp 1 (times 1 2 d); lit "/"; Grp 2 (times 1 2 d); lit "/";
        Grp 3 (times 4 4 d); ws1;
        Grp 4 (seq [ times 1 2 d; lit ":"; d; d; ws; seti "AP"; liti "M" ]) ].

(** The short form [MM/DD/YY H:MM AM] of a date that has the long one. *)
Definition short_date (date : string) : option string :=
  match search rx_date_time date with
  | Some f =>
      let g := groups f in
      Some (pad2 (int_of (grp 1 g)) ++ "/" ++ pad2 (int_of (grp 2 g)) ++ "/"
            ++ last_n 2 (grp 3 g) ++ " " ++ upper (grp 4 g))
  | None => None
  end.

(** [\bClose\b] *)
Definition rx_close_word : re := seq [ WordB; lit "Close"; WordB ].

(** The action of an entry: in the past tense and without a stray
    "Close". *)
Definition past_action (action : string) : string :=
  if truthy action
  then strip (Re.remove rx_close_word (to_past_tense action))
  else action.

Definition build_event_line (buffer : Buffer) : string :=
  let date0 := strip (get buffer "date") in
  let date := default date0 (short_date date0) in
  let officer := bold_officer (get buffer "officer") in
  let action := past_action (strip (get buffer "action")) in
  let company0 := strip (get buffer "company") in
  let location := strip (get buffer "location") in
  let company :=
    if truthy company0 && truthy action
       && contains (lower company0) (lower action)
    then "" else company0 in
  let clause := action ++ (if truthy company then " for " ++ company else "") in
  let place := "(" ++ location ++ ")" in
  let parts :=
    ((if truthy date then [date] else [])
     ++ (if truthy officer then [officer] else [])
     ++ (if truthy action then [clause] else [])
     ++ (if truthy location then [place] else []))%list in
  strip_dash (join DASH_SEP (filter (fun p => truthy p = true) parts)).

(** ** Narrative templates of [flush_event]

    The templates of the Loading Dock, Fire Panel, AES, Janitorial and
    Property Damage sections are embedded below.  Each of them rewrites
    the [action] of the buffer and hands it to [build_event_line]. *)

(** [(\d{1,2}:\d{2}\s*[AP]M|\d{3,4}\s*[AP]M|\d{1,2}\s*[AP]M)] under IGNORECASE *)
Definition rx_hold_time : re :=
  Grp 1 (alts [ seq [ times 1 2 d; lit ":"; d; d; ws; seti "AP"; liti "M" ];
                seq [ times 3 4 d; ws; seti "AP"; liti "M" ];
                seq [ times 1 2 d; ws; seti "AP"; liti "M" ] ]).

(** [^\d{3,4}[AP]M$] and [^\d{1,2}[AP]M$] *)
Definition rx_compact_time : re := seq [ Bol; times 3 4 d; set "AP"; lit "M"; Eol ].
Definition rx_hour_only : re := seq [ Bol; times 1 2 d; set "AP"; lit "M"; Eol ].

(** [s.zfill(2)] for a string of one or two digits. *)
Definition zfill2 (s : string) : string :=
  if (String.length s <? 2)%nat then "0" ++ s else s.

(** The "until" time that the Fire Panel and AES templates read in the
    action, normalised; [None] when the action names no time. *)
Definition hold_until (action : string) : option string :=
  match search rx_hold_time action with
  | None => None
  | Some f =>
      let raw_time := replace " " "" (upper (grp 1 (groups f))) in
      if matches rx_compact_time raw_time then
        let digits0 := Re.remove (Cat (set "AP") (lit "M")) raw_time in
        let ampm := if contains "A" raw_time then "AM" else "PM" in
        let digits := if (String.length digits0 =? 3)%nat then "0" ++ digits0 else digits0 in
        Some (take 2 digits ++ ":" ++ drop 2 digits ++ " " ++ ampm)
      else if matches rx_hour_only raw_time then
        let hh := zfill2 (take (String.length raw_time - 2) raw_time) in
        Some (hh ++ ":00 " ++ last_n 2 raw_time)
      else Some raw_time
  end.

Definition or_default (s dflt : string) : string := if truthy s then s else dflt.

Definition until_clause (action fallback : string) : string :=
  match hold_until action with
  | Some t => " until " ++ t
  | None => fallback
  end.

Definition loading_dock_action (buffer : Buffer) : Buffer :=
  let action0 := strip (get buffer "action") in
  let company := strip (get buffer "company") in
  if truthy action0 then
    let action := to_past_tense action0 in
    let l := lower action in
    if contains "unlock" l || contains "open" l then
      <["action" :=
          "was dispatched to the loading dock in response to delivery needs and unlocked the gate for "
          ++ company ++ ", granting authorized access and facilitating scheduled operations."]> buffer
    else if contains "lock" l || contains "secure" l || contains "close" l then
      <["action" :=
          "was dispatched to the loading dock and secured the gate after "
          ++ company ++ "'s delivery, maintaining site safety and compliance."]> buffer
    else
      <["action" :=
          "was dispatched to the loading dock and " ++ action ++ " for " ++ company]> buffer
  else buffer.

Definition fire_panel_action (buffer : Buffer) : Buffer :=
  let action := strip (get buffer "action") in
  let company := strip (get buffer "company") in
  let l := lower action in
  let vendor := or_default company "the vendor" in
  let hold_types0 :=
    ((if contains "full" l then ["full hold"] else [])
     ++ (if contains "supervisory" l then ["supervisory hold"] else [])
     ++ (if contains "trouble" l then ["trouble hold"] else []))%list in
  let hold_types :=
    match hold_types0 with
    | [] => if contains "hold" l || contains "extend" l || contains "bypass" l
               || contains "put" l
            then ["supervisory hold"] else []
    | _ => hold_types0
    end in
  let hold_type_str :=
    if contains "supervisory" l && contains "trouble" l
    then "supervisory and trouble hold"
    else match hold_types with
         | [] => "system hold"
         | _ => join " and " hold_types
         end in
  let until := until_clause action " until the scheduled time" in
  let text :=
    if contains "extend" l || contains "extended" l then
      "conducted fire panel operations and extended the " ++ hold_type_str
      ++ until ++ " in coordination with " ++ vendor
    else if contains "hold" l || contains "bypass" l || contains "put" l
            || contains "place" l then
      "conducted fire panel operations and put the system on " ++ hold_type_str
      ++ until ++ " in coordination with " ++ vendor
    else if any_in [ "restore"; "restored"; "back online"; "bring online";
                     "brought online"; "online"; "remove"; "removed" ] l then
      if contains "full" l then
        "conducted fire panel operations and restored the system from full hold "
        ++ "in coordination with " ++ vendor
      else if contains "supervisory" l && contains "trouble" l then
        "conducted fire panel operations and restored the system from supervisory and trouble hold "
        ++ "in coordination with " ++ vendor
      else if contains "supervisory" l then
        "conducted fire panel operations and restored the system from supervisory hold "
        ++ "in coordination with " ++ vendor
      else if contains "trouble" l then
        "conducted fire panel operations and restored the system from trouble hold "
        ++ "in coordination with " ++ vendor
      else
        "conducted fire panel operations and restored the system online "
        ++ "in coordination with " ++ vendor
    else
      "conducted fire panel operations and extended the " ++ hold_type_str
      ++ until ++ " in coordination with " ++ vendor in
  <["action" := text]> buffer.

Definition AES_DEFAULT_ACTION : string :=
  "handled AES phone call to put the fire system on test".

Definition aes_action (buffer : Buffer) : Buffer :=
  let action := strip (get buffer "action") in
  let company := strip (get buffer "company") in
  let operator_name := strip (or_default (get buffer "operator_name") "N/A") in
  let operator_number := strip (or_default (get buffer "operator_number") "N/A") in
  let l := lower action in
  let vendor := or_default company "the vendor" in
  let has_supervisory := contains "supervisory" l in
  let has_trouble := contains "trouble" l in
  let has_full := contains "full" l in
  let hold_type_str :=
    if has_full then "full hold"
    else if has_supervisory && has_trouble then "supervisory and trouble hold"
    else if has_supervisory then "supervisory hold"
    else if has_trouble then "trouble hold"
    else if any_in [ "hold"; "extend"; "test" ] l then "supervisory hold"
    else "system hold" in
  let until := until_clause action "" in
  let operator_bold :=
    "<font color='green'>(Operator Name: <b>" ++ operator_name
    ++ "</b>, Operator Number: <b>" ++ operator_number ++ "</b>)</font>" in
  let operator_plain :=
    "<font color='green'>(Operator Name: " ++ operator_name
    ++ ", Operator Number: " ++ operator_number ++ ")</font>" in
  let text :=
    if contains "extend" l then
      "called the AES Alarm Monitoring and extended the " ++ hold_type_str
      ++ until ++ " in coordination with " ++ vendor ++ " " ++ operator_bold
    else if any_in [ "hold"; "bypass"; "test" ] l then
      "called the AES Alarm Monitoring and placed the system on " ++ hold_type_str
      ++ until ++ " in coordination with " ++ vendor ++ " " ++ operator_bold
    else
      "called the AES Alarm Monitoring and placed the system on " ++ hold_type_str
      ++ until ++ " in coordination with " ++ vendor ++ " " ++ operator_plain in
  <["action" := text]> buffer.

Definition AMBASSADOR_ACTION : string :=
  "placed a phone call to MID to dispatch the Seattle Ambassadors on site "
  ++ "to clean human waste, bodily fluids, and messy trash on the exterior.".

Definition janitorial_action (buffer : Buffer) : Buffer :=
  let action := strip (get buffer "action") in
  let company := strip (or_default (get buffer "company") "ABM Janitorial") in
  let l := lower action in
  (* the Seattle Ambassadors wording is assigned first and then always
     overwritten by the keyword chain, whose last branch is unconditional *)
  let b0 :=
    if any_in [ "seattle ambassadors"; "ambassador"; "mid call"; "mid dispatch" ] l
    then <["action" := AMBASSADOR_ACTION]> buffer else buffer in
  let text :=
    if any_in [ "spill"; "liquid"; "water leak"; "slip"; "hazard" ] l then
      "coordinated janitorial response and notified " ++ company
      ++ " to clean a reported spill/hazard to ensure safety and prevent accidents"
    else if any_in [ "trash"; "garbage"; "overflow"; "waste"; "dumpster" ] l then
      "reported janitorial concern of trash overflow and dispatched " ++ company
      ++ " to clear the waste and maintain cleanliness"
    else if any_in [ "restroom"; "toilet"; "bathroom"; "urinal"; "supply";
                     "paper towel"; "soap" ] l then
      "notified " ++ company ++ " regarding restroom cleaning and supply replenishment "
      ++ "to maintain sanitary conditions"
    else if any_in [ "vacuum"; "sweep"; "mop"; "sanitize"; "disinfect" ] l then
      "assigned " ++ company ++ " to perform floor care and sanitization tasks, "
      ++ "including vacuuming, mopping, or sweeping as required"
    else if any_in [ "odor"; "smell"; "stain"; "debris"; "dirty";
                     "cleaning required" ] l then
      "requested " ++ company ++ " to address reported odor, stains, or debris "
      ++ "to restore a clean and professional environment"
    else
      "coordinated janitorial services through " ++ company
      ++ " to address reported cleaning needs on site" in
  let b1 := <["action" := text]> b0 in
  if filled b1 "location"
  then <["location" := format_location_name (get b1 "location")]> b1
  else b1.

Definition property_damage_action (buffer : Buffer) : Buffer :=
  let action := strip (get buffer "action") in
  let location := strip (get buffer "location") in
  let company := strip (get buffer "company") in
  let l := lower action in
  let site := or_default location "the site" in
  let text :=
    if any_in [ "hit"; "struck"; "collided"; "impact"; "crash"; "bump" ] l then
      "reported property damage at " ++ site ++ " after impact involving "
      ++ or_default company "a vehicle" ++ ", noting " ++ action
    else if any_in [ "broken"; "cracked"; "shattered"; "smashed"; "glass";
                     "window" ] l then
      "reported property damage involving glass or structural breakage at "
      ++ site ++ ", with details indicating " ++ action
    else if any_in [ "bent"; "dented"; "warped"; "lock"; "frame"; "gate";
                     "door" ] l then
      "reported property damage at " ++ site
      ++ ", describing physical issues such as " ++ action
    else if any_in [ "burn"; "scorch"; "fire"; "heat" ] l then
      "reported property damage related to fire or heat exposure at " ++ site
      ++ ", with details noting " ++ action
    else if any_in [ "leak"; "flood"; "water"; "spill" ] l then
      "reported property damage associated with water intrusion at " ++ site
      ++ ", with details noting " ++ action
    else
      "reported property damage at " ++ site ++ ", with details noting " ++ action in
  <["action" := text]> buffer.

(** The templates of the Incident Reports, Elevator Entrapment, Work
    Orders and Key Service sections, and the block reader of the
    Additional Information scan, are taken as an interface: what each
    hands to the report is all that the scanner and the aggregator see
    of them. *)

(** What the Additional Information scan makes of the block that starts
    at a line: nothing for want of a comment (the scan resumes [skip]
    lines further on), nothing for want of a date (the scan moves on by
    one line), or an entry (the scan resumes at the next block). *)
Inductive misc_block : Type :=
| NoComment (skip : nat)
| NoDate
| MiscEntry (evt : string) (skip : nat).

Class Templates : Type := {
  (** the entry that a template appends for a buffer, if it appends one *)
  incident_report_entry : Buffer -> option string;
  elevator_entry : Buffer -> option string;
  work_order_entry : list string -> Buffer -> option string;
  key_service_entry : Buffer -> option string;
  (** the block of the Additional Information scan at an index of the lines *)
  misc_block_at : list string -> nat -> misc_block
}.

(** ** The state of the scan *)

Abbreviation Report := (gmap string (list string)).

(** An event that [flush_event] classified: its section, whether a
    "Transient Removal" label had been seen for it, and the line that
    [build_event_line] makes of its buffer.  The [history] of the state
    lists the events classified so far; it is a history variable of this
    development, which the program neither has nor reads. *)
Record event : Type := Event {
  ev_section : string;
  ev_tagged : bool;
  ev_line : string
}.

Record State : Type := MkState {
  parsed : Report;
  in_tour : bool;
  buffer : Buffer;
  labels : list string;           (* the [set] of label lines, in insertion order *)
  waiting_officer_nested : bool;
  last_field : option string;
  transient_count : nat;
  transient_tag_seen : bool;
  in_ambassador : bool;
  ambassador_buffer : Buffer;
  in_spd : bool;
  spd_buffer : Buffer;
  history : list event
}.

Definition with_parsed (p : Report) (st : State) : State :=
  MkState p (in_tour st) (buffer st) (labels st) (waiting_officer_nested st)
    (last_field st) (transient_count st) (transient_tag_seen st) (in_ambassador st)
    (ambassador_buffer st) (in_spd st) (spd_buffer st) (history st).

Definition with_in_tour (v : bool) (st : State) : State :=
  MkState (parsed st) v (buffer st) (labels st) (waiting_officer_nested st) (last_field
    st) (transient_count st) (transient_tag_seen st) (in_ambassador st)
    (ambassador_buffer st) (in_spd st) (spd_buffer st) (history st).

Definition with_buffer (b : Buffer) (st : State) : State :=
  MkState (parsed st) (in_tour st) b (labels st) (waiting_officer_nested st)
    (last_field st) (transient_count st) (transient_tag_seen st) (in_ambassador st)
    (ambassador_buffer st) (in_spd st) (spd_buffer st) (history st).

Definition with_labels (l : list string) (st : State) : State :=
  MkState (parsed st) (in_tour st) (buffer st) l (waiting_officer_nested st)
    (last_field st) (transient_count st) (transient_tag_seen st) (in_ambassador st)
    (ambassador_buffer st) (in_spd st) (spd_buffer st) (history st).

Definition with_waiting (v : bool) (st : State) : State :=
  MkState (parsed st) (in_tour st) (buffer st) (labels st) v (last_field st)
    (transient_count st) (transient_tag_seen st) (in_ambassador st) (ambassador_buffer
    st) (in_spd st) (spd_buffer st) (history st).

Definition with_last_field (f : option string) (st : State) : State :=
  MkState (parsed st) (in_tour st) (buffer st) (labels st) (waiting_officer_nested st)
    f (transient_count st) (transient_tag_seen st) (in_ambassador st)
    (ambassador_buffer st) (in_spd st) (spd_buffer st) (history st).

Definition with_transient_count (n : nat) (st : State) : State :=
  MkState (parsed st) (in_tour st) (buffer st) (labels st) (waiting_officer_nested st)
    (last_field st) n (transient_tag_seen st) (in_ambassador st) (ambassador_buffer st)
    (in_spd st) (spd_buffer st) (history st).

Definition with_tag_seen (v : bool) (st : State) : State :=
  MkState (parsed st) (in_tour st) (buffer st) (labels st) (waiting_officer_nested st)
    (last_field st) (transient_count st) v (in_ambassador st) (ambassador_buffer st)
    (in_spd st) (spd_buffer st) (history st).

Definition with_ambassador (v : bool) (b : Buffer) (st : State) : State :=
  MkState (parsed st) (in_tour st) (buffer st) (labels st) (waiting_officer_nested st)
    (last_field st) (transient_count st) (transient_tag_seen st) v b (in_spd st)
    (spd_buffer st) (history st).

Definition with_spd (v : bool) (b : Buffer) (st : State) : State :=
  MkState (parsed st) (in_tour st) (buffer st) (labels st) (waiting_officer_nested st)
    (last_field st) (transient_count st) (transient_tag_seen st) (in_ambassador st)
    (ambassador_buffer st) v b (history st).

Definition with_history (h : list event) (st : State) : State :=
  MkState (parsed st) (in_tour st) (buffer st) (labels st) (waiting_officer_nested st)
    (last_field st) (transient_count st) (transient_tag_seen st) (in_ambassador st)
    (ambassador_buffer st) (in_spd st) (spd_buffer st) h.

(** [buffer[k] = v] on the open buffer. *)
Definition set_field (k v : string) (st : State) : State :=
  with_buffer (<[k := v]> (buffer st)) st.

(** [parsed = {s: [] for s in SECTIONS}] and the other initial values. *)
Definition empty_report : Report :=
  list_to_map (map (fun s => (s, @nil string)) SECTIONS).

Definition initial_state : State :=
  MkState empty_report false ∅ [] false None 0 false false ∅ false ∅ [].

(** ** Outcomes: a value, a Python exception, or a loop that never ends *)

Inductive exn : Type :=
| KeyError (key : string)
| IndexError.

Inductive outcome (A : Type) : Type :=
| Returns (a : A)
| Raises (e : exn)
| Diverges.

Arguments Returns {A} a.
Arguments Raises {A} e.
Arguments Diverges {A}.

#[export] Instance outcome_ret : MRet outcome := fun A a => Returns a.

#[export] Instance outcome_bind : MBind outcome := fun A B f x =>
  match x with
  | Returns a => f a
  | Raises e => Raises e
  | Diverges => Diverges
  end.

(** [parsed[sec].append(evt)]; the subscript raises [KeyError] for a key
    that the report does not have. *)
Definition append_entry (sec evt : string) (p : Report) : outcome Report :=
  match p !! sec with
  | Some l => Returns (<[sec := (l ++ [evt])%list]> p)
  | None => Raises (KeyError sec)
  end.

(** [if evt: parsed[sec].append(evt)] *)
Definition append_if_any (sec evt : string) (p : Report) : outcome Report :=
  if truthy evt then append_entry sec evt p else Returns p.

Definition append_option (sec : string) (evt : option string) (p : Report)
  : outcome Report :=
  match evt with
  | Some e => append_entry sec e p
  | None => Returns p
  end.

(** ** The Additional Information scan of [flush_event] *)

(** [\bOther\s*/?\s*Miscellaneous\b] under IGNORECASE *)
Definition rx_other_misc : re :=
  seq [ WordB; liti "Other"; ws; opt (lit "/"); ws; liti "Miscellaneous"; WordB ].

(** [END\s*OF\s*REPORT|DAILY\s*ACTIVITY|^Page\s+\d+] under IGNORECASE *)
Definition rx_report_end : re :=
  alts [ seq [ liti "END"; ws; liti "OF"; ws; liti "REPORT" ];
         seq [ liti "DAILY"; ws; liti "ACTIVITY" ];
         seq [ Bol; liti "Page"; ws1; plus d ] ].

(** [^\d{1,2}/\d{1,2}/\d{2,4}\s+\d{1,2}:\d{2}] *)
Definition rx_stamp_prefix : re :=
  seq [ Bol; times 1 2 d; lit "/"; times 1 2 d; lit "/"; times 2 4 d; ws1;
        times 1 2 d; lit ":"; d; d ].

(** [^Start\s*(?:Date|Time)\s*:] under IGNORECASE *)
Definition rx_start_date_or_time : re :=
  seq [ Bol; liti "Start"; ws; Alt (liti "Date") (liti "Time"); ws; lit ":" ].

(** [REPORT\s*-\s*LOGBOOK|Generated\s+on] under IGNORECASE *)
Definition rx_footer : re :=
  Alt (seq [ liti "REPORT"; ws; lit "-"; ws; liti "LOGBOOK" ])
      (seq [ liti "Generated"; ws1; liti "on" ]).

(** Whether a line opens a block of the scan, given the entries that the
    Additional Information section holds so far. *)
Definition misc_trigger (ln : string) (entries : list string) : bool :=
  occurs rx_other_misc ln
  || (negb (bool_decide (entries = []))
      && negb (occurs rx_report_end ln)
      && (matches rx_stamp_prefix ln || matches rx_start_date_or_time ln)).

(** [if evt not in parsed[...]: parsed[...].append(evt)] *)
Definition append_unique (evt : string) (entries : list string) : list string :=
  if existsb (seqb evt) entries then entries else (entries ++ [evt])%list.

(** The [while i < n] loop.  Every turn moves [i] forward except a block
    without comment whose end is the line where it starts: there the loop
    repeats the same turn for ever. *)
Fixpoint misc_scan `{Templates} (fuel : nat) (lines : list string) (i : nat)
  (entries : list string) : outcome (list string) :=
  match fuel with
  | O => Diverges
  | S fuel' =>
      match lines !! i with
      | None => Returns entries
      | Some ln =>
          if misc_trigger ln entries then
            if occurs rx_footer ln then misc_scan fuel' lines (S i) entries
            else
              match misc_block_at lines i with
              | NoComment O => Diverges
              | NoComment (S k) => misc_scan fuel' lines (i + S k) entries
              | NoDate => misc_scan fuel' lines (S i) entries
              | MiscEntry evt k =>
                  misc_scan fuel' lines (i + Nat.max k 1) (append_unique evt entries)
              end
          else misc_scan fuel' lines (S i) entries
      end
  end.

(** ** [flush_event] *)

(** The empty-buffer rule: nothing to report in the buffer. *)
Definition is_empty_event (b : Buffer) : bool :=
  negb (nonempty b)
  || (negb (filled b "action") && negb (filled b "incident_description")
      && negb (filled b "incident_comments") && negb (filled b "category")).

(** The reset at the end of [flush_event]. *)
Definition reset_event (st : State) : State :=
  with_last_field None (with_tag_seen false (with_labels [] (with_buffer ∅ st))).

(** The default action of an AES event that has none. *)
Definition default_aes_action (sec : string) (b : Buffer) : Buffer :=
  if seqb sec SEC_AES && negb (filled b "action")
  then <["action" := AES_DEFAULT_ACTION]> b
  else b.

Section Flush.
Context `{Templates}.
(** the order in which Python iterates over the [set] of labels *)
Variable set_order : list string -> list string.
Variable lines : list string.

(** What one section does with the buffer: the report and the
    transient counter afterwards. *)
Definition emit (sec : string) (b : Buffer) (st : State) : outcome State :=
  let p := parsed st in
  if seqb sec SEC_IR then
    p' ← append_option sec (incident_report_entry b) p; mret (with_parsed p' st)
  else if seqb sec SEC_ELEVATOR then
    p' ← append_option sec (elevator_entry b) p; mret (with_parsed p' st)
  else if seqb sec SEC_WORK then
    p' ← append_option sec (work_order_entry lines b) p; mret (with_parsed p' st)
  else if seqb sec SEC_DAMAGE then
    p' ← append_if_any sec (build_event_line (property_damage_action b)) p;
    mret (with_parsed p' st)
  else if seqb sec SEC_KEY then
    p' ← append_option sec (key_service_entry b) p; mret (with_parsed p' st)
  else if seqb sec SEC_DOCK then
    p' ← append_if_any sec (build_event_line (loading_dock_action b)) p;
    mret (with_parsed p' st)
  else if seqb sec SEC_FIRE then
    p' ← append_if_any sec (build_event_line (fire_panel_action b)) p;
    mret (with_parsed p' st)
  else if seqb sec SEC_AES then
    p' ← append_if_any sec (build_event_line (aes_action b)) p;
    mret (with_parsed p' st)
  else if seqb sec SEC_JANITORIAL then
    p' ← append_if_any sec (build_event_line (janitorial_action b)) p;
    mret (with_parsed p' st)
  else if seqb sec SEC_ADDITIONAL then
    entries ← misc_scan (S (length lines)) lines 0 (default [] (p !! SEC_ADDITIONAL));
    mret (with_parsed (<[SEC_ADDITIONAL := entries]> p) st)
  else
    (* the normal path of every other section *)
    let evt := build_event_line b in
    if truthy evt then
      p' ← append_entry sec evt p;
      mret (with_transient_count
              (if seqb sec SEC_TRANSIENT || transient_tag_seen st
               then S (transient_count st) else transient_count st)
              (with_parsed p' st))
    else mret st.

Definition flush_event (st : State) : outcome State :=
  let b := buffer st in
  if is_empty_event b then
    mret (with_last_field None (with_buffer ∅ st))
  else
    let sec := classify b (set_order (labels st)) in
    let b' := default_aes_action sec b in
    st' ← emit sec b' st;
    mret (reset_event (with_history
            (history st ++ [Event sec (transient_tag_seen st) (build_event_line b')])%list
            st')).

End Flush.

(** ** The line scanner

    The body of the [for] loop of [parse_events] is a chain of tests, most
    of which end with [continue].  A stage of the chain answers [Done]
    where the source continues with the next line and [Next] where it
    falls through to the following test. *)

Inductive flow : Type :=
| Next (st : State)
| Done (st : State).

Definition flow_state (f : flow) : State :=
  match f with Next st | Done st => st end.

Abbreviation stage := (State -> outcome flow).

Definition and_then (s1 s2 : stage) : stage := fun st =>
  f ← s1 st;
  match f with
  | Next st' => s2 st'
  | Done st' => mret (Done st')
  end.

Fixpoint chain (l : list stage) : stage :=
  match l with
  | [] => fun st => mret (Next st)
  | s :: r => and_then s (chain r)
  end.

Definition next (st : State) : outcome flow := mret (Next st).
Definition done (st : State) : outcome flow := mret (Done st).

(** [lines.index(ln)] for a line of [lines]. *)
Fixpoint index_of (ln : string) (lines : list string) : nat :=
  match lines with
  | [] => 0
  | x :: r => if seqb x ln then 0 else S (index_of ln r)
  end.

(** [range(i - 1, max(0, i - k), -1)] *)
Definition range_back (i k : nat) : list nat :=
  rev (List.seq (S (i - k)) (i - 1 - (i - k))).

(** [lines[a:b]] *)
Definition slice (a b : nat) (lines : list string) : list string :=
  firstn (b - a) (skipn a lines).

(** [lines[a:]] *)
Definition from (a : nat) (lines : list string) : list string := skipn a lines.

(** The first element of a list that a function accepts. *)
Fixpoint first_some {A B} (f : A -> option B) (l : list A) : option B :=
  match l with
  | [] => None
  | x :: r => match f x with Some y => Some y | None => first_some f r end
  end.

(** [^\s*numbers\)\s*:\s*] under IGNORECASE *)
Definition rx_numbers : re := seq [ Bol; ws; liti "numbers)"; ws; lit ":"; ws ].

Definition digits_or_slash : re := set "0123456789/".

(** [start\s*date\s*:\s*([0-9/]+\s+\d{1,2}:\d{2}\s*[APap][Mm])] under IGNORECASE *)
Definition rx_start_date_ampm : re :=
  seq [ liti "start"; ws; liti "date"; ws; lit ":"; ws;
        Grp 1 (seq [ plus digits_or_slash; ws1; times 1 2 d; lit ":"; d; d; ws;
                     seti "AP"; liti "M" ]) ].

(** [(if\s*so,?\s*who\s*called|who\s*called\s*them)] under IGNORECASE *)
Definition rx_who_called : re :=
  Grp 1 (Alt (seq [ liti "if"; ws; liti "so"; opt (lit ","); ws; liti "who"; ws;
                    liti "called" ])
             (seq [ liti "who"; ws; liti "called"; ws; liti "them" ])).

(** [^(vehicle|synopsis|report|incident|description|time|location|escalation)\b] *)
Definition rx_who_called_stop : re :=
  seq [ Bol; Grp 1 (alts (map liti [ "vehicle"; "synopsis"; "report"; "incident";
                                     "description"; "time"; "location";
                                     "escalation" ])); WordB ].

(** [^\W+], [\s{2,}] and [([a-z])([A-Z])] *)
Definition rx_leading_nonword : re := seq [ Bol; plus (Chr (fun c => negb (is_word c))) ].
Definition rx_blanks2 : re := Rep true 2 None s_.
Definition rx_mashed : re := Cat (Grp 1 (Chr is_lower)) (Grp 2 (Chr is_upper)).

Definition squeeze_blanks (s : string) : string := sub rx_blanks2 (fun _ => " ") s.
Definition unmash (s : string) : string :=
  sub rx_mashed (fun f => grp 1 (groups f) ++ " " ++ grp 2 (groups f)) s.

(** The lines after [ln] up to the first one that [stop] accepts once
    stripped. *)
Fixpoint until_stop (stop : string -> bool) (l : list string) : list string :=
  match l with
  | [] => []
  | x :: r => if stop (strip x) then [] else strip x :: until_stop stop r
  end.

Definition who_called_value (lines : list string) (ln : string) : string :=
  let following := until_stop (matches rx_who_called_stop)
                     (from (S (index_of ln lines)) lines) in
  let val0 := fold_left (fun v s => if truthy s then v ++ " " ++ s else v)
                following (strip (after_colon ln)) in
  let val1 := strip (Re.remove rx_leading_nonword val0) in
  let val2 := unmash (squeeze_blanks val1) in
  strip (rstrip_chars ")" val2).

(** [all\s*persons\s*involved] under IGNORECASE *)
Definition rx_all_persons : re :=
  seq [ liti "all"; ws; liti "persons"; ws; liti "involved" ].

(** [^(-\s*description|description|vehicle|report|escalation|incident|synopsis)\b] *)
Definition rx_persons_stop : re :=
  seq [ Bol; Grp 1 (alts [ seq [ lit "-"; ws; liti "description" ];
                           liti "description"; liti "vehicle"; liti "report";
                           liti "escalation"; liti "incident"; liti "synopsis" ]);
        WordB ].

(** [REPORT\s*-\s*LOGBOOK\s*PDF] under IGNORECASE *)
Definition rx_logbook_pdf : re :=
  seq [ liti "REPORT"; ws; lit "-"; ws; liti "LOGBOOK"; ws; liti "PDF" ].

(** [^\d{1,2}/\d{1,2}/\d{4}\s+\d{1,2}:\d{2}] *)
Definition rx_footer_stamp : re :=
  seq [ Bol; times 1 2 d; lit "/"; times 1 2 d; lit "/"; times 4 4 d; ws1;
        times 1 2 d; lit ":"; d; d ].

(** [\band\b] under IGNORECASE *)
Definition rx_and : re := seq [ WordB; liti "and"; WordB ].

(** [s.split(",")] *)
Fixpoint split_comma_go (s cur : string) : list string :=
  match s with
  | EmptyString => [srev cur]
  | String c r =>
      if ceqb c "," then srev cur :: split_comma_go r EmptyString
      else split_comma_go r (String c cur)
  end.

Definition split_comma (s : string) : list string := split_comma_go s EmptyString.

(** The list of names with "and" before the last one.  When nothing is
    left between the commas, [parts[0]] raises. *)
Definition with_and (combined : string) : outcome string :=
  if truthy combined && contains "," combined then
    let parts := filter (fun p => truthy p = true) (map strip (split_comma combined)) in
    match rev parts with
    | [] => Raises IndexError
    | [only] => mret only
    | last :: before =>
        if negb (occurs rx_and last)
        then mret (join ", " (rev before) ++ ", and " ++ last)
        else mret (join ", " parts)
    end
  else mret combined.

(** [^-?\s*All\s*persons\s*involved.*?:] under IGNORECASE *)
Definition rx_persons_label : re :=
  seq [ Bol; opt (lit "-"); ws; liti "All"; ws; liti "persons"; ws; liti "involved";
        lazy_star dot; lit ":" ].

Definition persons_value (lines : list string) (ln : string) : outcome string :=
  let idx := index_of ln lines in
  let val0 := strip (after_colon ln) in
  let val :=
    if negb (truthy val0) && (idx + 1 <? length lines)%nat then
      let nxt_line := strip (default "" (lines !! (idx + 1)%nat)) in
      if negb (matches rx_persons_stop nxt_line) then nxt_line else val0
    else val0 in
  let more :=
    filter (fun s => (truthy s && negb (occurs rx_logbook_pdf s)
                      && negb (matches rx_footer_stamp s)
                      && negb (seqb s val)) = true)
           (until_stop (matches rx_persons_stop) (from (S idx) lines)) in
  let val_lines := ((if truthy val then [val] else []) ++ more)%list in
  let combined0 := join ", " val_lines in
  let combined1 := unmash (squeeze_blanks (Re.remove rx_persons_label combined0)) in
  with_and (strip (strip_chars " -,:" combined1)).

(** [^\d{1,2}/\d{1,2}/\d{4}\s+\d{1,2}:\d{2}\s*[APap][Mm]$] *)
Definition rx_bare_stamp : re :=
  seq [ Bol; times 1 2 d; lit "/"; times 1 2 d; lit "/"; times 4 4 d; ws1;
        times 1 2 d; lit ":"; d; d; ws; set "APap"; set "Mm"; Eol ].

(** [\b(until|by|at)\b] under IGNORECASE *)
Definition rx_until_by_at : re :=
  seq [ WordB; Grp 1 (alts [ liti "until"; liti "by"; liti "at" ]); WordB ].

(** [\bLoading\s+Dock\s+Gate\b], [\bFire\s+Panel\s+Bypass/Online\b] and
    [\bAES\s+Phone\s+Call\b] under IGNORECASE *)
Definition rx_loading_dock_gate : re :=
  seq [ WordB; liti "Loading"; ws1; liti "Dock"; ws1; liti "Gate"; WordB ].
Definition rx_fire_panel_label : re :=
  seq [ WordB; liti "Fire"; ws1; liti "Panel"; ws1; liti "Bypass/Online"; WordB ].
Definition rx_aes_label : re :=
  seq [ WordB; liti "AES"; ws1; liti "Phone"; ws1; liti "Call"; WordB ].

Definition letter : re := Chr is_alpha.
Definition name_word_i : re := Cat letter (plus letter).      (* [A-Z][A-Za-z]+ ignoring case *)
Definition name_word : re := Cat (Chr is_upper) (plus letter). (* [A-Z][A-Za-z]+ *)

(** [(?:\s*\((?:Officers?|Site\s+Supervisors?)\))?] under IGNORECASE *)
Definition role_suffix : re :=
  opt (seq [ ws; lit "(";
             Alt (Cat (liti "Officer") (opt (liti "s")))
                 (seq [ liti "Site"; ws1; liti "Supervisor"; opt (liti "s") ]);
             lit ")" ]).

(** [^[A-Z][A-Za-z]+\s+[A-Z][A-Za-z]+(?:...)?$] under IGNORECASE *)
Definition rx_name2_role : re :=
  seq [ Bol; name_word_i; ws1; name_word_i; role_suffix; Eol ].

(** [^[A-Z][A-Za-z]+(?:\s+[A-Z][A-Za-z]+){1,2}(?:...)?$] under IGNORECASE *)
Definition rx_name23_role : re :=
  seq [ Bol; name_word_i; times 1 2 (Cat ws1 name_word_i); role_suffix; Eol ].

(** [\(.*?\)] *)
Definition rx_parens : re := seq [ lit "("; lazy_star dot; lit ")" ].

(** [^(new activity|300 pine|close|start date|geolocation|page|report)] under
    IGNORECASE *)
Definition rx_noise_line : re :=
  seq [ Bol; Grp 1 (alts (map liti [ "new activity"; "300 pine"; "close";
                                     "start date"; "geolocation"; "page";
                                     "report" ])) ].

Definition capitalize_all (parts : list string) : string :=
  join " " (map capitalize parts).

(** The officer named on a line above a "Loading Dock Gate" label. *)
Definition dock_officer_on (prev_line : string) : option string :=
  if matches rx_name2_role prev_line then
    match split (strip (Re.remove rx_parens prev_line)) with
    | [p0; p1] =>
        if isupper p0 || isupper (head p0)
        then Some (capitalize p1 ++ " " ++ capitalize p0)
        else Some (capitalize_all [p0; p1])
    | parts => Some (capitalize_all parts)
    end
  else None.

(** The officer named on a line above a "Fire Panel Bypass/Online" or an
    "AES Phone Call" label. *)
Definition panel_officer_on (prev_line : string) : option string :=
  if occurs rx_noise_line prev_line then None
  else if matches rx_name23_role prev_line then
    match split (strip (Re.remove rx_parens prev_line)) with
    | [p0; p1] =>
        if isupper p0 then Some (capitalize p1 ++ " " ++ capitalize p0)
        else Some (capitalize_all [p0; p1])
    | [p0; p1; p2] =>
        if isupper p0 then Some (capitalize p1 ++ " " ++ capitalize p2)
        else Some (capitalize_all [p0; p1; p2])
    | parts => Some (capitalize_all parts)
    end
  else None.

(** [^[A-Z][A-Za-z]+\s+[A-Z][A-Za-z]+], with and without [$], and its
    all-capitals and capitalised variants *)
Definition rx_name2_prefix : re := seq [ Bol; name_word; ws1; name_word ].
Definition rx_last_first : re :=
  seq [ Bol; Grp 1 name_word; ws1; Grp 2 name_word; Eol ].
Definition rx_caps_caps : re :=
  seq [ Bol; Rep true 2 None (Chr is_upper); ws1; Rep true 2 None (Chr is_upper); Eol ].
Definition rx_cap_cap : re :=
  seq [ Bol; Chr is_upper; plus (Chr is_lower); ws1;
        Chr is_upper; plus (Chr is_lower); Eol ].

(** [\s*\((?:Officers?|Site\s+Supervisors?)\)\s*] under IGNORECASE *)
Definition rx_role : re :=
  seq [ ws; lit "(";
        Alt (Cat (liti "Officer") (opt (liti "s")))
            (seq [ liti "Site"; ws1; liti "Supervisor"; opt (liti "s") ]);
        lit ")"; ws ].

(** The officer named on one of the lines that follow "NEW ACTIVITY". *)
Definition activity_officer_on (line : string) : option string :=
  let maybe_officer := strip line in
  if matches rx_name2_prefix maybe_officer then
    let name0 := strip (Re.remove rx_parens maybe_officer) in
    let name1 := strip (Re.remove rx_role name0) in
    let name :=
      match rmatch rx_last_first name1 with
      | Some f =>
          capitalize (grp 2 (groups f)) ++ " " ++ capitalize (grp 1 (groups f))
      | None =>
          if matches rx_caps_caps name1 then
            match split name1 with
            | [p0; p1] => capitalize p1 ++ " " ++ capitalize p0
            | _ => name1
            end
          else if matches rx_cap_cap name1 then
            match split name1 with
            | first :: last :: _ => capitalize first ++ " " ++ capitalize last
            | _ => name1
            end
          else name1
      end in
    Some (strip (squeeze_blanks name))
  else None.

Definition nth_line (lines : list string) (j : nat) : string :=
  default "" (lines !! j).

(** *** Text of the SPD, Seattle Ambassadors and unsecured-door blocks *)

(** [str.title]: a letter is upper-cased after a character that is not a
    letter and lower-cased after a letter. *)
Fixpoint title_go (s : string) (after_letter : bool) : string :=
  match s with
  | EmptyString => EmptyString
  | String c r =>
      if is_alpha c
      then String (if after_letter then to_lower c else to_upper c) (title_go r true)
      else String c (title_go r false)
  end.

Definition title (s : string) : string := title_go s false.

(** The 12-hour reading [H:MM AM] of a 24-hour time. *)
Definition twelve_hour (hh : nat) : nat * string :=
  if (12 <=? hh)%nat then ((if (12 <? hh)%nat then hh - 12 else hh)%nat, "PM")
  else if (hh =? 0)%nat then (12%nat, "AM")
  else (hh, "AM").

Definition clock_12h (hh mm : nat) : string :=
  let '(h, ampm) := twelve_hour hh in
  str_of_nat h ++ ":" ++ pad2 mm ++ " " ++ ampm.

(** [(\d{1,2}):(\d{2})] *)
Definition rx_hh_mm : re := seq [ Grp 1 (times 1 2 d); lit ":"; Grp 2 (Cat d d) ].

(** [int(x)]: blanks around, an optional sign, digits with single
    underscores between them; [None] where Python raises [ValueError]. *)
Fixpoint digits_value (s : string) (acc : nat) (after_digit : bool) : option nat :=
  match s with
  | EmptyString => if after_digit then Some acc else None
  | String c r =>
      if is_digit c then digits_value r (10 * acc + (code c - 48)) true
      else if ceqb c "_" && after_digit
           then match r with
                | String c' _ => if is_digit c' then digits_value r acc false else None
                | EmptyString => None
                end
           else None
  end.

Definition py_int (x : string) : option Z :=
  match strip x with
  | String "-" r => option_map (fun n => (- Z.of_nat n)%Z) (digits_value r 0 false)
  | String "+" r => option_map Z.of_nat (digits_value r 0 false)
  | r => option_map Z.of_nat (digits_value r 0 false)
  end.

(** [str(z)] and [f"{z:02d}"] *)
Definition str_of_Z (z : Z) : string :=
  if (z <? 0)%Z then "-" ++ str_of_nat (Z.to_nat (- z)) else str_of_nat (Z.to_nat z).

Definition pad2_Z (z : Z) : string :=
  if (z <? 0)%Z then str_of_Z z else pad2 (Z.to_nat z).

(** [s.split("/")] *)
Fixpoint split_slash_go (s cur : string) : list string :=
  match s with
  | EmptyString => [srev cur]
  | String c r =>
      if ceqb c "/" then srev cur :: split_slash_go r EmptyString
      else split_slash_go r (String c cur)
  end.

Definition split_slash (s : string) : list string := split_slash_go s EmptyString.

(** [mm, dd, yyyy = [int(x) for x in idate.split("/")]] followed by
    [f"{mm:02d}/{dd:02d}/{str(yyyy)[-2:]} {itime}"]; [None] where the
    [try] block raises. *)
Definition short_incident_date (idate itime : string) : option string :=
  match map py_int (split_slash idate) with
  | [Some mm; Some dd; Some yyyy] =>
      Some (pad2_Z mm ++ "/" ++ pad2_Z dd ++ "/" ++ last_n 2 (str_of_Z yyyy)
            ++ " " ++ itime)
  | _ => None
  end.

(** The degree sign (U+00B0) of a geolocation. *)
Definition DEGREE : string := String "194" (String "176" "").

Definition rx_start_date_colon : re :=                 (* start\s*date\s*: *)
  seq [ liti "start"; ws; liti "date"; ws; lit ":" ].
Definition rx_dash_officer : re :=                     (* -\s*officer\s*: *)
  seq [ lit "-"; ws; liti "officer"; ws; lit ":" ].
Definition rx_date_of_incident : re :=                 (* date\s*of\s*incident\s*: *)
  seq [ liti "date"; ws; liti "of"; ws; liti "incident"; ws; lit ":" ].
Definition rx_time_of_incident : re :=                 (* time\s*of\s*incident\s*: *)
  seq [ liti "time"; ws; liti "of"; ws; liti "incident"; ws; lit ":" ].
Definition rx_who_called_spd : re :=                   (* who\s+called\s+spd *)
  seq [ liti "who"; ws1; liti "called"; ws1; liti "spd" ].
Definition rx_parties_involved : re :=                 (* parties\s*involved *)
  seq [ liti "parties"; ws; liti "involved" ].
Definition rx_dash_time : re :=                        (* -\s*time\s*: *)
  seq [ lit "-"; ws; liti "time"; ws; lit ":" ].
Definition rx_dash_date : re :=                        (* -\s*date\s*: *)
  seq [ lit "-"; ws; liti "date"; ws; lit ":" ].
Definition rx_dash_location : re :=                    (* -\s*location\s*: *)
  seq [ lit "-"; ws; liti "location"; ws; lit ":" ].

(** [start\s*date\s*:\s*([\d/]+\s+\d{1,2}:\d{2}\s*(?:[APap][Mm])?)] under
    IGNORECASE *)
Definition rx_start_date_opt_ampm : re :=
  seq [ liti "start"; ws; liti "date"; ws; lit ":"; ws;
        Grp 1 (seq [ plus digits_or_slash; ws1; times 1 2 d; lit ":"; d; d; ws;
                     opt (Cat (seti "AP") (liti "M")) ]) ].

(** The incident time of an SPD block. *)
Definition spd_incident_time (raw_t : string) : string :=
  match rmatch rx_hh_mm raw_t with
  | Some f => clock_12h (int_of (grp 1 (groups f))) (int_of (grp 2 (groups f)))
  | None => strip (replace "HRS" "" (upper raw_t))
  end.

(** [^-*\s*(parties|images|upload picture|date|time|location)\b] *)
Definition rx_caller_stop : re :=
  seq [ Bol; star (lit "-"); ws;
        Grp 1 (alts (map liti [ "parties"; "images"; "upload picture"; "date";
                                "time"; "location" ])); WordB ].

(** [^-*\s*(images|upload picture|date|time|location|who called)\b] *)
Definition rx_parties_stop : re :=
  seq [ Bol; star (lit "-"); ws;
        Grp 1 (alts (map liti [ "images"; "upload picture"; "date"; "time";
                                "location"; "who called" ])); WordB ].

(** [^-+\s*(who called|parties|images|upload picture|date|time|location)\b] *)
Definition rx_description_stop : re :=
  seq [ Bol; plus (lit "-"); ws;
        Grp 1 (alts (map liti [ "who called"; "parties"; "images";
                                "upload picture"; "date"; "time"; "location" ]));
        WordB ].

(** [\bsecurity\s+officer\b] under IGNORECASE, and [\s+] *)
Definition rx_security_officer : re :=
  seq [ WordB; liti "security"; ws1; liti "officer"; WordB ].

Definition one_blank (s : string) : string := sub ws1 (fun _ => " ") s.

Definition not_footer (s : string) : bool :=
  negb (occurs rx_logbook_pdf s) && negb (matches rx_footer_stamp s).

Definition spd_caller (lines : list string) (ln : string) : string :=
  let val := strip (after_colon ln) in
  let stop s := matches rx_caller_stop s || negb (truthy s)
                || startswith "parties involved" (lower s) in
  let more := filter (fun s => not_footer s = true)
                (until_stop stop (from (S (index_of ln lines)) lines)) in
  let caller0 := join " " ((if truthy val then [val] else []) ++ more)%list in
  let caller1 := strip (Re.remove rx_security_officer caller0) in
  title (strip (one_blank caller1)).

(** [^-?\s*parties\s*involved.*?:] under IGNORECASE *)
Definition rx_parties_label : re :=
  seq [ Bol; opt (lit "-"); ws; liti "parties"; ws; liti "involved";
        lazy_star dot; lit ":" ].

Definition spd_parties (lines : list string) (ln : string) : outcome string :=
  let val := strip (after_colon ln) in
  let more := filter (fun s => (truthy s && not_footer s) = true)
                (until_stop (matches rx_parties_stop)
                   (from (S (index_of ln lines)) lines)) in
  let val_lines := ((if truthy val then [val] else []) ++ more)%list in
  let combined0 := join ", " (filter (fun v => truthy v = true) (map strip val_lines)) in
  let combined1 := squeeze_blanks (Re.remove rx_parties_label combined0) in
  with_and (strip (strip_chars " -,:" combined1)).

(** The typing slips that the long description of an SPD block is
    cleaned of: [\b5he\b], [\baed\b], [\bw\s*he\b], [\bn on\b]. *)
Definition rx_5he : re := seq [ WordB; liti "5he"; WordB ].
Definition rx_aed : re := seq [ WordB; liti "aed"; WordB ].
Definition rx_w_he : re := seq [ WordB; liti "w"; ws; liti "he"; WordB ].
Definition rx_n_on : re := seq [ WordB; liti "n on"; WordB ].

Definition put (r : re) (new : string) (s : string) : string := sub r (fun _ => new) s.

(** [\btransferred to the hospital\b] and
    [\breported that\s+reported that\b] under IGNORECASE; [^[A-Z][a-z]?$] *)
Definition rx_hospital : re :=
  seq [ WordB; liti "transferred to the hospital"; WordB ].
Definition rx_reported_twice : re :=
  seq [ WordB; liti "reported that"; ws1; liti "reported that"; WordB ].
Definition rx_short_word : re := seq [ Bol; Chr is_upper; opt (Chr is_lower); Eol ].

(** [s.split(" ", 1)[0]] *)
Fixpoint first_token (s : string) : string :=
  match s with
  | EmptyString => EmptyString
  | String c r => if ceqb c " " then EmptyString else String c (first_token r)
  end.

(** The officer of an SPD block with the family name moved last. *)
Definition spd_officer_norm (spd : Buffer) : Buffer :=
  let officer := strip (get spd "officer") in
  if truthy officer then
    let officer_norm := strip (one_blank officer) in
    match split officer_norm with
    | [p0; p1] =>
        if isupper p0
        then <["officer" := capitalize p1 ++ " " ++ capitalize p0]> spd
        else <["officer" := officer_norm]> spd
    | _ => <["officer" := officer_norm]> spd
    end
  else spd.

Definition full_stop (s : string) : string := if endswith "." s then s else s ++ ".".

Definition spd_description (lines : list string) (ln : string) (spd : Buffer) : Buffer :=
  let following := until_stop (matches rx_description_stop)
                     (from (S (index_of ln lines)) lines) in
  let desc0 := fold_left (fun v s => if truthy s then v ++ " " ++ s else v)
                 following (strip (after_colon ln)) in
  let desc1 := strip (one_blank (put rx_n_on " on" (put rx_w_he "when he"
                 (put rx_aed "A" (put rx_5he "the" desc0))))) in
  let desc2 := if truthy desc1 then upper (head desc1) ++ tail desc1 else desc1 in
  let desc3 :=
    if negb (occurs rx_hospital desc2)
    then full_stop desc2 ++ " The individual was transferred to the hospital."
    else full_stop desc2 in
  let spd1 := spd_officer_norm spd in
  let desc4 := strip (one_blank (put rx_5he "the" (put rx_w_he "when he"
                 (put rx_aed "A" (strip desc3))))) in
  let officer := strip (get spd1 "officer") in
  let spd2 := spd_officer_norm spd1 in
  let desc5 := one_blank (strip desc4) in
  let desc6 :=
    if truthy desc5 then
      let tok := first_token desc5 in
      "reported that "
      ++ (if matches rx_short_word tok
          then lower tok ++ drop (String.length tok) desc5 else desc5)
    else "reported that an incident occurred on site." in
  let desc7 :=
    if truthy officer then
      let named := seq [ WordB; liti "officer"; ws1; liti officer; WordB ] in
      let d1 := strip (Re.remove named desc6) in
      let d2 := put rx_reported_twice "reported that" d1 in
      if negb (startswith "reported that" (lower d2))
      then "reported that " ++ strip d2 else d2
    else desc6 in
  <["action" := desc7]> spd2.

(** [–\s*\([^)]+\)\s*$] *)
Definition rx_trailing_parens : re :=
  seq [ lit EN_DASH; ws; lit "("; plus (Chr (fun c => negb (ceqb c ")"))); lit ")";
        ws; Eol ].

(** The entry that closes an SPD block, if the block yields one. *)
Definition spd_entry (spd : Buffer) : option string :=
  let idate := strip (get spd "incident_date") in
  let itime := strip (get spd "incident_time") in
  let date :=
    if truthy idate
    then default (get spd "start_date") (short_incident_date idate itime)
    else get spd "start_date" in
  let spd' := <["date" := date]> spd in
  let evt := build_event_line spd' in
  if truthy evt then
    let evt' := strip (Re.remove rx_trailing_parens evt) in
    let red :=
      "<font color='red'>Incident Date: <b>" ++ idate ++ "</b>"
      ++ (if truthy itime then " at <b>" ++ itime ++ "</b>" else "") ++ "</font>" in
    let place :=
      "<font color='red'>Location: <b>" ++ get spd' "location" ++ "</b></font>" in
    let caller := "Who Called: <b>" ++ get spd' "caller" ++ "</b>" in
    let parties := "Parties Involved: <b>" ++ get spd' "parties" ++ "</b>" in
    let info :=
      ((if truthy idate then [red] else [])
       ++ (if filled spd' "location" then [place] else [])
       ++ (if filled spd' "caller" then [caller] else [])
       ++ (if filled spd' "parties" then [parties] else []))%list in
    match info with
    | [] => Some evt'
    | _ => Some (evt' ++ " (" ++ join ", " info ++ ")")
    end
  else None.

(** [(\d{1,2})/(\d{1,2})/(\d{4})\s+(\d{1,2}):(\d{2})(?:\s*([APap][Mm]))?] *)
Definition rx_ambassador_start : re :=
  seq [ Grp 1 (times 1 2 d); lit "/"; Grp 2 (times 1 2 d); lit "/";
        Grp 3 (times 4 4 d); ws1; Grp 4 (times 1 2 d); lit ":"; Grp 5 (Cat d d);
        opt (Cat ws (Grp 6 (Cat (set "APap") (set "Mm")))) ].

(** The event date that a Seattle Ambassadors block reads in its start
    date. *)
Definition ambassador_date (start_val : string) : string :=
  match rmatch rx_ambassador_start start_val with
  | Some f =>
      let g := groups f in
      let hh := int_of (grp 4 g) in
      let '(h, ampm) :=
        match group 6 g with
        | Some a => if truthy a then (hh, a) else twelve_hour hh
        | None => twelve_hour hh
        end in
      pad2 (int_of (grp 1 g)) ++ "/" ++ pad2 (int_of (grp 2 g)) ++ "/"
      ++ last_n 2 (grp 3 g) ++ " " ++ str_of_nat h ++ ":" ++ grp 5 g ++ " " ++ upper ampm
  | None => start_val
  end.

(** The entry that closes a Seattle Ambassadors block. *)
Definition ambassador_entry (ab : Buffer) : string :=
  let ab1 :=
    if filled ab "incident_date" && filled ab "incident_time"
    then <["date" := get ab "incident_date" ++ " " ++ get ab "incident_time"]> ab
    else if negb (filled ab "date") && filled ab "start_date"
         then <["date" := get ab "start_date"]> ab
         else ab in
  let ab2 :=
    if filled ab1 "location"
    then <["location" := format_location_name (strip (get ab1 "location"))]> ab1
    else ab1 in
  build_event_line (<["action" := AMBASSADOR_ACTION]> ab2).

(** [([\d/]+\s+\d{1,2}:\d{2}\s*(?:[APap][Mm])?)] and [([\d/]+)] *)
Definition rx_any_stamp : re :=
  Grp 1 (seq [ plus digits_or_slash; ws1; times 1 2 d; lit ":"; d; d; ws;
               opt (Cat (set "APap") (set "Mm")) ]).
Definition rx_any_date : re := Grp 1 (plus digits_or_slash).

(** What one line of the fifteen that follow an "unsecure door" line adds
    to the buffer of that block. *)
Definition unsecure_read (ub : Buffer) (line : string) : Buffer :=
  let ub1 :=
    if occurs rx_start_date_colon line then
      match search rx_any_stamp line with
      | Some f => <["start_date" := strip (grp 1 (groups f))]> ub
      | None => ub
      end
    else ub in
  let ub2 :=
    if occurs rx_dash_date line then
      match search rx_any_date line with
      | Some f => <["incident_date" := strip (grp 1 (groups f))]> ub1
      | None => ub1
      end
    else ub1 in
  let ub3 :=
    if occurs rx_dash_time line then
      match search rx_hh_mm line with
      | Some f =>
          <["incident_time" :=
              clock_12h (int_of (grp 1 (groups f))) (int_of (grp 2 (groups f)))]> ub2
      | None => ub2
      end
    else ub2 in
  let ub4 :=
    if contains "pre-defined list" (lower line) || occurs rx_dash_officer line
    then <["officer" := strip (after_colon line)]> ub3
    else ub3 in
  if occurs rx_dash_location line then
    let loc := strip (after_colon line) in
    if negb (contains DEGREE loc)
    then <["location" := format_location_name loc]> ub4
    else ub4
  else ub4.

Definition unsecure_initial : Buffer :=
  <["category" := SEC_RETAIL]> (<["start_date" := ""]> (<["incident_date" := ""]>
    (<["incident_time" := ""]> (<["officer" := ""]> (<["location" := ""]>
      (<["action" := ""]> ∅)))))).

(** The entry of an unsecured-door block. *)
Definition unsecure_entry (lines : list string) (ln : string) : string :=
  let cur_idx := index_of ln lines in
  let ub := fold_left unsecure_read (slice cur_idx (cur_idx + 15) lines) unsecure_initial in
  let idate := get ub "incident_date" in
  let itime := get ub "incident_time" in
  let sdate := get ub "start_date" in
  let date :=
    if truthy idate && truthy itime
    then default (idate ++ " " ++ itime) (short_incident_date idate itime)
    else if truthy itime then itime
    else sdate in
  let action :=
    "reported that a door at " ++ get ub "location"
    ++ " was found unsecured and was properly secured upon discovery." in
  build_event_line (<["action" := action]> (<["date" := date]> ub)).

(** *** Field markers of the main chain *)

(** [^(.*?)\s*\(Officers?\)\s*$] and [^(.*?)\s*\(Site\s+Supervisors?\)\s*$]
    under IGNORECASE *)
Definition OFFICER_LINE_RX : re :=
  seq [ Bol; Grp 1 (lazy_star dot); ws; lit "("; liti "Officer"; opt (liti "s");
        lit ")"; ws; Eol ].
Definition OFFICER_LINE_RX_ALT : re :=
  seq [ Bol; Grp 1 (lazy_star dot); ws; lit "("; liti "Site"; ws1;
        liti "Supervisor"; opt (liti "s"); lit ")"; ws; Eol ].

(** [^-\s*Multi-?line\s+text\s+field\s*:\s*] and, as group 1, the rest
    of the line, under IGNORECASE *)
Definition MULTILINE_RX : re :=
  seq [ Bol; lit "-"; ws; liti "Multi"; opt (lit "-"); liti "line"; ws1;
        liti "text"; ws1; liti "field"; ws; lit ":"; ws; Grp 1 (star dot); Eol ].

(** [^(Activities|Loading|Key|Door|Gate|Victrola|Uniqlo|Report|Duration|Object)\b]
    under IGNORECASE *)
Definition rx_not_a_person : re :=
  seq [ Bol; Grp 1 (alts (map liti [ "Activities"; "Loading"; "Key"; "Door"; "Gate";
                                     "Victrola"; "Uniqlo"; "Report"; "Duration";
                                     "Object" ])); WordB ].

(** [^\d{1,2}/\d{1,2}/\d{4}\s+\d{1,2}:\d{2}\s*[AP]M$] under IGNORECASE *)
Definition rx_bare_stamp_i : re :=
  seq [ Bol; times 1 2 d; lit "/"; times 1 2 d; lit "/"; times 4 4 d; ws1;
        times 1 2 d; lit ":"; d; d; ws; seti "AP"; liti "M"; Eol ].

(** [Start\s*Date\s*:\s*([0-9/:\sAPMapm]+)] under IGNORECASE *)
Definition rx_start_date_loose : re :=
  seq [ liti "Start"; ws; liti "Date"; ws; lit ":"; ws;
        Grp 1 (plus (Chr (fun c => is_digit c || mem_char "/:" c || is_space c
                                   || mem_char "apm" (to_lower c)))) ].

(** [\bStart\s*Date\s*:] and
    [\bStart\s*Date\s*:\s*([0-9/]+\s+\d{1,2}:\d{2}\s*[APap][Mm])] under
    IGNORECASE *)
Definition rx_word_start_date : re := Cat WordB rx_start_date_colon.
Definition rx_word_start_date_ampm : re := Cat WordB rx_start_date_ampm.

(** [Date\s*of\s*Incident], with an optional [the\s*] group before
    [Incident], or [Incident\s*Date], then [\s*:]; the same with [Time];
    and both followed by their values; under IGNORECASE *)
Definition incident_label (what : string) : re :=
  seq [ Grp 1 (Alt (seq [ liti what; ws; liti "of"; ws;
                          opt (Grp 2 (Cat (liti "the") ws)); liti "Incident" ])
                   (seq [ liti "Incident"; ws; liti what ]));
        ws; lit ":" ].
Definition rx_incident_date : re := incident_label "Date".
Definition rx_incident_time : re := incident_label "Time".
Definition rx_incident_date_value : re :=
  seq [ rx_incident_date; ws; Grp 3 (plus digits_or_slash) ].
Definition rx_incident_time_value : re :=
  seq [ rx_incident_time; ws;
        Grp 3 (seq [ plus (set "0123456789:"); ws; opt (Grp 4 (Alt (liti "AM") (liti "PM"))) ]) ].

(** After an optional group [-\s*] at the start of the line:
    [parties\s+involved\b],
    [(additional comments|photos?|evidence|incident info|geolocation)\b] and
    [(photos?|evidence|additional comments)\b]; and the page noise
    [(report\s*-\s*logbook\s*pdf|\bpage\s*\d+/\d+)]; all under IGNORECASE *)
Definition opt_dash : re := opt (Grp 1 (Cat (lit "-") ws)).
Definition rx_parties_header : re :=
  seq [ Bol; opt_dash; liti "parties"; ws1; liti "involved"; WordB ].
Definition rx_description_end : re :=
  seq [ Bol; opt_dash;
        Grp 2 (alts [ liti "additional comments"; Cat (liti "photo") (opt (liti "s"));
                      liti "evidence"; liti "incident info"; liti "geolocation" ]);
        WordB ].
Definition rx_page_noise : re :=
  Grp 1 (Alt rx_logbook_pdf
             (seq [ WordB; liti "page"; ws; plus d; lit "/"; plus d ])).
Definition rx_parties_end : re :=
  seq [ Bol; opt_dash;
        Grp 2 (alts [ Cat (liti "photo") (opt (liti "s")); liti "evidence";
                      liti "additional comments" ]);
        WordB ].

(** [^-\s*] *)
Definition rx_leading_dash : re := seq [ Bol; lit "-"; ws ].

Definition parties_value (lines : list string) (ln : string) : outcome string :=
  let val := strip (after_colon ln) in
  let more :=
    map (Re.remove rx_leading_dash)
      (filter (fun s => (truthy s && not_footer s) = true)
         (until_stop (matches rx_parties_end) (from (S (index_of ln lines)) lines))) in
  let val_lines := ((if truthy val then [val] else []) ++ more)%list in
  let combined0 := join ", " (filter (fun v => truthy v = true) (map strip val_lines)) in
  let combined1 := unmash (squeeze_blanks (Re.remove rx_parties_label combined0)) in
  with_and (strip (strip_chars " -,:" combined1)).

Definition starters : list string :=
  [ "Start Date"; "Officer"; "- Officer :"; "Date & Time"; "Date/Time"; "- Date :";
    "- Time :"; "Details"; "Call Details"; "Location"; "- Location :"; "Company";
    "- Company"; "Vendor"; "Comments"; "- Multi-line text field"; "Geolocation";
    "Evidence"; "NEW ACTIVITY"; "TOUR"; "Start Time"; "End Time"; "Report Details";
    "Posts included"; "Activities included"; "New Group"; "Tags"; "Duration";
    "Max. Tour Duration"; "- Picture"; "Picture"; "Key Service"; "Loading Dock Gate";
    "Fire Panel"; "Janitorial"; "Transient Removal"; "Retail Issues"; "Tenant Issues";
    "Fire Panel Bypass/Online"; "Incident"; "Totals Activities"; "Total Activities";
    "Activity Duration"; "Object Duration"; "AES Phone Call"; "Work Order";
    "Other/Miscellaneous"; "Synopsis"; "Follow up"; "Escalation?"; "- Upload picture" ].

Definition is_new_block_line (buffer : Buffer) (ln : string) : bool :=
  if negb (truthy ln) then true
  else if existsb (fun s => startswith s ln) starters then true
  else if contains "(Officers)" ln then true
  else if matches rx_bare_stamp_i ln then
    negb (startswith "incident report" (lower (get buffer "category")))
  else existsb (seqb ln) [ "300 Pine Street"; "300 Pine Street Call Details" ].

Definition label_keys : list string :=
  [ "AES Phone Call"; "Loading Dock Gate"; "Key Service"; "Work Order"; "Janitorial";
    "Incident Report"; "Alarm"; "Fire Panel Bypass/Online"; "Transient Removal";
    "Retail"; "Tenant"; "Other/Miscellaneous"; "Elevator Entrapment";
    "Entrapment Incident"; "Stuck in Elevator" ].

(** [labels.add(ln)] *)
Definition set_add (ln : string) (labels : list string) : list string :=
  if existsb (seqb ln) labels then labels else (labels ++ [ln])%list.
Section Scan.
Context `{Templates}.
Variable set_order : list string -> list string.
Variable lines : list string.

Definition flush (st : State) : outcome State := flush_event set_order lines st.

(** [flush_event(); buffer.clear()] *)
Definition flush_and_clear (st : State) : outcome State :=
  st' ← flush st; mret (with_buffer ∅ st').

Definition category_lower (st : State) : string := lower (get (buffer st) "category").

Section Line.
Variable i : nat.
Variable ln : string.

Definition skip_numbers : stage := fun st =>
  if matches rx_numbers ln then done (with_last_field None st) else next st.

(** A "Start Date" line inside a block whose category contains [tag]. *)
Definition start_date_in (tag : string) : stage := fun st =>
  if contains tag (category_lower st) then
    match search rx_start_date_ampm ln with
    | Some f =>
        let start_val := strip (grp 1 (groups f)) in
        st1 ← (if filled (buffer st) "date" then flush_and_clear st else mret st);
        done (with_last_field (Some "date")
                (set_field "date" start_val (set_field "start_date" start_val st1)))
    | None => next st
    end
  else next st.

Definition capture_who_called : stage := fun st =>
  if occurs rx_who_called ln then
    let val := who_called_value lines ln in
    done (if truthy val then set_field "who_called" val st else st)
  else next st.

Definition capture_persons : stage := fun st =>
  if occurs rx_all_persons ln then
    combined ← persons_value lines ln;
    done (if truthy combined then set_field "parties_involved" combined st else st)
  else next st.

Definition open_at_stamp (st : State) : outcome flow :=
  done (with_last_field (Some "date") (set_field "date" (strip ln) st)).

Definition key_service_stamp : stage := fun st =>
  if contains "key service" (category_lower st) && matches rx_bare_stamp ln then
    st1 ← (if filled (buffer st) "date" then flush_and_clear st else mret st);
    open_at_stamp st1
  else next st.

Definition has_event (b : Buffer) : bool :=
  filled b "date" && (filled b "action" || filled b "company").

Definition loading_dock_stamp : stage := fun st =>
  if (contains "loading dock" (category_lower st)
      || contains "dock gate" (category_lower st))
     && matches rx_bare_stamp ln then
    st1 ← (if has_event (buffer st) then flush_and_clear st else mret st);
    open_at_stamp st1
  else next st.

Definition fire_panel_stamp : stage := fun st =>
  if contains "fire panel" (category_lower st)
     && matches rx_bare_stamp ln && negb (occurs rx_until_by_at ln) then
    st1 ← (if has_event (buffer st) then flush_and_clear st else mret st);
    open_at_stamp st1
  else next st.

(** The officer read on the lines above a label: the nearest of the
    five lines above (the first line of the document excepted) that
    names one. *)
Definition officer_above (read : string -> option string) : option string :=
  first_some (fun back => read (strip (nth_line lines back))) (range_back i 6).

Definition look_above (label : re) (read : string -> option string) : stage :=
  fun st =>
    if occurs label ln then
      match officer_above read with
      | Some name => next (set_field "officer" name st)
      | None => next st
      end
    else next st.

Definition officer_after_new_activity : stage := fun st =>
  if startswith "new activity" (lower (strip ln)) then
    let next_idx := S (index_of ln lines) in
    match first_some activity_officer_on (slice next_idx (next_idx + 6) lines) with
    | Some name => next (set_field "officer" name st)
    | None => next st
    end
  else next st.

(** **** The SPD Presence block *)

Definition spd_start : stage := fun st =>
  if contains "spd presence/emergency response on" (lower ln) then
    let b1 := delete "start_date" (buffer st) in
    let spd0 : Buffer := <["category" := SEC_SPD]> ∅ in
    let spd1 := if filled b1 "officer"
                then <["officer" := strip (get b1 "officer")]> spd0 else spd0 in
    let cur_idx := index_of ln lines in
    match first_some (search rx_start_date_opt_ampm)
            (slice cur_idx (cur_idx + 4) lines) with
    | Some f =>
        let start_val := strip (grp 1 (groups f)) in
        done (with_spd true (<["start_date" := start_val]> spd1)
                (with_buffer (<["start_date" := start_val]> b1) st))
    | None => done (with_spd true spd1 (with_buffer b1 st))
    end
  else next st.

Definition set_spd (k v : string) (st : State) : State :=
  with_spd (in_spd st) (<[k := v]> (spd_buffer st)) st.

Definition closes_block : bool :=
  startswith "new activity" (lower (strip ln)) || seqb (lower (strip ln)) "close".

Definition spd_block : stage := fun st =>
  if in_spd st then
    if occurs rx_start_date_colon ln then
      let start_val := strip (after_colon ln) in
      done (set_field "start_date" start_val (set_spd "start_date" start_val st))
    else if occurs rx_dash_officer ln then
      done (set_spd "officer" (strip (after_colon ln)) st)
    else if occurs rx_date_of_incident ln then
      done (set_spd "incident_date" (strip (after_colon ln)) st)
    else if occurs rx_time_of_incident ln then
      done (set_spd "incident_time" (spd_incident_time (strip (after_colon ln))) st)
    else if startswith "- location" (lower ln) then
      let loc := strip (after_colon ln) in
      done (if negb (contains DEGREE loc)
            then set_spd "location" (format_location_name loc) st else st)
    else if occurs rx_who_called_spd ln then
      done (set_spd "caller" (spd_caller lines ln) st)
    else if occurs rx_parties_involved ln then
      combined ← spd_parties lines ln;
      done (set_spd "parties" combined st)
    else if contains "long description of incident" (lower ln) then
      done (with_spd (in_spd st) (spd_description lines ln (spd_buffer st)) st)
    else if closes_block then
      p ← append_option SEC_SPD (spd_entry (spd_buffer st)) (parsed st);
      done (with_spd false ∅ (with_parsed p st))
    else done st
  else next st.

(** **** The Seattle Ambassadors block *)

Definition ambassador_start : stage := fun st =>
  if seqb (lower (strip ln)) "seattle ambassadors"
     || contains "seattle ambassadors start date" (lower ln) then
    let b1 := delete "start_date" (buffer st) in
    let ab0 : Buffer := <["category" := "Seattle Ambassadors"]> ∅ in
    match search rx_start_date_opt_ampm ln with
    | Some f =>
        let start_val := strip (grp 1 (groups f)) in
        done (with_ambassador true
                (<["date" := start_val]> (<["start_date" := start_val]> ab0))
                (with_buffer (<["start_date" := start_val]> b1) st))
    | None => done (with_ambassador true ab0 (with_buffer b1 st))
    end
  else next st.

Definition set_ambassador (k v : string) (st : State) : State :=
  with_ambassador (in_ambassador st) (<[k := v]> (ambassador_buffer st)) st.

Definition ambassador_block : stage := fun st =>
  if in_ambassador st then
    if seqb (lower (strip ln)) "close" then
      let cur_idx := index_of ln lines in
      if (cur_idx + 1 <? length lines)%nat
         && contains "seattle ambassadors" (lower (nth_line lines (cur_idx + 1)))
      then done st
      else done (with_ambassador false ∅ st)
    else if occurs rx_start_date_colon ln then
      let start_val := strip (after_colon ln) in
      done (set_ambassador "date" (ambassador_date start_val)
              (set_field "start_date" start_val
                 (set_ambassador "start_date" start_val st)))
    else if occurs rx_dash_time ln then
      let raw_time := strip (after_colon ln) in
      match rmatch rx_hh_mm raw_time with
      | Some f =>
          done (set_ambassador "incident_time"
                  (clock_12h (int_of (grp 1 (groups f))) (int_of (grp 2 (groups f)))) st)
      | None => done st
      end
    else if occurs rx_dash_date ln then
      done (set_ambassador "incident_date" (strip (after_colon ln)) st)
    else if startswith "- officer" (lower ln) || contains "officer :" (lower ln) then
      done (set_ambassador "officer" (strip (after_colon ln)) st)
    else if startswith "- location" (lower ln) then
      done (set_ambassador "location" (strip (after_colon ln)) st)
    else if closes_block then
      p ← append_if_any SEC_JANITORIAL (ambassador_entry (ambassador_buffer st))
             (parsed st);
      done (with_ambassador false ∅ (with_parsed p st))
    else done st
  else next st.

(** **** The unsecured-door block *)

Definition unsecure_door : stage := fun st =>
  if contains "unsecure door" (lower ln) then
    p ← append_if_any SEC_RETAIL (unsecure_entry lines ln) (parsed st);
    done (with_parsed p st)
  else next st.

(** **** Tours, labels and officers *)

Definition tour_start : stage := fun st =>
  if startswith "TOUR" (upper ln) then done (with_in_tour true st) else next st.

Definition tour_body : stage := fun st =>
  let st1 :=
    if in_tour st && (startswith "NEW ACTIVITY" ln || startswith "Start Date" ln)
    then with_in_tour false st else st in
  if in_tour st1 then done st1 else next st1.

(** [carry = {k: buffer[k] for k in ("officer", "date") if k in buffer}] *)
Definition carry_of (b : Buffer) : Buffer :=
  let c1 : Buffer := match b !! "officer" with
                     | Some v => <["officer" := v]> ∅ | None => ∅ end in
  match b !! "date" with Some v => <["date" := v]> c1 | None => c1 end.

Definition capture_label : stage := fun st =>
  if existsb (fun k => contains k ln) label_keys then
    st1 ← (if contains "incident report" (lower ln) then
             let carry := carry_of (buffer st) in
             st' ← flush st;
             (* [buffer.update(carry)] on the buffer that the flush left empty *)
             mret (with_buffer (carry ∪ buffer st') st')
           else mret st);
    st2 ← (if contains "transient removal" (lower ln)
              && seqb (category_lower st1) "transient removal"
           then flush st1 else mret st1);
    let st3 := set_field "category" (strip ln)
                 (with_labels (set_add ln (labels st2)) st2) in
    next (if contains "Transient Removal" ln then with_tag_seen true st3 else st3)
  else next st.

Definition set_officer (v : string) (st : State) : State :=
  with_last_field (Some "officer") (set_field "officer" v st).

Definition officer_header : stage := fun st =>
  if seqb ln "Officer"
  then done (with_last_field None (with_waiting true st))
  else next st.

Definition officer_nested : stage := fun st =>
  if waiting_officer_nested st && startswith "- Officer :" ln
  then done (set_officer (strip (after_colon ln)) (with_waiting false st))
  else next st.

Definition officer_field : stage := fun st =>
  if startswith "- Officer :" ln || startswith "Officer :" ln
  then done (set_officer (strip (after_colon ln)) st)
  else next st.

Definition officer_line : stage := fun st =>
  match rmatch OFFICER_LINE_RX ln with
  | Some f => done (set_officer (strip_chars " -:" (grp 1 (groups f))) st)
  | None =>
      match rmatch OFFICER_LINE_RX_ALT ln with
      | Some f => done (set_officer (strip_chars " -:" (grp 1 (groups f))) st)
      | None => next st
      end
  end.

Definition normalize_officer : stage := fun st =>
  if filled (buffer st) "officer" then
    let name := strip (get (buffer st) "officer") in
    if negb (matches rx_not_a_person name) then
      match split name with
      | [p0; p1] =>
          if isupper p0 && isupper (head p1)
          then next (set_field "officer" (capitalize p1 ++ " " ++ capitalize p0) st)
          else next (set_field "officer" (capitalize_all [p0; p1]) st)
      | parts => next (set_field "officer" (capitalize_all parts) st)
      end
    else next st
  else next st.

(** **** Event boundaries and content fields *)

Definition is_incident_report (st : State) : bool :=
  seqb (category_lower st) "incident report".

Definition new_activity_in_report : stage := fun st =>
  if startswith "NEW ACTIVITY" ln && is_incident_report st
  then st' ← flush st; done st'
  else next st.

Definition set_date (v : string) (st : State) : State :=
  with_last_field (Some "date") (set_field "date" v st).

Definition start_date_line : stage := fun st =>
  if startswith "Start Date" ln then
    if is_incident_report st
    then done (set_date (strip (after_colon ln)) st)
    else st' ← flush st; done (set_date (strip (after_colon ln)) st')
  else next st.

Definition forget_field : State -> outcome flow := fun st =>
  done (with_last_field None st).

Definition skip_breaks : stage := fun st =>
  if contains "Minute Break" ln || contains "Lunch Break" ln
     || contains "Break Details" ln
  then forget_field st else next st.

Definition skip_totals : stage := fun st =>
  if existsb (fun x => contains x ln)
       [ "Totals Activities"; "Total Activities"; "Object Duration";
         "Activity Duration" ]
  then forget_field st else next st.

Definition skip_close : stage := fun st =>
  if seqb (lower (strip ln)) "close" then forget_field st else next st.

Definition skip_escalation : stage := fun st =>
  if existsb (fun p => startswith p (lower ln))
       [ "escalation?"; "- was the police"; "- (if so"; "- upload picture";
         "- call back number"; "- all persons involved" ]
  then forget_field st else next st.

(** [buffer[k] = ln.split(":", 1)[-1].strip()] with [last_field = k] *)
Definition take_field (k : string) (st : State) : outcome flow :=
  done (with_last_field (Some k) (set_field k (strip (after_colon ln)) st)).

(** The same for the vehicle fields, which leave [last_field] alone. *)
Definition take_plain (k : string) (st : State) : outcome flow :=
  done (set_field k (strip (after_colon ln)) st).

Definition field_if (test : bool) (k : string) : stage := fun st =>
  if test then take_field k st else next st.

Definition action_field : stage :=
  field_if (contains "Security action" ln || contains "What are you doing" ln
            || contains "What did you do" ln) "action".

Definition lower_starts (p : string) : bool := startswith p (lower ln).

Definition description_field : stage :=
  field_if (lower_starts "- description of what happened") "incident_description".
Definition operator_name_field : stage :=
  field_if (lower_starts "- operator name") "operator_name".
Definition operator_number_field : stage :=
  field_if (lower_starts "- operator #" || lower_starts "- operator number")
           "operator_number".
Definition comments_field : stage :=
  field_if (lower_starts "- comments") "incident_comments".

Definition report_stamp : stage := fun st =>
  if matches rx_bare_stamp_i ln && is_incident_report st then
    if negb (present (buffer st) "start_date")
    then done (set_field "date" (strip ln) (set_field "start_date" (strip ln) st))
    else done st
  else next st.

Definition set_start_date (v last : string) (st : State) : State :=
  with_last_field (Some last) (set_field "date" v (set_field "start_date" v st)).

Definition start_date_anywhere : stage := fun st =>
  if occurs rx_start_date_colon ln then
    match search rx_start_date_loose ln with
    | Some f => done (set_start_date (strip (grp 1 (groups f))) "date" st)
    | None => next st
    end
  else next st.

Definition start_date_strict : stage := fun st =>
  if occurs rx_word_start_date ln then
    match search rx_word_start_date_ampm ln with
    | Some f => done (set_start_date (strip (grp 1 (groups f))) "start_date" st)
    | None => next st
    end
  else next st.

Definition incident_value (label value : re) (k : string) : stage := fun st =>
  if occurs label ln then
    match search value ln with
    | Some f =>
        done (with_last_field (Some k) (set_field k (strip (grp 3 (groups f))) st))
    | None => next st
    end
  else next st.

Definition incident_location_field : stage :=
  field_if (lower_starts "- incident location") "location".
Definition long_description_field : stage :=
  field_if (lower_starts "- long description of incident") "incident_description".

Definition description_continues : stage := fun st =>
  if bool_decide (last_field st = Some "incident_description") then
    let stripped := strip ln in
    if matches rx_parties_header stripped then
      done (with_last_field (Some "parties_involved")
              (set_field "parties_involved" "" st))
    else if matches rx_description_end stripped then forget_field st
    else if occurs rx_page_noise stripped then done st
    else
      done (set_field "incident_description"
              (strip (get (buffer st) "incident_description" ++ " " ++ stripped)) st)
  else next st.

Definition parties_block : stage := fun st =>
  if startswith "parties involved" (lower (strip ln)) then
    combined ← parties_value lines ln;
    forget_field (if truthy combined
                  then set_field "parties_involved" combined st else st)
  else next st.

Definition vehicle_fields : stage := fun st =>
  if lower_starts "- year" then take_plain "year" st
  else if lower_starts "- make" then take_plain "make" st
  else if lower_starts "- model" then take_plain "model" st
  else if lower_starts "- color" then take_plain "color" st
  else if lower_starts "- description" then take_plain "vehicle_description" st
  else next st.

Definition comments_header : stage := fun st =>
  if lower_starts "comments"
  then done (with_last_field (Some "comment") st) else next st.

Definition multiline_field : stage := fun st =>
  match rmatch MULTILINE_RX ln with
  | Some f =>
      done (with_last_field (Some "comment")
              (set_field "comment" (strip (grp 1 (groups f))) st))
  | None => next st
  end.

Definition skip_headers : stage := fun st =>
  if existsb (seqb ln) [ "Details"; "Call Details"; "Date & Time"; "Date/Time" ]
  then forget_field st else next st.

Definition company_field : stage :=
  field_if (contains "Company" ln || contains "Vendor" ln) "company".

Definition location_field : stage := fun st =>
  if (startswith "Location" ln || startswith "- Location :" ln) && has_colon ln
  then take_field "location" st else next st.

Definition skip_geolocation : stage := fun st =>
  if startswith "Geolocation" ln || contains "LOGBOOK PDF" ln
  then forget_field st else next st.

(** A line that continues the field read last, up to a ceiling on the
    length of what the field already holds. *)
Definition continuation (fields : list string) (ceiling : nat) : stage := fun st =>
  match last_field st with
  | Some k =>
      if existsb (seqb k) fields && negb (is_new_block_line (buffer st) ln) then
        let prev := get (buffer st) k in
        done (if (String.length prev <? ceiling)%nat
              then set_field k (strip (prev ++ " " ++ ln)) st else st)
      else next st
  | None => next st
  end.

(** The body of the loop for a line that is not empty. *)
Definition line_chain : stage :=
  chain
    [ skip_numbers;
      start_date_in "incident report";
      start_date_in "elevator entrapment incident";
      capture_who_called;
      capture_persons;
      key_service_stamp;
      loading_dock_stamp;
      fire_panel_stamp;
      look_above rx_loading_dock_gate dock_officer_on;
      look_above rx_fire_panel_label panel_officer_on;
      look_above rx_aes_label panel_officer_on;
      officer_after_new_activity;
      spd_start;
      spd_block;
      ambassador_start;
      ambassador_block;
      unsecure_door;
      tour_start;
      tour_body;
      capture_label;
      officer_header;
      officer_nested;
      officer_field;
      officer_line;
      normalize_officer;
      new_activity_in_report;
      start_date_line;
      skip_breaks;
      skip_totals;
      skip_close;
      skip_escalation;
      action_field;
      description_field;
      operator_name_field;
      operator_number_field;
      comments_field;
      report_stamp;
      start_date_anywhere;
      start_date_strict;
      incident_value rx_incident_date rx_incident_date_value "incident_date";
      incident_value rx_incident_time rx_incident_time_value "incident_time";
      incident_location_field;
      long_description_field;
      description_continues;
      parties_block;
      vehicle_fields;
      comments_header;
      multiline_field;
      skip_headers;
      company_field;
      location_field;
      skip_geolocation;
      vehicle_fields;
      continuation [ "action"; "company"; "location"; "comment" ] 200;
      continuation [ "incident_description"; "incident_comments" ] 800 ].

Definition process_line (st : State) : outcome State :=
  if truthy ln then f ← line_chain st; mret (flow_state f) else mret st.

End Line.

(** [for i, ln in enumerate(lines)] *)
Fixpoint scan_from (i : nat) (rest : list string) (st : State) : outcome State :=
  match rest with
  | [] => mret st
  | ln :: rest' => st' ← process_line i ln st; scan_from (S i) rest' st'
  end.

(** The scan of all lines and the final safety flush. *)
Definition scan : outcome State :=
  st ← scan_from 0 lines initial_state;
  if filled (buffer st) "date" then flush st else mret st.

End Scan.

(** ** The aggregator: the final pass of [parse_events] *)

Definition DQUOTE : string := String "034" "".

(** The entry that replaces the Transient Removal section. *)
Definition transient_summary (count : nat) : string :=
  "<font color=" ++ DQUOTE ++ "red" ++ DQUOTE ++ ">Within the last 24 hours (<b>"
  ++ pad2 count ++ "</b>), transients were removed from the property.</font>".

(** [list.sort(key=_extract_dt)]: the sort is stable, so its result is the
    one of inserting each entry before the first later entry whose key is
    not smaller. *)
Fixpoint insert_entry (x : string) (l : list string) : list string :=
  match l with
  | [] => [x]
  | y :: r =>
      if dt_leb (_extract_dt x) (_extract_dt y) then x :: y :: r
      else y :: insert_entry x r
  end.

Fixpoint sort_entries (l : list string) : list string :=
  match l with
  | [] => []
  | x :: r => insert_entry x (sort_entries r)
  end.

(** [if not parsed[s]: parsed[s] = ["None to Report"]] *)
Definition fill_placeholder (p : Report) (s : string) : outcome Report :=
  match p !! s with
  | Some [] => mret (<[s := [PLACEHOLDER]]> p)
  | Some _ => mret p
  | None => Raises (KeyError s)
  end.

(** [if parsed[s] and parsed[s][0] != "None to Report": parsed[s].sort(...)] *)
Definition sort_section (p : Report) (s : string) : outcome Report :=
  match p !! s with
  | Some [] => mret p
  | Some (x :: r) =>
      if seqb x PLACEHOLDER then mret p else mret (<[s := sort_entries (x :: r)]> p)
  | None => Raises (KeyError s)
  end.

(** A [for s in SECTIONS] loop over the report. *)
Fixpoint for_sections (f : Report -> string -> outcome Report) (l : list string)
  (p : Report) : outcome Report :=
  match l with
  | [] => mret p
  | s :: r => p' ← f p s; for_sections f r p'
  end.

Definition collapse_transient (count : nat) (p : Report) : Report :=
  <[SEC_TRANSIENT :=
      [if (0 <? count)%nat then transient_summary count else PLACEHOLDER]]> p.

Definition finalize (p : Report) (count : nat) : outcome Report :=
  p1 ← for_sections fill_placeholder SECTIONS p;
  for_sections sort_section SECTIONS (collapse_transient count p1).

(** ** [parse_events] *)

Definition parse_events `{Templates} (set_order : list string -> list string)
  (lines : list string) : outcome Report :=
  st ← scan set_order lines;
  finalize (parsed st) (transient_count st).

(** [report[s]] for a section of a report that has been returned. *)
Definition entries_of (r : outcome Report) (s : string) : option (list string) :=
  match r with
  | Returns p => p !! s
  | _ => None
  end.

(** The interface instantiated by templates that append nothing.  The
    statements below that run the scanner on a given document use it: the
    events of these documents reach none of the four templates and never
    start the Additional Information scan, so that every instance yields
    the same report for them. *)
Definition quiet : Templates := {|
  incident_report_entry := fun _ => None;
  elevator_entry := fun _ => None;
  work_order_entry := fun _ _ => None;
  key_service_entry := fun _ => None;
  misc_block_at := fun _ _ => NoDate
|}.

(** ** The block reader of the Additional Information scan: blocks
    without comment

    The reader gathers the lines of the block that starts at a line,
    looks for an officer and a date around it, and extracts the comment
    of the block.  The gathering of the lines and the extraction of the
    comment are embedded below, with the branch that skips a block
    without comment; what the reader makes of a block that has a comment
    stays behind the interface. *)

(** [^(End\s*of\s*Report|Daily\s*Activity|Summary\s*of|Work\s*Orders|Patrol\s*Check|Log\s*Summary)]
    under IGNORECASE *)
Definition rx_section_end : re :=
  seq [ Bol;
        Grp 1 (alts [ seq [ liti "End"; ws; liti "of"; ws; liti "Report" ];
                      seq [ liti "Daily"; ws; liti "Activity" ];
                      seq [ liti "Summary"; ws; liti "of" ];
                      seq [ liti "Work"; ws; liti "Orders" ];
                      seq [ liti "Patrol"; ws; liti "Check" ];
                      seq [ liti "Log"; ws; liti "Summary" ] ]) ].

(** [^Start\s*(?:Date|Time)\s*:\s*\d{1,2}/\d{1,2}/\d{2,4}\s+\d{1,2}:\d{2}]
    under IGNORECASE *)
Definition rx_block_start_date : re :=
  seq [ Bol; liti "Start"; ws; Alt (liti "Date") (liti "Time"); ws; lit ":"; ws;
        times 1 2 d; lit "/"; times 1 2 d; lit "/"; times 2 4 d; ws1;
        times 1 2 d; lit ":"; d; d ].

(** [^\s*NEW\s+ACTIVITY\b] and [^\s*Other\s*/?\s*Miscellaneous\b] under
    IGNORECASE *)
Definition rx_new_activity_line : re :=
  seq [ Bol; ws; liti "NEW"; ws1; liti "ACTIVITY"; WordB ].
Definition rx_misc_header : re :=
  seq [ Bol; ws; liti "Other"; ws; opt (lit "/"); ws; liti "Miscellaneous"; WordB ].

(** The [for k in range(i, n)] loop that gathers the block: the index
    where the next block starts and the stripped lines of this one.  [k]
    is the index of the head of [rest]. *)
Fixpoint gather_go (i k : nat) (rest : list string) (acc : list string)
  : nat * list string :=
  match rest with
  | [] => (k, rev acc)
  | x :: rest' =>
      let line_k := strip x in
      if occurs rx_section_end line_k then (k, rev acc)
      else if occurs rx_footer line_k then gather_go i (S k) rest' acc
      else if (i <? k)%nat
              && (matches rx_block_start_date line_k
                  || matches rx_stamp_prefix line_k
                  || matches rx_new_activity_line line_k
                  || (matches rx_misc_header line_k && (3 <? k - i)%nat
                      && negb (occurs rx_footer line_k)))
      then (k, rev acc)
      else gather_go i (S k) rest' (line_k :: acc)
  end.

Definition gather_block (lines : list string) (i : nat) : nat * list string :=
  gather_go i i (skipn i lines) [].

(** [Multi-line\s*text\s*field\s*:] and
    [^-?\s*Multi-line\s*text\s*field\s*:\s*] under IGNORECASE *)
Definition rx_multiline_label : re :=
  seq [ liti "Multi-line"; ws; liti "text"; ws; liti "field"; ws; lit ":" ].
Definition rx_multiline_prefix : re :=
  seq [ Bol; opt (lit "-"); ws; liti "Multi-line"; ws; liti "text"; ws; liti "field";
        ws; lit ":"; ws ].

(** [^\s*(NEW\s+ACTIVITY|TOUR\s|Other\s*/?\s*Miscellaneous)\b] under
    IGNORECASE *)
Definition rx_comment_stop : re :=
  seq [ Bol; ws;
        Grp 1 (alts [ seq [ liti "NEW"; ws1; liti "ACTIVITY" ];
                      seq [ liti "TOUR"; s_ ];
                      seq [ liti "Other"; ws; opt (lit "/"); ws; liti "Miscellaneous" ] ]);
        WordB ].

(** [(REPORT\s*-\s*LOGBOOK|Generated\s+on|^Page\s+\d+|^\d{1,2}/\d{1,2}/\d{4}\s+\d{1,2}:\d{2})]
    under IGNORECASE *)
Definition rx_comment_skip : re :=
  Grp 1 (alts [ seq [ liti "REPORT"; ws; lit "-"; ws; liti "LOGBOOK" ];
                seq [ liti "Generated"; ws1; liti "on" ];
                seq [ Bol; liti "Page"; ws1; plus d ];
                seq [ Bol; times 1 2 d; lit "/"; times 1 2 d; lit "/"; times 4 4 d;
                      ws1; times 1 2 d; lit ":"; d; d ] ]).

(** [\b[Cc]lose\b] and [\s*\(.*?\)] *)
Definition rx_close_any : re := seq [ WordB; set "Cc"; lit "lose"; WordB ].
Definition rx_blank_parens : re := seq [ ws; lit "("; lazy_star dot; lit ")" ].

(** [block_lines[m_comment_start:]], when a line has the label of the
    comment. *)
Fixpoint from_multiline (l : list string) : option (list string) :=
  match l with
  | [] => None
  | x :: r => if occurs rx_multiline_label x then Some l else from_multiline r
  end.

(** The loop that collects the lines of the comment. *)
Fixpoint comment_lines (l : list string) : list string :=
  match l with
  | [] => []
  | x :: r =>
      let line_k := strip x in
      if matches rx_comment_stop line_k then []
      else if occurs rx_comment_skip line_k then comment_lines r
      else
        let text := strip (Re.remove rx_multiline_prefix line_k) in
        if truthy text then text :: comment_lines r else comment_lines r
  end.

Definition block_comment (block_lines : list string) : string :=
  let collected :=
    match from_multiline block_lines with
    | Some l => comment_lines l
    | None => []
    end in
  let c0 := strip (join " " collected) in
  let c1 := rstrip_chars "." (strip (Re.remove rx_close_any c0)) in
  let c2 := strip (Re.remove rx_blank_parens c1) in
  let c3 := strip (sub (plus s_) (fun _ => " ") c2) in
  if truthy c3 && negb (endswith "." c3) then c3 ++ "." else c3.

(** The reader up to its first exit: a block without comment is skipped
    and the scan resumes where the next block starts ([i = next_idx]). *)
Definition read_block (with_comment : list string -> nat -> misc_block)
  (lines : list string) (i : nat) : misc_block :=
  let '(next_idx, block_lines) := gather_block lines i in
  if truthy (block_comment block_lines) then with_comment lines i
  else NoComment (next_idx - i).

(** The interface with the reader that skips the blocks without comment
    as the source does. *)
Definition reading (T : Templates) : Templates := {|
  incident_report_entry := @incident_report_entry T;
  elevator_entry := @elevator_entry T;
  work_order_entry := @work_order_entry T;
  key_service_entry := @key_service_entry T;
  misc_block_at := read_block (@misc_block_at T)
|}.

(** ** Articles of key and badge phrases *)

(** [\d|[A-Za-z]\d|\d[A-Za-z]] *)
Definition rx_item_code : re :=
  alts [ d; Cat (Chr is_alpha) d; Cat d (Chr is_alpha) ].

Definition smart_item_phrase (item_text : string) : string :=
  if truthy item_text then
    let txt := lower (strip item_text) in
    if endswith "s" txt && negb (occurs d txt) then strip item_text
    else if occurs rx_item_code txt then "the " ++ strip item_text
    else "a " ++ strip item_text
  else "".

(** * Vocabulary of the statements *)

(** The tokens of a name once the "Officer" or "S/O" prefix is removed. *)
Definition name_tokens (name : string) : list string :=
  split (Re.remove rx_officer_prefix (strip name)).

Definition lobby_incident : Buffer := <["action" := "noted an incident in the lobby"]> ∅.

(** The characters that [strip(" –")] leaves alone: neither the blank nor
    a byte of the en dash. *)
Definition solid_char (c : ascii) : bool :=
  negb (ceqb c " ") && negb (ceqb c "226") && negb (ceqb c "128")
  && negb (ceqb c "147").

Definition has_solid (s : string) : bool := sany solid_char s.

Definition starts_lower (s : string) : bool :=
  match s with
  | String c _ => is_lower c
  | EmptyString => false
  end.

Definition trailing_event : State :=
  with_buffer (<["date" := "9/1/2025 9:00 AM"]> (<["officer" := "Getachew Tegegne"]> ∅))
    initial_state.

Definition aes_call : State :=
  with_buffer (<["category" := "AES Phone Call"]> (<["date" := "9/1/2025 9:00 AM"]> ∅))
    initial_state.

(** An event that is an AES phone call by its company alone. *)
Definition aes_company_only : State :=
  with_buffer (<["company" := "AES"]> (<["date" := "9/1/2025 9:00 AM"]> ∅))
    initial_state.

Definition key_le (a b : string) : Prop := dt_le (_extract_dt a) (_extract_dt b).

(** An entry is dated when it starts with a timestamp that [strptime]
    reads. *)
Definition dated (e : string) : Prop := is_Some (entry_time e).

(** What the three steps of the final pass do to the entries of one
    section. *)
Definition or_placeholder (l : list string) : list string :=
  match l with
  | [] => [PLACEHOLDER]
  | _ => l
  end.

Definition transient_line (count : nat) : string :=
  if (0 <? count)%nat then transient_summary count else PLACEHOLDER.

Definition sorted_unless_placeholder (l : list string) : list string :=
  match l with
  | [] => []
  | x :: r => if seqb x PLACEHOLDER then l else sort_entries l
  end.

Definition final_entries (count : nat) (s : string) (l : list string) : list string :=
  sorted_unless_placeholder
    (if decide (s = SEC_TRANSIENT) then [transient_line count] else or_placeholder l).

(** The sections that have a template of their own in [flush_event]; the
    events of the other sections take the normal path. *)
Definition templated : list string :=
  [ SEC_IR; SEC_ELEVATOR; SEC_WORK; SEC_DAMAGE; SEC_KEY; SEC_DOCK; SEC_FIRE;
    SEC_AES; SEC_JANITORIAL; SEC_ADDITIONAL ].

Definition normal_path (sec : string) : bool := negb (existsb (seqb sec) templated).

(** An event is recorded as a transient removal when it takes the normal
    path with an entry that is not empty and either is classified as
    Transient Removal or follows a "Transient Removal" label. *)
Definition recorded (e : event) : bool :=
  normal_path (ev_section e) && truthy (ev_line e)
  && (seqb (ev_section e) SEC_TRANSIENT || ev_tagged e).

Definition count_recorded (h : list event) : nat :=
  length (filter (fun e => recorded e = true) h).

(** The events of a history that were classified as Transient Removal. *)
Definition count_classified (sec : string) (h : list event) : nat :=
  length (filter (fun e => ev_section e = sec) h).

Definition bump (b : bool) (n : nat) : nat := if b then S n else n.

(** The entries of the Additional Information section are pairwise
    distinct. *)
Definition misc_distinct (p : Report) : Prop :=
  forall l, p !! SEC_ADDITIONAL = Some l -> NoDup l.

(** What the scan maintains: the transient counter is the number of
    recorded events, and the Additional Information section has no entry
    twice. *)
Definition good (st : State) : Prop :=
  transient_count st = count_recorded (history st)
  /\ misc_distinct (parsed st).

(** A stage keeps the invariant. *)
Definition keeps (s : stage) : Prop :=
  forall st f, s st = Returns f -> good st -> good (flow_state f).

(** The entries of a section before the final sort. *)
Definition unsorted_entries (count : nat) (s : string) (scanned : list string)
  : list string :=
  if decide (s = SEC_TRANSIENT) then [transient_line count] else or_placeholder scanned.

(** ** Documents *)

(** Whether an outcome is a value, and that value, with a default for the
    other outcomes. *)
Definition is_returns {A} (o : outcome A) : bool :=
  match o with
  | Returns _ => true
  | _ => false
  end.

Definition returned {A} (o : outcome A) (dflt : A) : A :=
  match o with
  | Returns a => a
  | _ => dflt
  end.

(** The state at the end of the scan of a document and the finished
    report, read with the templates of [quiet] and the labels in the order
    of their insertion. *)
Definition state_of (lines : list string) : State :=
  returned (@scan quiet id lines) initial_state.

Definition report_of (lines : list string) : Report :=
  returned (@parse_events quiet id lines) ∅.

Definition unclassified_doc : list string :=
  [ "Start Date : 9/1/2025 8:00 AM"; "Security action : walked around" ].

Definition tagged_retail_doc : list string :=
  [ "Transient Removal"; "Retail Issues"; "Security action : checked store";
    "Start Date : 9/1/2025 8:00 AM" ].

Definition bare_transient_doc : list string :=
  [ "Transient Removal"; "Start Date : 9/1/2025 8:00 AM" ].

Definition placeholder_first_doc : list string :=
  [ "Start Date : None to Report"; "Retail Issues";
    "Start Date : 9/2/2025 8:00 AM"; "Retail Issues";
    "Start Date : 9/1/2025 8:00 AM"; "Retail Issues" ].

Definition out_of_order_doc : list string :=
  [ "Start Date : 9/2/2025 8:00 AM"; "Retail Issues";
    "Start Date : 9/1/2025 8:00 AM"; "Retail Issues" ].

Definition straddling_labels_doc : list string :=
  [ "Tenant phone"; "call Tenant"; "Start Date : 9/1/2025 8:00 AM" ].

Definition dock_scenario : list string :=
  [ "Loading Dock Gate"; "TEGEGNE Getachew"; "Start Date : 9/1/2025 8:00 AM";
    "Security action : unlocked the gate for ABM"; "Company : ABM";
    "9/1/2025 9:00 AM" ].


Definition misc_doc : list string :=
  [ "Other/Miscellaneous"; "Other/Miscellaneous"; "Start Date : 9/1/2025 8:00 AM" ].


Definition AES_SUPERVISORY_ENTRY : string :=
  "called the AES Alarm Monitoring and placed the system on supervisory hold "
  ++ "in coordination with the vendor <font color='green'>(Operator Name: "
  ++ "<b>N/A</b>, Operator Number: <b>N/A</b>)</font>".

Definition JANITORIAL_ABM_ENTRY : string :=
  "09/01/25 8:00 AM " ++ EN_DASH ++ " coordinated janitorial services through ABM "
  ++ "to address reported cleaning needs on site".

(** ** Vocabulary of the further properties *)

(** A report has the sections of [SECTIONS] for keys, and no other key. *)
Definition keyed (p : Report) : Prop :=
  forall s, is_Some (p !! s) <-> s ∈ SECTIONS.

(** A stage keeps the keys of the report. *)
Definition keeps_keys (s : stage) : Prop :=
  forall st f, s st = Returns f -> keyed (parsed st) -> keyed (parsed (flow_state f)).

(** A state that holds an event which the classifier leaves unclassified
    and that has an action, and one whose event has a category only. *)
Definition walked_around : State :=
  with_buffer (<["action" := "walked around"]> (<["date" := "9/1/2025 8:00 AM"]> ∅))
    initial_state.

Definition category_only : State :=
  with_buffer (<["category" := "Patrol"]> ∅) initial_state.

(** Text of ASCII characters, for which the single-byte reading of
    Python's character predicates is exact. *)
Definition ascii_only (s : string) : bool := sall (fun c => (code c <? 128)%nat) s.

(** A word as [str.split] yields them: not empty and without blank. *)
Definition is_token (s : string) : bool :=
  truthy s && sall (fun c => negb (is_space c)) s.

(** A report grows: every section keeps its entries, in their order, and
    new ones come after them. *)
Definition grows (p p' : Report) : Prop :=
  forall s l, p !! s = Some l -> exists l', p' !! s = Some (l ++ l')%list.

(** The lines of the events that took the normal path are in the report. *)
Definition kept (st : State) : Prop :=
  forall e, e ∈ history st ->
    normal_path (ev_section e) = true -> truthy (ev_line e) = true ->
    exists l, parsed st !! ev_section e = Some l /\ ev_line e ∈ l.

(** A stage keeps the lines of the events in the report. *)
Definition keeps_events (s : stage) : Prop :=
  forall st f, s st = Returns f -> kept st -> kept (flow_state f).

(** A state whose event is tagged as a retail issue, and a document whose
    two retail events come in the order of their dates. *)
Definition retail_event : State :=
  with_buffer (<["category" := "Retail Issues"]> (<["date" := "9/1/2025 8:00 AM"]> ∅))
    initial_state.

Definition in_order_doc : list string :=
  [ "Start Date : 9/1/2025 8:00 AM"; "Retail Issues";
    "Start Date : 9/2/2025 8:00 AM"; "Retail Issues" ].

Definition summary_doc : list string :=
  [ "Other/Miscellaneous"; "Summary of Other/Miscellaneous";
    "Start Date : 9/1/2025 8:00 AM" ].

(** The characters of a string are all blank, or all not blank. *)
Definition of_class (blank : bool) (w : string) : bool :=
  sall (fun c => Bool.eqb (is_space c) blank) w.

(** The runs after the first one: not empty, of one class each, and the
    classes alternate. *)
Fixpoint alternating (blank : bool) (l : list (bool * string)) : Prop :=
  match l with
  | [] => True
  | (b, w) :: r =>
      b = blank /\ truthy w = true /\ of_class blank w = true
      /\ alternating (negb blank) r
  end.

(** A string starts with a character that is not blank, or is empty. *)
Definition first_ok (a : string) : bool :=
  match a with
  | EmptyString => true
  | String c _ => negb (is_space c)
  end.

(** The runs of a location, each formatted as [format_location_name]
    formats it. *)
Definition format_runs (l : list (bool * string)) : list (bool * string) :=
  match l with
  | [] => []
  | w :: ws => (fst w, format_word true w)
               :: map (fun x => (fst x, format_word false x)) ws
  end.

(** Whether [strptime] reads the time that [clock_12h] writes for an hour
    and a minute as that hour and that minute. *)
Definition reads_time_back (hh mm : nat) : bool :=
  match strptime ("09/01/25 " ++ clock_12h hh mm) with
  | Some t =>
      (year t =? 2025)%Z && (month t =? 9)%Z && (day t =? 1)%Z
      && (hour t =? Z.of_nat hh)%Z && (minute t =? Z.of_nat mm)%Z
      && (second t =? 0)%Z && (microsecond t =? 0)%Z
  | None => false
  end.

(** The year that [strptime] reads in two digits under [%y]. *)
Definition century (yy : nat) : nat :=
  (if yy <=? 68 then 2000 + yy else 1900 + yy)%nat.

(** A year is written in four digits of which [%y] reads the last two as
    that year. *)
Definition year_digits_ok (y : nat) : bool :=
  match str_of_nat y with
  | String y1 (String y2 (String c5 (String c6 EmptyString))) =>
      is_digit y1 && is_digit y2 && is_digit c5 && is_digit c6
      && (century (int_of (String c5 (String c6 ""))) =? y)%nat
  | _ => false
  end.

(** One or two digits. *)
Definition short_number (s : string) : bool :=
  match s with
  | String a EmptyString => is_digit a
  | String a (String b EmptyString) => is_digit a && is_digit b
  | _ => false
  end.

(** What the entry stamp needs of the number of a month or of a day: it
    is written in one or two digits, [f"{int(s):02d}"] makes two digits
    of them, and [strptime] reads these as the number. *)
Definition small_number_ok (n : nat) : bool :=
  short_number (str_of_nat n)
  && seqb (pad2 (int_of (str_of_nat n))) (pad2 n)
  && match pad2 n with
     | String p (String q EmptyString) => is_digit p && is_digit q
     | _ => false
     end
  && (int_of (strip (pad2 n)) =? n)%nat.

(** The long date of an event of 8:00 AM, and the stamp of its entry. *)
Definition long_date (M D : string) (y1 y2 c5 c6 : ascii) : string :=
  M ++ "/" ++ D ++ "/" ++ String y1 (String y2 (String c5 (String c6 " 8:00 AM"))).

Definition stamp (p p' q q' c5 c6 : ascii) : string :=
  String p (String p' (String "/" (String q (String q' (String "/"
    (String c5 (String c6 " 8:00 AM"))))))).

(** The words of the Property Damage rule of [classify], and the phrases
    of its first Elevator Entrapment rule. *)
Definition damage_objects : list string :=
  [ "gate"; "door"; "frame"; "lock"; "glass"; "loading dock"; "dock gate" ].

Definition elevator_phrases : list string :=
  [ "elevator entrapment incident"; "stuck in elevator"; "elevator incident";
    "got stuck in cap"; "doors stayed closed"; "kone technician"; "otis elevator" ].

(** An event without category whose action has the word "incident" and
    names a door. *)
Definition incident_at_door : Buffer :=
  <["action" := "noted an incident at the door"]> ∅.

(** A janitorial event whose action names the Seattle Ambassadors. *)
Definition ambassador_call : Buffer :=
  <["action" := "called the Seattle Ambassadors"]> ∅.

(** * Properties *)

(** ** Officer names *)

Lemma name_tokens_nonempty name :
  name_tokens name <> [] -> truthy (strip name) = true.
Proof.
  unfold name_tokens. destruct (strip name) as [|c r]; [|reflexivity].
  intros Hne. exfalso. apply Hne. vm_compute. reflexivity.
Qed.

(** C8. For a name of two tokens, [bold_officer] swaps the tokens when the
    first is upper-case throughout and the second starts upper-case and
    goes on lower-case, and capitalises both in their order otherwise. *)
Theorem bold_officer_two_tokens (name first second : string) :
  name_tokens name = [first; second] ->
  bold_officer name =
    "<b>Officer "
    ++ (if isupper first && isupper (head second) && islower (tail second)
        then capitalize second ++ " " ++ capitalize first
        else capitalize first ++ " " ++ capitalize second)
    ++ "</b>".
Proof.
  intros Htok. unfold bold_officer.
  rewrite name_tokens_nonempty by (rewrite Htok; discriminate).
  unfold officer_name. fold (name_tokens name). rewrite Htok. reflexivity.
Qed.

Lemma bold_officer_two_tokens_witness :
  (name_tokens "TEGEGNE Getachew" = ["TEGEGNE"; "Getachew"]
   /\ bold_officer "TEGEGNE Getachew" = "<b>Officer Getachew Tegegne</b>")
  /\ (name_tokens "Faiz Mohmand" = ["Faiz"; "Mohmand"]
      /\ bold_officer "Faiz Mohmand" = "<b>Officer Faiz Mohmand</b>").
Proof.
  split; (split; [vm_compute; reflexivity|]).
  - rewrite (bold_officer_two_tokens "TEGEGNE Getachew" "TEGEGNE" "Getachew");
      vm_compute; reflexivity.
  - rewrite (bold_officer_two_tokens "Faiz Mohmand" "Faiz" "Mohmand");
      vm_compute; reflexivity.
Defined.

(** ** The classifier *)

Lemma sections_differ_from_ir :
  Forall (fun s => s <> SEC_IR)
    [ SEC_ELEVATOR; SEC_SPD; SEC_DAMAGE; SEC_TENANT; SEC_RETAIL; SEC_TRANSIENT;
      SEC_KEY; SEC_DOCK; SEC_FIRE; SEC_AES; SEC_WORK; SEC_JANITORIAL;
      SEC_ADDITIONAL; UNCLASSIFIED ].
Proof. repeat constructor; discriminate. Qed.

(** The second layer answers "Incident Reports" only on a strong signal. *)
Lemma heuristic_ir_needs_signal (buffer : Buffer) (txt : string) :
  strong_ir_signal txt = false -> classify_heuristic buffer txt <> SEC_IR.
Proof.
  intros Hno. unfold classify_heuristic. rewrite Hno.
  repeat match goal with
         | |- (if ?c then _ else _) <> _ => destruct c
         end; discriminate.
Qed.

(** C7. A buffer that reaches the full-text layer and whose text has the
    word "incident" but none of the strong signals (the phrase "incident
    report", a numbered "ir #N" or "incident #N", "police", "911",
    "injury", "assault", "theft", "robbery") is never classified as an
    incident report. *)
Theorem generic_incident_is_not_ir (buffer : Buffer) (labels : list string) :
  classify_explicit buffer = None ->
  contains "incident" (classify_text buffer labels) = true ->
  strong_ir_signal (classify_text buffer labels) = false ->
  classify buffer labels <> SEC_IR.
Proof.
  intros Hexp _ Hno. unfold classify. rewrite Hexp.
  apply heuristic_ir_needs_signal. exact Hno.
Qed.

Lemma generic_incident_is_not_ir_witness :
  classify_explicit lobby_incident = None
  /\ contains "incident" (classify_text lobby_incident []) = true
  /\ strong_ir_signal (classify_text lobby_incident []) = false
  /\ classify lobby_incident [] <> SEC_IR.
Proof.
  split; [vm_compute; reflexivity|].
  split; [vm_compute; reflexivity|].
  split; [vm_compute; reflexivity|].
  apply (generic_incident_is_not_ir lobby_incident []); vm_compute; reflexivity.
Defined.

(** ** Strings: what survives stripping *)

Lemma sapp_assoc (a b c : string) : (a ++ b) ++ c = a ++ (b ++ c).
Proof. induction a as [|x a IH]; simpl; [reflexivity|]. f_equal. exact IH. Qed.

Lemma srev_onto_app s acc : srev_onto s acc = srev s ++ acc.
Proof.
  unfold srev. revert acc. induction s as [|c r IH]; intros acc; simpl; [reflexivity|].
  rewrite (IH (String c acc)), (IH (String c EmptyString)).
  rewrite sapp_assoc. reflexivity.
Qed.

Lemma srev_cons c r : srev (String c r) = srev r ++ String c "".
Proof. unfold srev at 1. simpl. apply srev_onto_app. Qed.

Lemma srev_snoc s c : srev (s ++ String c "") = String c (srev s).
Proof.
  induction s as [|a r IH]; [reflexivity|].
  simpl. rewrite !srev_cons, IH. reflexivity.
Qed.

Lemma srev_involutive s : srev (srev s) = s.
Proof.
  induction s as [|c r IH]; [reflexivity|].
  rewrite srev_cons, srev_snoc, IH. reflexivity.
Qed.

Lemma lstrip_by_snoc p s c :
  p c = false -> lstrip_by p (s ++ String c "") = lstrip_by p s ++ String c "".
Proof.
  intros Hc. induction s as [|a r IH]; simpl.
  - rewrite Hc. reflexivity.
  - destruct (p a); [exact IH|reflexivity].
Qed.

(** A character that is not stripped keeps its place at the front. *)
Lemma rstrip_by_cons p c r :
  p c = false -> rstrip_by p (String c r) = String c (rstrip_by p r).
Proof.
  intros Hc. unfold rstrip_by.
  rewrite srev_cons, lstrip_by_snoc by exact Hc.
  apply srev_snoc.
Qed.

Lemma strip_by_cons p c r :
  p c = false -> strip_by p (String c r) = String c (rstrip_by p r).
Proof.
  intros Hc. unfold strip_by. simpl. rewrite Hc. apply rstrip_by_cons, Hc.
Qed.

Lemma has_solid_truthy s : has_solid s = true -> truthy s = true.
Proof. destruct s; [discriminate|reflexivity]. Qed.

Lemma has_solid_app a b : has_solid (a ++ b) = has_solid a || has_solid b.
Proof.
  unfold has_solid. induction a as [|c r IH]; simpl; [reflexivity|].
  rewrite IH. apply orb_assoc.
Qed.

Lemma has_solid_srev s : has_solid (srev s) = has_solid s.
Proof.
  induction s as [|c r IH]; [reflexivity|].
  rewrite srev_cons, has_solid_app, IH. unfold has_solid. simpl.
  rewrite orb_false_r. apply orb_comm.
Qed.

Lemma startswith_split p s :
  startswith p s = true -> s = p ++ drop (String.length p) s.
Proof.
  revert s. induction p as [|a p IH]; intros s Hs; simpl in *; [reflexivity|].
  destruct s as [|b s]; [discriminate|].
  apply andb_prop in Hs as [Hab Hs].
  apply Ascii.eqb_eq in Hab. subst b. simpl. f_equal. apply IH, Hs.
Qed.

(** Dropping a prefix without solid character keeps the solid ones. *)
Lemma has_solid_drop_prefix p s :
  has_solid p = false -> startswith p s = true ->
  has_solid (drop (String.length p) s) = has_solid s.
Proof.
  intros Hp Hs. rewrite (startswith_split p s Hs) at 2.
  rewrite has_solid_app, Hp. reflexivity.
Qed.

Lemma lstrip_dash_go_solid fuel s :
  has_solid (lstrip_dash_go fuel s) = has_solid s.
Proof.
  revert s. induction fuel as [|f IH]; intros s; cbn [lstrip_dash_go]; [reflexivity|].
  destruct (startswith " " s) eqn:Hb.
  - rewrite IH. apply (has_solid_drop_prefix " " s); [reflexivity|exact Hb].
  - destruct (startswith EN_DASH s) eqn:Hd; [|reflexivity].
    rewrite IH. apply (has_solid_drop_prefix EN_DASH s); [reflexivity|exact Hd].
Qed.

Lemma rstrip_dash_go_solid fuel s :
  has_solid (rstrip_dash_go fuel s) = has_solid s.
Proof.
  revert s. induction fuel as [|f IH]; intros s; cbn [rstrip_dash_go]; [reflexivity|].
  destruct (startswith " " s) eqn:Hb.
  - rewrite IH. apply (has_solid_drop_prefix " " s); [reflexivity|exact Hb].
  - destruct (startswith (srev EN_DASH) s) eqn:Hd; [|reflexivity].
    rewrite IH. apply (has_solid_drop_prefix (srev EN_DASH) s); [reflexivity|exact Hd].
Qed.

Lemma strip_dash_solid s : has_solid (strip_dash s) = has_solid s.
Proof.
  unfold strip_dash, lstrip_dash.
  rewrite has_solid_srev, rstrip_dash_go_solid, has_solid_srev.
  apply lstrip_dash_go_solid.
Qed.

Lemma has_solid_join sep x l :
  In x l -> has_solid x = true -> has_solid (join sep l) = true.
Proof.
  intros Hin Hx. induction l as [|y r IH]; [contradiction|].
  destruct r as [|z r'].
  - destruct Hin as [->|[]]. exact Hx.
  - change (join sep (y :: z :: r')) with (y ++ sep ++ join sep (z :: r')).
    rewrite !has_solid_app. destruct Hin as [->|Hin].
    + rewrite Hx. reflexivity.
    + rewrite (IH Hin). rewrite !orb_true_r. reflexivity.
Qed.

(** ** Entries are not empty when the action is a sentence *)

Lemma lower_char_facts c :
  is_lower c = true ->
  is_upper c = false /\ is_space c = false /\ is_word c = true
  /\ solid_char c = true /\ ceqb "C" c = false.
Proof.
  intros Hc. destruct c as [[] [] [] [] [] [] [] []]; vm_compute in Hc;
    try discriminate Hc; vm_compute; repeat split; reflexivity.
Qed.

Lemma starts_lower_solid s : starts_lower s = true -> has_solid s = true.
Proof.
  destruct s as [|c r]; [discriminate|]. simpl. intros Hc.
  unfold has_solid. simpl. destruct (lower_char_facts c Hc) as (_ & _ & _ & -> & _).
  reflexivity.
Qed.

Lemma split_go_word s cur :
  cur <> "" -> exists t ws, split_go s cur = srev (t ++ cur) :: ws.
Proof.
  revert cur. induction s as [|c r IH]; intros cur Hcur.
  - exists "", []. simpl. destruct cur; [contradiction|reflexivity].
  - simpl. destruct (is_space c).
    + exists "". destruct cur; [contradiction|]. eexists. reflexivity.
    + destruct (IH (String c cur)) as (t & ws & Heq); [discriminate|].
      exists (t ++ String c ""), ws. rewrite Heq, sapp_assoc. reflexivity.
Qed.

(** The first word of a text that starts with a lower-case letter starts
    with that letter. *)
Lemma split_first_word c r :
  is_lower c = true -> exists w ws, split (String c r) = String c w :: ws.
Proof.
  intros Hc. destruct (lower_char_facts c Hc) as (_ & Hsp & _).
  unfold split. simpl. rewrite Hsp.
  destruct (split_go_word r (String c "")) as (t & ws & Heq); [discriminate|].
  exists (srev t), ws. rewrite Heq, srev_snoc. reflexivity.
Qed.

Lemma verb_map_values_lower k v : VERB_MAP !! k = Some v -> starts_lower v = true.
Proof.
  intros Hkv.
  assert (Hall : map_Forall (fun _ v => starts_lower v = true) VERB_MAP).
  { apply (bool_decide_unpack _). vm_compute. reflexivity. }
  exact (Hall k v Hkv).
Qed.

Lemma join_cons_starts sep w ws :
  starts_lower w = true -> starts_lower (join sep (w :: ws)) = true.
Proof.
  destruct w as [|c w]; [discriminate|]. intros Hc.
  destruct ws; simpl; exact Hc.
Qed.

Lemma to_past_tense_starts_lower s :
  starts_lower s = true -> starts_lower (to_past_tense s) = true.
Proof.
  destruct s as [|c r]; [discriminate|]. simpl. intros Hc.
  destruct (split_first_word c r Hc) as (w & ws & Hsplit).
  unfold to_past_tense. rewrite Hsplit.
  apply join_cons_starts.
  destruct (lower_char_facts c Hc) as (Hup & _).
  assert (Hlow : lower (String c w) = String c (lower w)).
  { unfold lower. simpl. unfold to_lower. rewrite Hup. reflexivity. }
  destruct (VERB_MAP !! lower (String c w)) as [v|] eqn:Hv.
  - exact (verb_map_values_lower _ _ Hv).
  - rewrite Hlow. destruct (endswith "ed" (String c (lower w))); simpl; exact Hc.
Qed.

Lemma remove_close_starts_lower s :
  starts_lower s = true -> starts_lower (Re.remove rx_close_word s) = true.
Proof.
  destruct s as [|c r]; [discriminate|]. simpl. intros Hc.
  unfold Re.remove, sub. cbn [String.length sub_go].
  assert (Hno : match_at rx_close_word None 0 (String c r) = None).
  { destruct c as [[] [] [] [] [] [] [] []]; vm_compute in Hc;
      try discriminate Hc; vm_compute; reflexivity. }
  rewrite Hno. simpl. exact Hc.
Qed.

Lemma strip_starts_lower s :
  starts_lower s = true -> starts_lower (strip s) = true.
Proof.
  destruct s as [|c r]; [discriminate|]. simpl. intros Hc.
  destruct (lower_char_facts c Hc) as (_ & Hsp & _).
  unfold strip. rewrite strip_by_cons by exact Hsp. exact Hc.
Qed.

(** An action that starts with a lower-case letter still does once it is
    put in the past tense. *)
Lemma past_action_starts_lower s :
  starts_lower s = true -> starts_lower (past_action s) = true.
Proof.
  intros Hs. unfold past_action.
  destruct (truthy s); [|exact Hs].
  apply strip_starts_lower, remove_close_starts_lower, to_past_tense_starts_lower, Hs.
Qed.

(** A buffer whose action starts with a lower-case letter yields an
    entry. *)
Lemma build_event_line_truthy (b : Buffer) :
  starts_lower (get b "action") = true -> truthy (build_event_line b) = true.
Proof.
  intros Hact. unfold build_event_line.
  set (action := past_action (strip (get b "action"))).
  assert (Hlow : starts_lower action = true)
    by apply past_action_starts_lower, strip_starts_lower, Hact.
  assert (Hsolid : has_solid action = true) by apply starts_lower_solid, Hlow.
  cbv zeta.
  set (clause := action ++ _).
  assert (Hclause : has_solid clause = true).
  { unfold clause. rewrite has_solid_app, Hsolid. reflexivity. }
  apply has_solid_truthy. rewrite strip_dash_solid.
  apply (has_solid_join _ clause); [|exact Hclause].
  apply list_elem_of_In, list_elem_of_filter. split.
  - apply has_solid_truthy, Hclause.
  - rewrite (has_solid_truthy action Hsolid).
    rewrite !elem_of_app. right. right. left. apply list_elem_of_here.
Qed.

(** ** [flush_event] *)

Section FlushFacts.
Context `{Templates}.
Variable set_order : list string -> list string.
Variable lines : list string.

Lemma missing_not_filled (b : Buffer) k : b !! k = None -> filled b k = false.
Proof. intros Hk. unfold filled, get. rewrite Hk. reflexivity. Qed.

(** C2. A buffer that has none of the fields [action],
    [incident_description], [incident_comments] and [category] is
    discarded by [flush_event]: the call returns, no section of the
    report changes, nothing is counted or classified, and the buffer is
    left empty. *)
Theorem empty_buffer_is_discarded (st : State) :
  buffer st !! "action" = None ->
  buffer st !! "incident_description" = None ->
  buffer st !! "incident_comments" = None ->
  buffer st !! "category" = None ->
  exists st',
    flush_event set_order lines st = Returns st'
    /\ parsed st' = parsed st
    /\ transient_count st' = transient_count st
    /\ history st' = history st
    /\ buffer st' = ∅.
Proof.
  intros Ha Hd Hc Hcat. unfold flush_event, is_empty_event.
  rewrite !missing_not_filled by assumption.
  rewrite orb_true_r. eexists. split; [reflexivity|]. repeat split.
Qed.

Lemma emit_aes (b : Buffer) (st : State) :
  emit lines SEC_AES b st =
    (p' ← append_if_any SEC_AES (build_event_line (aes_action b)) (parsed st);
     mret (with_parsed p' st)).
Proof. reflexivity. Qed.

(** The AES template always writes a sentence. *)
Lemma aes_action_starts_lower (b : Buffer) :
  starts_lower (get (aes_action b) "action") = true.
Proof.
  unfold aes_action. cbv zeta. unfold get. rewrite lookup_insert_eq. simpl default.
  repeat match goal with
         | |- starts_lower (if ?c then _ else _) = true => destruct c
         end; reflexivity.
Qed.

(** With the default action the AES template reports a supervisory hold
    without an end time. *)
Lemma aes_default_wording (b : Buffer) :
  get b "action" = AES_DEFAULT_ACTION ->
  get (aes_action b) "action" =
    "called the AES Alarm Monitoring and placed the system on supervisory hold"
    ++ " in coordination with " ++ or_default (strip (get b "company")) "the vendor"
    ++ " <font color='green'>(Operator Name: <b>"
    ++ strip (or_default (get b "operator_name") "N/A")
    ++ "</b>, Operator Number: <b>"
    ++ strip (or_default (get b "operator_number") "N/A") ++ "</b>)</font>".
Proof.
  intros Hact. unfold aes_action. cbv zeta. rewrite Hact.
  unfold get at 1. rewrite lookup_insert_eq. simpl default.
  set (vendor := or_default _ _). set (name := strip (or_default _ _)).
  set (number := strip (or_default _ _)).
  clearbody vendor name number.
  vm_compute. reflexivity.
Qed.

(** C10, amended. An event that passes the empty-buffer rule, that
    [flush_event] classifies as an AES phone call and that has no action
    gets the default action "handled AES phone call to put the fire
    system on test" before the AES template runs, and the template then
    appends an entry, which is not empty, to the AES section. *)
Theorem aes_event_without_action (st : State) (entries : list string) :
  is_empty_event (buffer st) = false ->
  classify (buffer st) (set_order (labels st)) = SEC_AES ->
  filled (buffer st) "action" = false ->
  parsed st !! SEC_AES = Some entries ->
  let b := <["action" := AES_DEFAULT_ACTION]> (buffer st) in
  let evt := build_event_line (aes_action b) in
  default_aes_action SEC_AES (buffer st) = b
  /\ truthy evt = true
  /\ exists st',
       flush_event set_order lines st = Returns st'
       /\ parsed st' = <[SEC_AES := (entries ++ [evt])%list]> (parsed st).
Proof.
  intros Hguard Hsec Hact Hentries b evt.
  assert (Hdefault : default_aes_action SEC_AES (buffer st) = b).
  { unfold default_aes_action. rewrite Hact. reflexivity. }
  assert (Hevt : truthy evt = true)
    by apply build_event_line_truthy, aes_action_starts_lower.
  split; [exact Hdefault|]. split; [exact Hevt|].
  unfold flush_event. rewrite Hguard. cbv zeta. rewrite Hsec, Hdefault, emit_aes.
  fold evt. unfold append_if_any. rewrite Hevt. unfold append_entry.
  rewrite Hentries. eexists. split; reflexivity.
Qed.

End FlushFacts.

Lemma empty_buffer_is_discarded_witness :
  buffer trailing_event !! "action" = None
  /\ buffer trailing_event !! "incident_description" = None
  /\ buffer trailing_event !! "incident_comments" = None
  /\ buffer trailing_event !! "category" = None
  /\ exists st',
       @flush_event quiet id [] trailing_event = Returns st'
       /\ parsed st' = parsed trailing_event
       /\ transient_count st' = transient_count trailing_event
       /\ history st' = history trailing_event
       /\ buffer st' = ∅.
Proof.
  split; [reflexivity|]. split; [reflexivity|]. split; [reflexivity|].
  split; [reflexivity|].
  apply (@empty_buffer_is_discarded quiet id [] trailing_event); reflexivity.
Defined.

(** C10, as stated, fails: this event is an AES phone call by its company
    and has no action, and yet it has no entry.  The empty-buffer rule
    comes before the classifier and the default action, and discards the
    event for want of an action, a description, comments and a
    category. *)
Lemma aes_event_dropped_by_guard :
  classify (buffer aes_company_only) (id (labels aes_company_only)) = SEC_AES
  /\ filled (buffer aes_company_only) "action" = false
  /\ parsed aes_company_only !! SEC_AES = Some []
  /\ exists st',
       @flush_event quiet id [] aes_company_only = Returns st'
       /\ parsed st' !! SEC_AES = Some []
       /\ buffer st' = ∅.
Proof.
  split; [vm_compute; reflexivity|]. split; [vm_compute; reflexivity|].
  split; [vm_compute; reflexivity|].
  destruct (@empty_buffer_is_discarded quiet id [] aes_company_only)
    as (st' & Hflush & Hparsed & _ & _ & Hbuffer); try reflexivity.
  exists st'. split; [exact Hflush|]. split; [|exact Hbuffer].
  rewrite Hparsed. vm_compute. reflexivity.
Qed.

Lemma aes_event_without_action_witness :
  is_empty_event (buffer aes_call) = false
  /\ classify (buffer aes_call) (id (labels aes_call)) = SEC_AES
  /\ filled (buffer aes_call) "action" = false
  /\ parsed aes_call !! SEC_AES = Some []
  /\ exists st',
       @flush_event quiet id [] aes_call = Returns st'
       /\ parsed st' !! SEC_AES =
            Some [ "09/01/25 9:00 AM " ++ EN_DASH
                   ++ " called the AES Alarm Monitoring and placed the system on"
                   ++ " supervisory hold in coordination with the vendor"
                   ++ " <font color='green'>(Operator Name: <b>N/A</b>,"
                   ++ " Operator Number: <b>N/A</b>)</font>" ].
Proof.
  split; [vm_compute; reflexivity|]. split; [vm_compute; reflexivity|].
  split; [vm_compute; reflexivity|]. split; [vm_compute; reflexivity|].
  destruct (@aes_event_without_action quiet id [] aes_call [])
    as (_ & _ & st' & Hflush & Hparsed); try (vm_compute; reflexivity).
  exists st'. split; [exact Hflush|]. rewrite Hparsed. vm_compute. reflexivity.
Defined.

(** ** The chronological sort *)

Lemma insert_entry_perm x l : insert_entry x l ≡ₚ x :: l.
Proof.
  induction l as [|y r IH]; simpl; [reflexivity|].
  destruct (dt_leb _ _); [reflexivity|].
  rewrite IH. apply Permutation_swap.
Qed.

Lemma sort_entries_perm l : sort_entries l ≡ₚ l.
Proof.
  induction l as [|x r IH]; simpl; [reflexivity|].
  rewrite insert_entry_perm, IH. reflexivity.
Qed.

Lemma insert_entry_sorted x l :
  StronglySorted key_le l -> StronglySorted key_le (insert_entry x l).
Proof.
  induction 1 as [|y r Hr IH Hy]; simpl.
  - repeat constructor.
  - destruct (dt_leb (_extract_dt x) (_extract_dt y)) eqn:Hxy.
    + apply Z.leb_le in Hxy. constructor.
      * constructor; assumption.
      * constructor; [exact Hxy|].
        eapply Forall_impl; [exact Hy|]. intros z Hz. unfold key_le, dt_le in *. lia.
    + apply Z.leb_gt in Hxy. constructor; [exact IH|].
      rewrite insert_entry_perm. constructor; [|exact Hy].
      unfold key_le, dt_le. lia.
Qed.

Lemma sort_entries_sorted l : StronglySorted key_le (sort_entries l).
Proof.
  induction l as [|x r IH]; simpl; [constructor|].
  apply insert_entry_sorted, IH.
Qed.

(** The sort is stable: the entries of one key keep their order. *)
Lemma insert_entry_same_key (z : Z) x l :
  filter (fun e => dt_ord (_extract_dt e) = z) (insert_entry x l)
  = filter (fun e => dt_ord (_extract_dt e) = z) (x :: l).
Proof.
  induction l as [|y r IH]; simpl; [reflexivity|].
  destruct (dt_leb (_extract_dt x) (_extract_dt y)) eqn:Hxy; [reflexivity|].
  apply Z.leb_gt in Hxy.
  rewrite (filter_cons _ y), IH, !filter_cons.
  repeat case_decide; try reflexivity; lia.
Qed.

Lemma sort_entries_stable (z : Z) l :
  filter (fun e => dt_ord (_extract_dt e) = z) (sort_entries l)
  = filter (fun e => dt_ord (_extract_dt e) = z) l.
Proof.
  induction l as [|x r IH]; simpl; [reflexivity|].
  rewrite insert_entry_same_key, !filter_cons, IH. reflexivity.
Qed.

Lemma days_in_month_le y m : (days_in_month y m <= 31)%nat.
Proof.
  unfold days_in_month.
  repeat match goal with
         | |- context [match ?x with _ => _ end] => destruct x
         end; lia.
Qed.

(** A timestamp that [strptime] reads is earlier than [datetime.max]. *)
Lemma strptime_before_max s t : strptime s = Some t -> dt_lt t dt_max.
Proof.
  unfold strptime. destruct (rmatch rx_strptime s) as [f|]; [|discriminate].
  destruct (truthy (rest f)); [discriminate|]. cbv zeta.
  set (y := if (_ <=? 68)%nat then _ else _).
  set (m := int_of (strip _)). set (dd := int_of (strip _)).
  set (h := if seqb _ _ then _ else _). set (mi := int_of (grp 5 _)).
  destruct (valid_datetime y m dd h mi) eqn:Hv; [|discriminate].
  intros [= <-]. unfold valid_datetime in Hv.
  repeat (apply andb_prop in Hv as [Hv ?]).
  repeat match goal with
         | H : (_ <=? _)%nat = true |- _ => apply Nat.leb_le in H
         | H : (_ <=? _)%Z = true |- _ => apply Z.leb_le in H
         end.
  pose proof (days_in_month_le y m).
  unfold dt_lt, dt_ord, dt_max. simpl. lia.
Qed.

Lemma dated_before_max e : dated e -> dt_lt (_extract_dt e) dt_max.
Proof.
  intros [t Ht]. unfold _extract_dt. rewrite Ht. simpl.
  unfold entry_time in Ht. destruct (rmatch rx_entry_stamp e); [|discriminate].
  exact (strptime_before_max _ _ Ht).
Qed.

(** An entry without a readable timestamp has the key [datetime.max]. *)
Lemma undated_key e : ~ dated e -> _extract_dt e = dt_max.
Proof.
  unfold dated, _extract_dt. destruct (entry_time e) as [t|]; [|reflexivity].
  intros Hno. exfalso. apply Hno. eexists. reflexivity.
Qed.

Lemma sorted_lookup_le l i j a b :
  StronglySorted key_le l ->
  l !! i = Some a -> l !! j = Some b -> (i < j)%nat -> key_le a b.
Proof.
  intros Hsorted. revert i j.
  induction Hsorted as [|x r Hr IH Hx]; intros i j Ha Hb Hij; [discriminate|].
  destruct i as [|i], j as [|j]; try lia; simpl in *.
  - injection Ha as ->. rewrite Forall_forall in Hx. apply Hx.
    eapply list_elem_of_lookup_2. exact Hb.
  - apply (IH i j); [assumption|assumption|lia].
Qed.

(** In a sorted list no dated entry follows an undated one. *)
Lemma sorted_undated_last l i j a b :
  StronglySorted key_le l ->
  l !! i = Some a -> l !! j = Some b -> (i < j)%nat ->
  ~ dated a -> ~ dated b.
Proof.
  intros Hsorted Ha Hb Hij Hna Hdb.
  pose proof (sorted_lookup_le l i j a b Hsorted Ha Hb Hij) as Hle.
  pose proof (dated_before_max b Hdb) as Hlt.
  unfold key_le, dt_le in Hle. rewrite (undated_key a Hna) in Hle.
  unfold dt_lt in Hlt. lia.
Qed.

(** ** The final pass, section by section *)

Lemma for_sections_lookup (f : Report -> string -> outcome Report)
  (g : list string -> list string) :
  (forall p s, f p s = match p !! s with
                       | Some l => Returns (<[s := g l]> p)
                       | None => Raises (KeyError s)
                       end) ->
  forall (L : list string) (p r : Report),
    NoDup L -> for_sections f L p = Returns r ->
    (forall s, s ∈ L -> exists l, p !! s = Some l /\ r !! s = Some (g l))
    /\ (forall s, s ∉ L -> r !! s = p !! s).
Proof.
  intros Hf L. induction L as [|s0 L IH]; intros p r Hnd Hrun.
  - simpl in Hrun. injection Hrun as <-. split; [|reflexivity].
    intros s Hs. inversion Hs.
  - apply NoDup_cons in Hnd as [Hs0 Hnd]. simpl in Hrun.
    rewrite Hf in Hrun. destruct (p !! s0) as [l0|] eqn:Hp0; [|discriminate].
    simpl in Hrun. destruct (IH _ _ Hnd Hrun) as [Hin Hout]. split.
    + intros s Hs. apply elem_of_cons in Hs as [->|Hs].
      * exists l0. split; [exact Hp0|].
        rewrite (Hout s0 Hs0). apply lookup_insert_eq.
      * destruct (Hin s Hs) as (l & Hl & Hr). exists l. split; [|exact Hr].
        rewrite lookup_insert_ne in Hl; [exact Hl|]. intros ->. contradiction.
    + intros s Hs. apply not_elem_of_cons in Hs as [Hne Hs].
      rewrite (Hout s Hs). apply lookup_insert_ne. congruence.
Qed.

Lemma fill_placeholder_spec p s :
  fill_placeholder p s = match p !! s with
                         | Some l => Returns (<[s := or_placeholder l]> p)
                         | None => Raises (KeyError s)
                         end.
Proof.
  unfold fill_placeholder. destruct (p !! s) as [[|x r]|] eqn:Hp; try reflexivity.
  simpl. rewrite insert_id by exact Hp. reflexivity.
Qed.

Lemma sort_section_spec p s :
  sort_section p s = match p !! s with
                     | Some l => Returns (<[s := sorted_unless_placeholder l]> p)
                     | None => Raises (KeyError s)
                     end.
Proof.
  unfold sort_section. destruct (p !! s) as [[|x r]|] eqn:Hp; try reflexivity.
  - simpl. rewrite insert_id by exact Hp. reflexivity.
  - simpl. destruct (seqb x PLACEHOLDER); [|reflexivity].
    rewrite insert_id by exact Hp. reflexivity.
Qed.

Lemma sections_nodup : NoDup SECTIONS.
Proof. apply (bool_decide_unpack _). vm_compute. reflexivity. Qed.

(** The final pass gives every section the entries of [final_entries]. *)
Lemma finalize_section (p r : Report) (count : nat) (s : string) :
  finalize p count = Returns r -> s ∈ SECTIONS ->
  exists l, p !! s = Some l /\ r !! s = Some (final_entries count s l).
Proof.
  unfold finalize. intros Hrun Hs.
  destruct (for_sections fill_placeholder SECTIONS p) as [p1| |] eqn:Hfill;
    try discriminate. simpl in Hrun.
  destruct (for_sections_lookup _ _ fill_placeholder_spec _ _ _ sections_nodup Hfill)
    as [Hin1 _].
  destruct (for_sections_lookup _ _ sort_section_spec _ _ _ sections_nodup Hrun)
    as [Hin2 _].
  destruct (Hin1 s Hs) as (l & Hl & Hl1). destruct (Hin2 s Hs) as (l2 & Hl2 & Hr).
  exists l. split; [exact Hl|]. rewrite Hr. f_equal. unfold final_entries.
  unfold collapse_transient in Hl2. destruct (decide (s = SEC_TRANSIENT)) as [->|Hne].
  - rewrite lookup_insert_eq in Hl2. injection Hl2 as <-. reflexivity.
  - rewrite lookup_insert_ne in Hl2 by congruence. rewrite Hl1 in Hl2.
    injection Hl2 as <-. reflexivity.
Qed.

(** The Transient Removal section of a finished report is one line: the
    summary with the counter, or the placeholder when the counter is
    zero. *)
Lemma finalize_transient (p r : Report) (count : nat) :
  finalize p count = Returns r ->
  r !! SEC_TRANSIENT = Some [transient_line count].
Proof.
  intros Hrun.
  destruct (finalize_section p r count SEC_TRANSIENT Hrun) as (l & _ & Hr).
  { apply (bool_decide_unpack _). vm_compute. reflexivity. }
  rewrite Hr. f_equal. unfold final_entries.
  rewrite decide_True by reflexivity. unfold transient_line, sorted_unless_placeholder.
  destruct (0 <? count)%nat; reflexivity.
Qed.

(** ** What [flush_event] records *)

Lemma seqb_eq a b : seqb a b = true -> a = b.
Proof. apply String.eqb_eq. Qed.

Lemma seqb_neq a b : seqb a b = false -> a <> b.
Proof. apply String.eqb_neq. Qed.

Lemma append_entry_other sec evt (p p' : Report) s :
  append_entry sec evt p = Returns p' -> s <> sec -> p' !! s = p !! s.
Proof.
  unfold append_entry. destruct (p !! sec); [|discriminate].
  intros [= <-] Hne. apply lookup_insert_ne. congruence.
Qed.

Lemma append_if_any_other sec evt (p p' : Report) s :
  append_if_any sec evt p = Returns p' -> s <> sec -> p' !! s = p !! s.
Proof.
  unfold append_if_any. destruct (truthy evt).
  - apply append_entry_other.
  - intros [= <-] _. reflexivity.
Qed.

Lemma append_option_other sec evt (p p' : Report) s :
  append_option sec evt p = Returns p' -> s <> sec -> p' !! s = p !! s.
Proof.
  unfold append_option. destruct evt.
  - apply append_entry_other.
  - intros [= <-] _. reflexivity.
Qed.

Lemma append_unique_nodup evt entries :
  NoDup entries -> NoDup (append_unique evt entries).
Proof.
  intros Hnd. unfold append_unique.
  destruct (existsb (seqb evt) entries) eqn:Hex; [exact Hnd|].
  apply NoDup_app. split; [exact Hnd|]. split; [|apply NoDup_singleton].
  intros x Hx Hx'. apply list_elem_of_singleton in Hx'. subst x.
  assert (Htrue : existsb (seqb evt) entries = true).
  { apply existsb_exists. exists evt. split.
    - apply list_elem_of_In, Hx.
    - apply String.eqb_refl. }
  congruence.
Qed.

Lemma misc_scan_nodup `{Templates} fuel lines i entries r :
  NoDup entries -> misc_scan fuel lines i entries = Returns r -> NoDup r.
Proof.
  revert i entries. induction fuel as [|fuel IH]; intros i entries Hnd; [discriminate|].
  simpl. destruct (lines !! i) as [ln|]; [|intros [= <-]; exact Hnd].
  destruct (misc_trigger ln entries); [|apply IH, Hnd].
  destruct (occurs rx_footer ln); [apply IH, Hnd|].
  destruct (misc_block_at lines i) as [[|k]| |evt k]; try discriminate.
  - apply IH, Hnd.
  - apply IH, Hnd.
  - apply IH, append_unique_nodup, Hnd.
Qed.

Section EmitFacts.
Context `{Templates}.
Variable set_order : list string -> list string.
Variable lines : list string.

(** What one event does to the counter, to the history and to the
    Additional Information section. *)
Lemma emit_effect sec b st st1 :
  emit lines sec b st = Returns st1 ->
  history st1 = history st
  /\ transient_count st1 =
       bump (recorded (Event sec (transient_tag_seen st) (build_event_line b)))
            (transient_count st)
  /\ (misc_distinct (parsed st) -> misc_distinct (parsed st1)).
Proof.
  unfold emit, recorded, normal_path, templated. cbn [existsb ev_section ev_line ev_tagged].
  repeat match goal with
         | |- context [if seqb sec ?s then _ else _] =>
             destruct (seqb sec s) eqn:?
         end;
    cbn [negb orb andb bump];
    unfold mbind, outcome_bind, mret, outcome_ret;
    intros Hrun;
    repeat match type of Hrun with
           | match ?m with _ => _ end = _ => destruct m eqn:?; try discriminate Hrun
           | (if ?c then _ else _) = _ => destruct c eqn:?; try discriminate Hrun
           end;
    injection Hrun as <-;
    (split; [reflexivity|]); (split; [try reflexivity|]);
    try (intros Hd l; cbn [parsed with_parsed with_transient_count]; intros Hl;
         apply Hd; rewrite <- Hl; symmetry;
         first [ eapply append_option_other; [eassumption|]
               | eapply append_if_any_other; [eassumption|]
               | eapply append_entry_other; [eassumption|] ];
         repeat match goal with
                | Hs : seqb sec _ = true |- _ => apply seqb_eq in Hs; subst sec
                | Hs : seqb sec SEC_ADDITIONAL = false |- _ =>
                    apply seqb_neq in Hs
                end; first [congruence | discriminate]).
  - (* the Additional Information scan *)
    intros Hd l. cbn [parsed with_parsed]. rewrite lookup_insert_eq. intros [= <-].
    eapply misc_scan_nodup; [|eassumption].
    destruct (parsed st !! SEC_ADDITIONAL) as [l0|] eqn:Hl0; simpl.
    + apply Hd, Hl0.
    + constructor.
  - (* the normal path without an entry *)
    intros Hd. exact Hd.
Qed.

Lemma flush_event_effect st st' :
  flush_event set_order lines st = Returns st' ->
  (transient_count st = count_recorded (history st) ->
   transient_count st' = count_recorded (history st'))
  /\ (misc_distinct (parsed st) -> misc_distinct (parsed st')).
Proof.
  unfold flush_event. destruct (is_empty_event (buffer st)).
  - intros [= <-]. split; intros Hinv; exact Hinv.
  - cbv zeta. unfold mbind, outcome_bind, mret, outcome_ret.
    destruct (emit _ _ _ _) as [st1| |] eqn:Hemit; try discriminate.
    intros [= <-]. destruct (emit_effect _ _ _ _ Hemit) as (Hh & Hc & Hd).
    split; [|exact Hd].
    intros Hinv. cbn [transient_count history reset_event with_last_field
                      with_tag_seen with_labels with_buffer with_history].
    rewrite Hc, Hinv. unfold count_recorded.
    rewrite filter_app, length_app, filter_cons, filter_nil.
    unfold bump. case_decide as Hrec.
    + rewrite Hrec. simpl. lia.
    + apply not_true_is_false in Hrec. rewrite Hrec. simpl. lia.
Qed.

End EmitFacts.

(** ** Invariants of the scan *)

Lemma initial_good : good initial_state.
Proof.
  split; [reflexivity|]. intros l Hl. vm_compute in Hl. injection Hl as <-. constructor.
Qed.

Create HintDb stages.

#[local] Hint Unfold
  skip_numbers start_date_in capture_who_called capture_persons open_at_stamp
  key_service_stamp loading_dock_stamp fire_panel_stamp look_above
  officer_after_new_activity spd_start set_spd spd_block ambassador_start
  set_ambassador ambassador_block unsecure_door tour_start tour_body capture_label
  set_officer officer_header officer_nested officer_field officer_line
  normalize_officer new_activity_in_report set_date start_date_line forget_field
  skip_breaks skip_totals skip_close skip_escalation take_field take_plain field_if
  action_field description_field operator_name_field operator_number_field
  comments_field report_stamp set_start_date start_date_anywhere start_date_strict
  incident_value incident_location_field long_description_field
  description_continues parties_block vehicle_fields comments_header
  multiline_field skip_headers company_field location_field skip_geolocation
  continuation flush_and_clear done next : stages.

Section ScanFacts.
Context `{Templates}.
Variable set_order : list string -> list string.
Variable lines : list string.

Lemma flush_good st st' :
  flush set_order lines st = Returns st' -> good st -> good st'.
Proof.
  intros Hrun [Hc Hd].
  destruct (flush_event_effect _ _ _ _ Hrun) as [Hc' Hd'].
  split; [apply Hc', Hc|apply Hd', Hd].
Qed.

Lemma appended_good sec evt st p :
  sec <> SEC_ADDITIONAL ->
  (append_option sec evt (parsed st) = Returns p -> good st -> good (with_parsed p st))
  /\ (forall e, append_if_any sec e (parsed st) = Returns p ->
                good st -> good (with_parsed p st)).
Proof.
  intros Hsec. split; [intros Happ [Hc Hd]|intros e Happ [Hc Hd]];
    (split; [exact Hc|]); intros l Hl; apply Hd; rewrite <- Hl; symmetry;
    cbn [parsed with_parsed].
  - eapply append_option_other; [exact Happ|congruence].
  - eapply append_if_any_other; [exact Happ|congruence].
Qed.

Lemma chain_keeps (l : list stage) : Forall keeps l -> keeps (chain l).
Proof.
  induction 1 as [|s l Hs Hl IH]; intros st f Hrun Hgood.
  - injection Hrun as <-. exact Hgood.
  - simpl in Hrun. unfold and_then, mbind, outcome_bind in Hrun.
    destruct (s st) as [[st1|st1]| |] eqn:Hs1; try discriminate.
    + apply (IH st1 f Hrun). exact (Hs st _ Hs1 Hgood).
    + injection Hrun as <-. exact (Hs st _ Hs1 Hgood).
Qed.

Ltac known_good :=
  match goal with
  | Hg : good ?a |- good _ => exact Hg
  end.

Ltac learn_good :=
  repeat match goal with
         | Hf : flush _ _ ?a = Returns ?b |- _ =>
             lazymatch goal with
             | _ : good b |- _ => fail
             | _ => assert (good b) by (apply (flush_good a b Hf); known_good)
             end
         | Ha : append_option ?sec ?e (parsed ?a) = Returns ?p |- _ =>
             lazymatch goal with
             | _ : good (with_parsed p a) |- _ => fail
             | _ => assert (good (with_parsed p a))
                      by (apply (proj1 (appended_good sec e a p ltac:(discriminate)));
                          [exact Ha|known_good])
             end
         | Ha : append_if_any ?sec ?e (parsed ?a) = Returns ?p |- _ =>
             lazymatch goal with
             | _ : good (with_parsed p a) |- _ => fail
             | _ => assert (good (with_parsed p a))
                      by (apply (proj2 (appended_good sec None a p ltac:(discriminate)) e);
                          [exact Ha|known_good])
             end
         end.

Ltac stage_keeps :=
  intros st f Hrun Hgood;
  autounfold with stages in Hrun;
  unfold mbind, outcome_bind, mret, outcome_ret in Hrun;
  repeat case_match; simplify_eq;
  cbn [flow_state]; learn_good; known_good.

Lemma line_chain_keeps i ln : keeps (line_chain set_order lines i ln).
Proof.
  apply chain_keeps. repeat (apply Forall_cons; split; [stage_keeps|]).
  apply Forall_nil_2.
Qed.

Lemma scan_from_good i rest st st' :
  scan_from set_order lines i rest st = Returns st' -> good st -> good st'.
Proof.
  revert i st. induction rest as [|ln rest IH]; intros i st Hrun Hgood.
  - injection Hrun as <-. exact Hgood.
  - simpl in Hrun. unfold mbind, outcome_bind in Hrun.
    destruct (process_line _ _ i ln st) as [st1| |] eqn:Hline; try discriminate.
    apply (IH _ _ Hrun). unfold process_line in Hline.
    destruct (truthy ln); [|injection Hline as <-; exact Hgood].
    unfold mbind, outcome_bind, mret, outcome_ret in Hline.
    destruct (line_chain _ _ i ln st) as [f| |] eqn:Hchain; try discriminate.
    injection Hline as <-. exact (line_chain_keeps i ln st f Hchain Hgood).
Qed.

(** The state that a scan returns satisfies the invariant. *)
Lemma scan_good st : scan set_order lines = Returns st -> good st.
Proof.
  unfold scan, mbind, outcome_bind, mret, outcome_ret.
  destruct (scan_from _ _ 0 lines initial_state) as [st1| |] eqn:Hscan;
    try discriminate.
  pose proof (scan_from_good _ _ _ _ Hscan initial_good) as Hgood.
  destruct (filled (buffer st1) "date").
  - intros Hflush. exact (flush_good _ _ Hflush Hgood).
  - intros [= <-]. exact Hgood.
Qed.

End ScanFacts.

(** ** The finished report *)

Lemma parse_events_split `{Templates} set_order lines r :
  parse_events set_order lines = Returns r ->
  exists st, scan set_order lines = Returns st
             /\ finalize (parsed st) (transient_count st) = Returns r.
Proof.
  unfold parse_events, mbind, outcome_bind.
  destruct (scan set_order lines) as [st| |]; try discriminate.
  intros Hfin. exists st. split; [reflexivity|exact Hfin].
Qed.

(** C3, amended. The Transient Removal section of the finished report is
    one entry: the summary with the number N of events recorded as
    transient removals, written with at least two digits, when N > 0, and
    the placeholder when N = 0.  An event is recorded when it takes the
    normal path of [flush_event] with an entry that is not empty and
    either is classified as Transient Removal or follows a "Transient
    Removal" label. *)
Theorem transient_section_counts_recorded `{Templates} set_order lines st r :
  scan set_order lines = Returns st ->
  parse_events set_order lines = Returns r ->
  let n := count_recorded (history st) in
  transient_count st = n
  /\ r !! SEC_TRANSIENT =
       Some [ if (0 <? n)%nat
              then "<font color=" ++ DQUOTE ++ "red" ++ DQUOTE
                   ++ ">Within the last 24 hours (<b>" ++ pad2 n
                   ++ "</b>), transients were removed from the property.</font>"
              else PLACEHOLDER ].
Proof.
  intros Hscan Hparse n.
  destruct (parse_events_split _ _ _ Hparse) as (st' & Hscan' & Hfin).
  rewrite Hscan in Hscan'. injection Hscan' as <-.
  destruct (scan_good _ _ _ Hscan) as [Hcount _].
  split; [exact Hcount|].
  rewrite (finalize_transient _ _ _ Hfin), Hcount. reflexivity.
Qed.

(** X22. In the finished report every section whose first entry, as the
    scan emitted it, is not the literal placeholder is sorted by the
    timestamps at the head of its entries; an entry without a readable
    timestamp has the key [datetime.max], so that no dated entry follows
    it; and the entries of one key keep the order in which they were
    emitted. *)
Theorem sections_sorted_by_time `{Templates} set_order lines st r
  (s : string) (scanned : list string) :
  scan set_order lines = Returns st ->
  parse_events set_order lines = Returns r ->
  s ∈ SECTIONS ->
  parsed st !! s = Some scanned ->
  scanned !! 0%nat <> Some PLACEHOLDER ->
  exists l,
    r !! s = Some l
    /\ StronglySorted key_le l
    /\ (forall e, ~ dated e -> _extract_dt e = dt_max)
    /\ (forall i j a b, l !! i = Some a -> l !! j = Some b -> (i < j)%nat ->
                        ~ dated a -> ~ dated b)
    /\ (forall z, filter (fun e => dt_ord (_extract_dt e) = z) l
                  = filter (fun e => dt_ord (_extract_dt e) = z)
                           (unsorted_entries (transient_count st) s scanned)).
Proof.
  intros Hscan Hparse Hs Hscanned Hhead.
  destruct (parse_events_split _ _ _ Hparse) as (st' & Hscan' & Hfin).
  rewrite Hscan in Hscan'. injection Hscan' as <-.
  destruct (finalize_section _ _ _ s Hfin Hs) as (l0 & Hl0 & Hr).
  rewrite Hscanned in Hl0. injection Hl0 as <-.
  unfold final_entries in Hr. fold (unsorted_entries (transient_count st) s scanned) in Hr.
  set (u := unsorted_entries (transient_count st) s scanned) in *.
  assert (Hcases : sorted_unless_placeholder u = sort_entries u).
  { unfold u, unsorted_entries. destruct (decide (s = SEC_TRANSIENT)).
    - unfold sorted_unless_placeholder, transient_line.
      destruct (seqb _ PLACEHOLDER); reflexivity.
    - destruct scanned as [|x rest]; [reflexivity|]. simpl.
      destruct (seqb x PLACEHOLDER) eqn:Hx; [|reflexivity].
      apply seqb_eq in Hx. subst x. contradiction Hhead. reflexivity. }
  rewrite Hcases in Hr. exists (sort_entries u).
  split; [exact Hr|]. split; [apply sort_entries_sorted|].
  split; [exact undated_key|]. split.
  - intros i j a b. apply sorted_undated_last, sort_entries_sorted.
  - intros z. apply sort_entries_stable.
Qed.


(** ** Documents and what the parser makes of them *)

Lemma returns_returned {A} (o : outcome A) (dflt : A) :
  is_returns o = true -> o = Returns (returned o dflt).
Proof. destruct o; [reflexivity|discriminate|discriminate]. Qed.

Ltac by_running := first [apply returns_returned|idtac]; vm_compute; reflexivity.

(** C1. A document whose only event matches no rule of the classifier:
    the event is classified as "Unclassified", its entry is not empty, and
    appending it to the report raises [KeyError], which leaves
    [parse_events]. *)
Theorem unclassified_event_raises (T : Templates) :
  @parse_events T id unclassified_doc = Raises (KeyError UNCLASSIFIED).
Proof. vm_compute. reflexivity. Qed.

(** C3, as stated, fails: the one event of the first document is
    classified as Retail Issues and yet the summary counts one removal,
    because the event follows a "Transient Removal" label; the one event
    of the second document is classified as Transient Removal and yet the
    section holds the placeholder, because the event has no entry. *)
Lemma transient_count_is_not_classification :
  (exists st r,
      @scan quiet id tagged_retail_doc = Returns st
      /\ @parse_events quiet id tagged_retail_doc = Returns r
      /\ map ev_section (history st) = [SEC_RETAIL]
      /\ count_classified SEC_TRANSIENT (history st) = 0%nat
      /\ r !! SEC_TRANSIENT = Some [transient_summary 1])
  /\ (exists st r,
         @scan quiet id bare_transient_doc = Returns st
         /\ @parse_events quiet id bare_transient_doc = Returns r
         /\ count_classified SEC_TRANSIENT (history st) = 1%nat
         /\ r !! SEC_TRANSIENT = Some [PLACEHOLDER]).
Proof.
  split.
  - exists (state_of tagged_retail_doc), (report_of tagged_retail_doc).
    split; [by_running|]. split; [by_running|].
    split; [by_running|]. split; by_running.
  - exists (state_of bare_transient_doc), (report_of bare_transient_doc).
    split; [by_running|]. split; [by_running|]. split; by_running.
Qed.

Lemma transient_section_counts_recorded_witness :
  @scan quiet id tagged_retail_doc = Returns (state_of tagged_retail_doc)
  /\ @parse_events quiet id tagged_retail_doc = Returns (report_of tagged_retail_doc)
  /\ count_recorded (history (state_of tagged_retail_doc)) = 1%nat
  /\ report_of tagged_retail_doc !! SEC_TRANSIENT = Some [transient_summary 1].
Proof.
  assert (Hscan : @scan quiet id tagged_retail_doc = Returns (state_of tagged_retail_doc))
    by by_running.
  assert (Hparse : @parse_events quiet id tagged_retail_doc
                   = Returns (report_of tagged_retail_doc)) by by_running.
  split; [exact Hscan|]. split; [exact Hparse|].
  destruct (@transient_section_counts_recorded quiet id tagged_retail_doc _ _
              Hscan Hparse) as [_ Hr].
  split; [by_running|].
  rewrite Hr. vm_compute. reflexivity.
Defined.

(** C4. A section is sorted only when its first entry is not the text of
    the placeholder, a test meant for the sections that hold the
    placeholder alone.  The first event of this document has that text
    for its date and nothing else, so that its entry is the text itself:
    the Retail Issues section is taken for an empty one and is not
    sorted.  The finished report holds its three entries as the scan
    emitted them, the undated entry first and the two dated ones with the
    later before the earlier. *)
Theorem placeholder_first_is_not_sorted (T : Templates) :
  entries_of (@parse_events T id placeholder_first_doc) SEC_RETAIL
  = Some [ PLACEHOLDER; "09/02/25 8:00 AM"; "09/01/25 8:00 AM" ]
  /\ dt_lt (_extract_dt "09/01/25 8:00 AM") (_extract_dt "09/02/25 8:00 AM")
  /\ ~ dated PLACEHOLDER
  /\ dated "09/02/25 8:00 AM".
Proof.
  split; [vm_compute; reflexivity|].
  split; [vm_compute; reflexivity|]. split.
  - intros [t Ht]. vm_compute in Ht. discriminate Ht.
  - eexists. vm_compute. reflexivity.
Qed.

Lemma sections_sorted_by_time_witness :
  @scan quiet id out_of_order_doc = Returns (state_of out_of_order_doc)
  /\ @parse_events quiet id out_of_order_doc = Returns (report_of out_of_order_doc)
  /\ SEC_RETAIL ∈ SECTIONS
  /\ parsed (state_of out_of_order_doc) !! SEC_RETAIL
     = Some [ "09/02/25 8:00 AM"; "09/01/25 8:00 AM" ]
  /\ [ "09/02/25 8:00 AM"; "09/01/25 8:00 AM" ] !! 0%nat <> Some PLACEHOLDER
  /\ report_of out_of_order_doc !! SEC_RETAIL
     = Some [ "09/01/25 8:00 AM"; "09/02/25 8:00 AM" ]
  /\ exists l, report_of out_of_order_doc !! SEC_RETAIL = Some l
               /\ StronglySorted key_le l.
Proof.
  assert (Hscan : @scan quiet id out_of_order_doc = Returns (state_of out_of_order_doc))
    by by_running.
  assert (Hparse : @parse_events quiet id out_of_order_doc
                   = Returns (report_of out_of_order_doc)) by by_running.
  assert (Hsec : SEC_RETAIL ∈ SECTIONS)
    by (apply (bool_decide_unpack _); vm_compute; reflexivity).
  assert (Hscanned : parsed (state_of out_of_order_doc) !! SEC_RETAIL
                     = Some [ "09/02/25 8:00 AM"; "09/01/25 8:00 AM" ]) by by_running.
  assert (Hhead : [ "09/02/25 8:00 AM"; "09/01/25 8:00 AM" ] !! 0%nat
                  <> Some PLACEHOLDER) by discriminate.
  split; [exact Hscan|]. split; [exact Hparse|]. split; [exact Hsec|].
  split; [exact Hscanned|]. split; [exact Hhead|].
  split; [by_running|].
  destruct (@sections_sorted_by_time quiet id out_of_order_doc _ _ SEC_RETAIL _
              Hscan Hparse Hsec Hscanned Hhead) as (l & Hl & Hsorted & _).
  exists l. split; [exact Hl|exact Hsorted].
Defined.

(** C5. Two orders in which Python may iterate over the same set of two
    labels give two different reports: in one the words "phone" and
    "call" of two labels meet in the text that the classifier searches
    and the event is an AES phone call with an entry; in the other they
    do not, the event is unclassified and has no entry. *)
Theorem report_depends_on_set_order (T : Templates) :
  entries_of (@parse_events T id straddling_labels_doc) SEC_AES
    = Some [AES_SUPERVISORY_ENTRY]
  /\ entries_of (@parse_events T (@rev string) straddling_labels_doc) SEC_AES
       = Some [PLACEHOLDER]
  /\ @parse_events T id straddling_labels_doc
       <> @parse_events T (@rev string) straddling_labels_doc.
Proof.
  assert (H1 : entries_of (@parse_events T id straddling_labels_doc) SEC_AES
               = Some [AES_SUPERVISORY_ENTRY]) by (vm_compute; reflexivity).
  assert (H2 : entries_of (@parse_events T (@rev string) straddling_labels_doc) SEC_AES
               = Some [PLACEHOLDER]) by (vm_compute; reflexivity).
  split; [exact H1|]. split; [exact H2|].
  intros Heq. rewrite Heq, H2 in H1. discriminate H1.
Qed.

(** C6, as stated, fails: the Loading Dock section of the scenario holds
    the placeholder only. *)
Lemma dock_scenario_has_no_dock_entry :
  entries_of (@parse_events quiet id dock_scenario) SEC_DOCK = Some [PLACEHOLDER].
Proof. vm_compute. reflexivity. Qed.

(** C6, amended. Given exactly the lines of the scenario, the scan
    classifies two events.  The first is the label alone, closed by the
    "Start Date" line: it is classified as Loading Dock Access and has no
    entry.  The second holds the date, the action and the company: it is
    classified as Janitorial, and its entry, dated 8:00 AM and without
    officer, is the only entry of the report.  The officer line and the
    trailing timestamp are not read, and every other section, Loading
    Dock Access included, holds the placeholder. *)
Theorem dock_scenario_report (T : Templates) :
  exists st r,
    @scan T id dock_scenario = Returns st
    /\ @parse_events T id dock_scenario = Returns r
    /\ map ev_section (history st) = [SEC_DOCK; SEC_JANITORIAL]
    /\ r !! SEC_DOCK = Some [PLACEHOLDER]
    /\ r !! SEC_JANITORIAL = Some [JANITORIAL_ABM_ENTRY]
    /\ forall s, s ∈ SECTIONS -> s <> SEC_JANITORIAL -> r !! s = Some [PLACEHOLDER].
Proof.
  exists (returned (@scan T id dock_scenario) initial_state),
         (returned (@parse_events T id dock_scenario) ∅).
  split; [by_running|]. split; [by_running|].
  split; [by_running|]. split; [by_running|].
  split; [by_running|].
  intros s Hs Hne. unfold SECTIONS in Hs.
  repeat (apply elem_of_cons in Hs as [->|Hs]); try (vm_compute; reflexivity).
  - contradiction Hne. reflexivity.
  - inversion Hs.
Qed.



(** * Further properties *)
(** ** The keys of the report *)

Lemma append_entry_keyed sec evt (p p' : Report) :
  append_entry sec evt p = Returns p' -> keyed p -> keyed p'.
Proof.
  unfold append_entry. destruct (p !! sec) as [l|] eqn:Hsec; [|discriminate].
  intros [= <-] Hk s. rewrite <- (Hk s). destruct (decide (s = sec)) as [->|Hne].
  - rewrite lookup_insert_eq, Hsec. split; intros _; eexists; reflexivity.
  - rewrite lookup_insert_ne by congruence. reflexivity.
Qed.

Lemma insert_section_keyed s0 entries (p : Report) :
  s0 ∈ SECTIONS -> keyed p -> keyed (<[s0 := entries]> p).
Proof.
  intros Hs0 Hk s. destruct (decide (s = s0)) as [->|Hne].
  - rewrite lookup_insert_eq. split; [intros _; exact Hs0|intros _; eexists; reflexivity].
  - rewrite lookup_insert_ne by congruence. apply Hk.
Qed.

Lemma section_elem (s : string) :
  bool_decide (s ∈ SECTIONS) = true -> s ∈ SECTIONS.
Proof. intros Hs. apply (bool_decide_unpack _). rewrite Hs. exact I. Qed.

Lemma empty_report_keyed : keyed empty_report.
Proof.
  intros s. unfold empty_report. split.
  - intros [l Hl]. apply elem_of_list_to_map_2 in Hl.
    apply list_elem_of_fmap in Hl as (s' & [= -> _] & Hs'). exact Hs'.
  - intros Hs. exists []. apply elem_of_list_to_map_1.
    + rewrite <- list_fmap_compose. simpl.
      replace (fmap (fst ∘ (fun s0 : string => (s0, @nil string))) SECTIONS)
        with SECTIONS by (symmetry; apply list_fmap_id).
      exact sections_nodup.
    + apply list_elem_of_fmap. exists s. split; [reflexivity|exact Hs].
Qed.

Section KeysOfTheReport.
Context `{Templates}.
Variable set_order : list string -> list string.
Variable lines : list string.

Lemma append_if_any_keyed sec evt (p p' : Report) :
  append_if_any sec evt p = Returns p' -> keyed p -> keyed p'.
Proof.
  unfold append_if_any. destruct (truthy evt); [apply append_entry_keyed|].
  intros [= <-] Hk. exact Hk.
Qed.

Lemma append_option_keyed sec evt (p p' : Report) :
  append_option sec evt p = Returns p' -> keyed p -> keyed p'.
Proof.
  unfold append_option. destruct evt; [apply append_entry_keyed|].
  intros [= <-] Hk. exact Hk.
Qed.

Lemma emit_keyed sec b st st1 :
  emit lines sec b st = Returns st1 -> keyed (parsed st) -> keyed (parsed st1).
Proof.
  unfold emit.
  repeat match goal with
         | |- context [if seqb sec ?s then _ else _] => destruct (seqb sec s)
         end;
    unfold mbind, outcome_bind, mret, outcome_ret;
    intros Hrun Hk;
    repeat match type of Hrun with
           | match ?m with _ => _ end = _ => destruct m eqn:?; try discriminate Hrun
           | (if ?c then _ else _) = _ => destruct c eqn:?; try discriminate Hrun
           end;
    injection Hrun as <-; cbn [parsed with_parsed with_transient_count];
    first [ exact Hk
          | eapply append_option_keyed; eassumption
          | eapply append_if_any_keyed; eassumption
          | eapply append_entry_keyed; eassumption
          | apply insert_section_keyed;
            [apply section_elem; vm_compute; reflexivity|exact Hk] ].
Qed.

Lemma flush_keyed st st' :
  flush set_order lines st = Returns st' -> keyed (parsed st) -> keyed (parsed st').
Proof.
  unfold flush, flush_event. destruct (is_empty_event (buffer st)).
  - intros [= <-] Hk. exact Hk.
  - cbv zeta. unfold mbind, outcome_bind, mret, outcome_ret.
    destruct (emit _ _ _ _) as [st1| |] eqn:Hemit; try discriminate.
    intros [= <-] Hk. exact (emit_keyed _ _ _ _ Hemit Hk).
Qed.

Lemma chain_keeps_keys (l : list stage) : Forall keeps_keys l -> keeps_keys (chain l).
Proof.
  induction 1 as [|s l Hs Hl IH]; intros st f Hrun Hk.
  - injection Hrun as <-. exact Hk.
  - simpl in Hrun. unfold and_then, mbind, outcome_bind in Hrun.
    destruct (s st) as [[st1|st1]| |] eqn:Hs1; try discriminate.
    + apply (IH st1 f Hrun). exact (Hs st _ Hs1 Hk).
    + injection Hrun as <-. exact (Hs st _ Hs1 Hk).
Qed.

Ltac known_keyed :=
  match goal with
  | Hg : keyed (parsed ?a) |- keyed _ => exact Hg
  | Hg : keyed ?p |- keyed _ => exact Hg
  end.

Ltac learn_keyed :=
  repeat match goal with
         | Hf : flush _ _ ?a = Returns ?b |- _ =>
             lazymatch goal with
             | _ : keyed (parsed b) |- _ => fail
             | _ => assert (keyed (parsed b)) by (apply (flush_keyed a b Hf); known_keyed)
             end
         | Ha : append_option ?sec ?e (parsed ?a) = Returns ?p |- _ =>
             lazymatch goal with
             | _ : keyed p |- _ => fail
             | _ => assert (keyed p)
                      by (apply (append_option_keyed sec e _ p Ha); known_keyed)
             end
         | Ha : append_if_any ?sec ?e (parsed ?a) = Returns ?p |- _ =>
             lazymatch goal with
             | _ : keyed p |- _ => fail
             | _ => assert (keyed p)
                      by (apply (append_if_any_keyed sec e _ p Ha); known_keyed)
             end
         end.

Ltac stage_keeps_keys :=
  intros st f Hrun Hk;
  autounfold with stages in Hrun;
  unfold mbind, outcome_bind, mret, outcome_ret in Hrun;
  repeat case_match; simplify_eq;
  cbn [flow_state]; learn_keyed; known_keyed.

Lemma line_chain_keeps_keys i ln : keeps_keys (line_chain set_order lines i ln).
Proof.
  apply chain_keeps_keys. repeat (apply Forall_cons; split; [stage_keeps_keys|]).
  apply Forall_nil_2.
Qed.

Lemma scan_from_keyed i rest st st' :
  scan_from set_order lines i rest st = Returns st' ->
  keyed (parsed st) -> keyed (parsed st').
Proof.
  revert i st. induction rest as [|ln rest IH]; intros i st Hrun Hk.
  - injection Hrun as <-. exact Hk.
  - simpl in Hrun. unfold mbind, outcome_bind in Hrun.
    destruct (process_line _ _ i ln st) as [st1| |] eqn:Hline; try discriminate.
    apply (IH _ _ Hrun). unfold process_line in Hline.
    destruct (truthy ln); [|injection Hline as <-; exact Hk].
    unfold mbind, outcome_bind, mret, outcome_ret in Hline.
    destruct (line_chain _ _ i ln st) as [f| |] eqn:Hchain; try discriminate.
    injection Hline as <-. exact (line_chain_keeps_keys i ln st f Hchain Hk).
Qed.

(** The report of a state that a scan returns has the sections for keys. *)
Lemma scan_keyed st : scan set_order lines = Returns st -> keyed (parsed st).
Proof.
  unfold scan, mbind, outcome_bind, mret, outcome_ret.
  destruct (scan_from _ _ 0 lines initial_state) as [st1| |] eqn:Hscan;
    try discriminate.
  pose proof (scan_from_keyed _ _ _ _ Hscan empty_report_keyed) as Hk.
  destruct (filled (buffer st1) "date").
  - intros Hflush. exact (flush_keyed _ _ Hflush Hk).
  - intros [= <-]. exact Hk.
Qed.

End KeysOfTheReport.

(** ** The shape of the finished report *)

Lemma for_sections_returns (f : Report -> string -> outcome Report)
  (g : list string -> list string) :
  (forall p s, f p s = match p !! s with
                       | Some l => Returns (<[s := g l]> p)
                       | None => Raises (KeyError s)
                       end) ->
  forall (L : list string) (p : Report),
    (forall s, s ∈ L -> is_Some (p !! s)) ->
    exists r, for_sections f L p = Returns r.
Proof.
  intros Hf L. induction L as [|s0 L IH]; intros p Hkeys.
  - exists p. reflexivity.
  - simpl. rewrite Hf. destruct (Hkeys s0) as [l0 Hl0]; [apply list_elem_of_here|].
    rewrite Hl0. simpl. apply IH. intros s Hs.
    destruct (decide (s = s0)) as [->|Hne].
    + rewrite lookup_insert_eq. eexists. reflexivity.
    + rewrite lookup_insert_ne by congruence. apply Hkeys, list_elem_of_further, Hs.
Qed.

Lemma finalize_returns (p : Report) (count : nat) :
  keyed p -> exists r, finalize p count = Returns r.
Proof.
  intros Hk. unfold finalize.
  destruct (for_sections_returns _ _ fill_placeholder_spec SECTIONS p) as [p1 Hp1].
  { intros s Hs. apply Hk, Hs. }
  rewrite Hp1. unfold mbind, outcome_bind.
  destruct (for_sections_lookup _ _ fill_placeholder_spec _ _ _ sections_nodup Hp1)
    as [Hin _].
  apply (for_sections_returns _ _ sort_section_spec).
  intros s Hs. unfold collapse_transient.
  destruct (decide (s = SEC_TRANSIENT)) as [->|Hne].
  - rewrite lookup_insert_eq. eexists. reflexivity.
  - rewrite lookup_insert_ne by congruence.
    destruct (Hin s Hs) as (l & _ & Hl). rewrite Hl. eexists. reflexivity.
Qed.

Lemma finalize_other_keys (p r : Report) (count : nat) (s : string) :
  finalize p count = Returns r -> s ∉ SECTIONS -> r !! s = p !! s.
Proof.
  unfold finalize. intros Hrun Hs.
  destruct (for_sections fill_placeholder SECTIONS p) as [p1| |] eqn:Hfill;
    try discriminate. simpl in Hrun.
  destruct (for_sections_lookup _ _ fill_placeholder_spec _ _ _ sections_nodup Hfill)
    as [_ Hout1].
  destruct (for_sections_lookup _ _ sort_section_spec _ _ _ sections_nodup Hrun)
    as [_ Hout2].
  rewrite (Hout2 s Hs). unfold collapse_transient.
  rewrite lookup_insert_ne; [apply Hout1, Hs|].
  intros <-. apply Hs, section_elem. vm_compute. reflexivity.
Qed.

Lemma sorted_unless_placeholder_perm l : sorted_unless_placeholder l ≡ₚ l.
Proof.
  destruct l as [|x r]; [reflexivity|]. unfold sorted_unless_placeholder.
  destruct (seqb x PLACEHOLDER); [reflexivity|apply sort_entries_perm].
Qed.

Lemma final_entries_nonempty count s l : final_entries count s l <> [].
Proof.
  unfold final_entries. intros Hnil.
  pose proof (sorted_unless_placeholder_perm
                (if decide (s = SEC_TRANSIENT) then [transient_line count]
                 else or_placeholder l)) as Hperm.
  rewrite Hnil in Hperm. apply Permutation_nil_l in Hperm.
  destruct (decide (s = SEC_TRANSIENT)); [discriminate|].
  destruct l; discriminate.
Qed.

(** X1. When [parse_events] returns, the report has exactly the fourteen
    sections of [SECTIONS] for keys, and the list of every section has at
    least one entry. *)
Theorem report_has_every_section `{Templates} set_order lines r (s : string) :
  parse_events set_order lines = Returns r ->
  (s ∈ SECTIONS -> exists l, r !! s = Some l /\ l <> [])
  /\ (s ∉ SECTIONS -> r !! s = None).
Proof.
  intros Hparse. destruct (parse_events_split _ _ _ Hparse) as (st & Hscan & Hfin).
  split; intros Hs.
  - destruct (finalize_section _ _ _ s Hfin Hs) as (l & _ & Hr).
    eexists. split; [exact Hr|apply final_entries_nonempty].
  - rewrite (finalize_other_keys _ _ _ s Hfin Hs).
    pose proof (scan_keyed _ _ _ Hscan s) as Hk.
    destruct (parsed st !! s) eqn:Hl; [|reflexivity].
    exfalso. apply Hs, Hk. eexists. reflexivity.
Qed.

Lemma report_has_every_section_witness :
  @parse_events quiet id out_of_order_doc = Returns (report_of out_of_order_doc)
  /\ (SEC_RETAIL ∈ SECTIONS ->
      exists l, report_of out_of_order_doc !! SEC_RETAIL = Some l /\ l <> [])
  /\ (UNCLASSIFIED ∉ SECTIONS -> report_of out_of_order_doc !! UNCLASSIFIED = None).
Proof.
  assert (Hparse : @parse_events quiet id out_of_order_doc
                   = Returns (report_of out_of_order_doc)) by by_running.
  split; [exact Hparse|].
  split; [exact (proj1 (@report_has_every_section quiet id out_of_order_doc _
                          SEC_RETAIL Hparse))
         |exact (proj2 (@report_has_every_section quiet id out_of_order_doc _
                          UNCLASSIFIED Hparse))].
Defined.

(** X2. The final pass never raises: once the scan of the lines has
    returned, [parse_events] returns a report.  An exception that leaves
    [parse_events] comes from the scan. *)
Theorem final_pass_returns `{Templates} set_order lines st :
  scan set_order lines = Returns st ->
  exists r, parse_events set_order lines = Returns r.
Proof.
  intros Hscan. unfold parse_events. rewrite Hscan. unfold mbind, outcome_bind.
  apply finalize_returns, (scan_keyed _ _ _ Hscan).
Qed.

Lemma final_pass_returns_witness :
  @scan quiet id out_of_order_doc = Returns (state_of out_of_order_doc)
  /\ exists r, @parse_events quiet id out_of_order_doc = Returns r.
Proof.
  assert (Hscan : @scan quiet id out_of_order_doc = Returns (state_of out_of_order_doc))
    by by_running.
  split; [exact Hscan|].
  exact (@final_pass_returns quiet id out_of_order_doc _ Hscan).
Defined.

(** X3. The final pass loses no entry and invents none: in every section
    other than Transient Removal, the list of the finished report is a
    rearrangement of the entries that the scan emitted, or the placeholder
    alone when the scan emitted none. *)
Theorem final_pass_keeps_entries `{Templates} set_order lines st r
  (s : string) (scanned : list string) :
  scan set_order lines = Returns st ->
  parse_events set_order lines = Returns r ->
  s ∈ SECTIONS -> s <> SEC_TRANSIENT ->
  parsed st !! s = Some scanned ->
  exists l, r !! s = Some l
            /\ (scanned = [] -> l = [PLACEHOLDER])
            /\ (scanned <> [] -> l ≡ₚ scanned).
Proof.
  intros Hscan Hparse Hs Hne Hscanned.
  destruct (parse_events_split _ _ _ Hparse) as (st' & Hscan' & Hfin).
  rewrite Hscan in Hscan'. injection Hscan' as <-.
  destruct (finalize_section _ _ _ s Hfin Hs) as (l0 & Hl0 & Hr).
  rewrite Hscanned in Hl0. injection Hl0 as <-.
  eexists. split; [exact Hr|]. unfold final_entries.
  rewrite decide_False by exact Hne. split.
  - intros ->. vm_compute. reflexivity.
  - intros Hnonempty. rewrite sorted_unless_placeholder_perm.
    destruct scanned; [contradiction|reflexivity].
Qed.

Lemma final_pass_keeps_entries_witness :
  @scan quiet id out_of_order_doc = Returns (state_of out_of_order_doc)
  /\ @parse_events quiet id out_of_order_doc = Returns (report_of out_of_order_doc)
  /\ SEC_RETAIL ∈ SECTIONS /\ SEC_RETAIL <> SEC_TRANSIENT
  /\ parsed (state_of out_of_order_doc) !! SEC_RETAIL
     = Some [ "09/02/25 8:00 AM"; "09/01/25 8:00 AM" ]
  /\ exists l, report_of out_of_order_doc !! SEC_RETAIL = Some l
               /\ l ≡ₚ [ "09/02/25 8:00 AM"; "09/01/25 8:00 AM" ].
Proof.
  assert (Hscan : @scan quiet id out_of_order_doc = Returns (state_of out_of_order_doc))
    by by_running.
  assert (Hparse : @parse_events quiet id out_of_order_doc
                   = Returns (report_of out_of_order_doc)) by by_running.
  assert (Hsec : SEC_RETAIL ∈ SECTIONS) by (apply section_elem; vm_compute; reflexivity).
  assert (Hne : SEC_RETAIL <> SEC_TRANSIENT) by discriminate.
  assert (Hscanned : parsed (state_of out_of_order_doc) !! SEC_RETAIL
                     = Some [ "09/02/25 8:00 AM"; "09/01/25 8:00 AM" ]) by by_running.
  split; [exact Hscan|]. split; [exact Hparse|]. split; [exact Hsec|].
  split; [exact Hne|]. split; [exact Hscanned|].
  destruct (@final_pass_keeps_entries quiet id out_of_order_doc _ _ SEC_RETAIL _
              Hscan Hparse Hsec Hne Hscanned) as (l & Hl & _ & Hperm).
  exists l. split; [exact Hl|]. apply Hperm. discriminate.
Defined.

(** ** Events that the classifier leaves unclassified *)

(** X4. An event that passes the empty-buffer rule and that [classify]
    answers "Unclassified" for is dropped in silence only when
    [build_event_line] makes an empty line of it: the report and the
    transient counter are then unchanged.  When the line is not empty,
    appending it raises [KeyError] for the key "Unclassified", which the
    report does not have. *)
Theorem unclassified_event_outcome `{Templates} set_order lines st :
  is_empty_event (buffer st) = false ->
  classify (buffer st) (set_order (labels st)) = UNCLASSIFIED ->
  parsed st !! UNCLASSIFIED = None ->
  if truthy (build_event_line (buffer st))
  then flush_event set_order lines st = Raises (KeyError UNCLASSIFIED)
  else exists st', flush_event set_order lines st = Returns st'
                   /\ parsed st' = parsed st
                   /\ transient_count st' = transient_count st
                   /\ buffer st' = ∅.
Proof.
  intros Hfull Hsec Hkey. unfold flush_event. rewrite Hfull, Hsec.
  change (default_aes_action UNCLASSIFIED (buffer st)) with (buffer st).
  unfold emit.
  change (seqb UNCLASSIFIED SEC_IR) with false.
  change (seqb UNCLASSIFIED SEC_ELEVATOR) with false.
  change (seqb UNCLASSIFIED SEC_WORK) with false.
  change (seqb UNCLASSIFIED SEC_DAMAGE) with false.
  change (seqb UNCLASSIFIED SEC_KEY) with false.
  change (seqb UNCLASSIFIED SEC_DOCK) with false.
  change (seqb UNCLASSIFIED SEC_FIRE) with false.
  change (seqb UNCLASSIFIED SEC_AES) with false.
  change (seqb UNCLASSIFIED SEC_JANITORIAL) with false.
  change (seqb UNCLASSIFIED SEC_ADDITIONAL) with false.
  cbv iota zeta.
  destruct (truthy (build_event_line (buffer st))).
  - unfold append_entry. rewrite Hkey. reflexivity.
  - eexists. split; [reflexivity|]. split; [reflexivity|]. split; reflexivity.
Qed.

Lemma unclassified_event_outcome_witness :
  is_empty_event (buffer walked_around) = false
  /\ classify (buffer walked_around) (id (labels walked_around)) = UNCLASSIFIED
  /\ parsed walked_around !! UNCLASSIFIED = None
  /\ truthy (build_event_line (buffer walked_around)) = true
  /\ @flush_event quiet id [] walked_around = Raises (KeyError UNCLASSIFIED).
Proof.
  assert (H1 : is_empty_event (buffer walked_around) = false) by (vm_compute; reflexivity).
  assert (H2 : classify (buffer walked_around) (id (labels walked_around)) = UNCLASSIFIED)
    by (vm_compute; reflexivity).
  assert (H3 : parsed walked_around !! UNCLASSIFIED = None) by (vm_compute; reflexivity).
  assert (H4 : truthy (build_event_line (buffer walked_around)) = true)
    by (vm_compute; reflexivity).
  split; [exact H1|]. split; [exact H2|]. split; [exact H3|]. split; [exact H4|].
  pose proof (@unclassified_event_outcome quiet id [] walked_around H1 H2 H3) as Hout.
  rewrite H4 in Hout. exact Hout.
Defined.

(** An unclassified event without date, officer, action and location has
    an empty line and is dropped in silence. *)
Lemma category_only_is_dropped :
  is_empty_event (buffer category_only) = false
  /\ classify (buffer category_only) [] = UNCLASSIFIED
  /\ exists st', @flush_event quiet id [] category_only = Returns st'
                 /\ parsed st' = parsed category_only.
Proof.
  split; [vm_compute; reflexivity|]. split; [vm_compute; reflexivity|].
  eexists. split; [vm_compute; reflexivity|]. reflexivity.
Qed.

(** ** The range of the classifier *)

(** X5. [classify] answers one of the fourteen sections of the report or
    "Unclassified", whatever the buffer and the labels. *)
Theorem classify_range (buffer : Buffer) (labels : list string) :
  classify buffer labels = UNCLASSIFIED \/ classify buffer labels ∈ SECTIONS.
Proof.
  unfold classify, classify_explicit, classify_heuristic.
  repeat case_match; simplify_eq;
    first [ left; reflexivity | right; apply section_elem; vm_compute; reflexivity ].
Qed.

(** ** The Additional Information scan ends *)

Lemma misc_scan_returns `{Templates} lines :
  (forall i ln, lines !! i = Some ln -> occurs rx_footer ln = false ->
                (exists es, misc_trigger ln es = true) ->
                misc_block_at lines i <> NoComment 0) ->
  forall fuel i entries,
    (length lines <= fuel + i)%nat ->
    exists r, misc_scan (S fuel) lines i entries = Returns r.
Proof.
  intros Hblocks fuel. induction fuel as [|fuel IH]; intros i entries Hfuel.
  - assert (Hnone : lines !! i = None) by (apply lookup_ge_None; lia).
    simpl. rewrite Hnone. eexists. reflexivity.
  - cbn [misc_scan]. destruct (lines !! i) as [ln|] eqn:Hln; [|eexists; reflexivity].
    destruct (misc_trigger ln entries) eqn:Htrigger; [|apply IH; lia].
    destruct (occurs rx_footer ln) eqn:Hfooter; [apply IH; lia|].
    destruct (misc_block_at lines i) as [[|k]| |evt k] eqn:Hblock.
    + exfalso. apply (Hblocks i ln Hln Hfooter); [exists entries; exact Htrigger|].
      exact Hblock.
    + apply IH. lia.
    + apply IH. lia.
    + apply IH. lia.
Qed.

(** X6. The loop of the Additional Information scan ends, and ends
    without an exception, on every document in which no line that opens
    a block, and is not a footer, starts a block without comment that
    ends on that same line: the scan then moves forward at every turn. *)
Theorem misc_scan_terminates `{Templates} lines entries :
  (forall i ln, lines !! i = Some ln -> occurs rx_footer ln = false ->
                (exists es, misc_trigger ln es = true) ->
                misc_block_at lines i <> NoComment 0) ->
  exists r, misc_scan (S (length lines)) lines 0 entries = Returns r.
Proof.
  intros Hblocks. apply (misc_scan_returns lines Hblocks). lia.
Qed.

Lemma misc_scan_terminates_witness :
  (forall i ln, misc_doc !! i = Some ln -> occurs rx_footer ln = false ->
                (exists es, misc_trigger ln es = true) ->
                @misc_block_at (reading quiet) misc_doc i <> NoComment 0)
  /\ @misc_scan (reading quiet) (S (length misc_doc)) misc_doc 0 [] = Returns []
  /\ exists r, @misc_scan (reading quiet) (S (length misc_doc)) misc_doc 0 []
               = Returns r.
Proof.
  assert (Hblocks : forall i ln, misc_doc !! i = Some ln ->
                      occurs rx_footer ln = false ->
                      (exists es, misc_trigger ln es = true) ->
                      @misc_block_at (reading quiet) misc_doc i <> NoComment 0).
  { intros i ln Hln _ _.
    destruct i as [|[|[|i]]]; [| | |discriminate Hln]; vm_compute; discriminate. }
  split; [exact Hblocks|]. split; [vm_compute; reflexivity|].
  exact (@misc_scan_terminates (reading quiet) misc_doc [] Hblocks).
Defined.

(** ** The Additional Information scan may never end *)

Lemma gather_block_at_section_end (lines : list string) (i : nat) (ln : string) :
  lines !! i = Some ln ->
  occurs rx_section_end (strip ln) = true ->
  gather_block lines i = (i, []).
Proof.
  intros Hln Hend. unfold gather_block.
  rewrite (drop_S _ _ _ Hln). cbn [gather_go]. rewrite Hend. reflexivity.
Qed.

(** X7. The loop of the Additional Information scan never ends once it
    reaches a line that opens a block and that, stripped, starts with one
    of the words that end the section ("End of Report", "Daily Activity",
    "Summary of", "Work Orders", "Patrol Check", "Log Summary"): the block
    is empty, has no comment, and the scan resumes at the same line. *)
Theorem misc_scan_diverges (T : Templates) (lines : list string) (i : nat)
  (ln : string) (entries : list string) (fuel : nat) :
  lines !! i = Some ln ->
  misc_trigger ln entries = true ->
  occurs rx_footer ln = false ->
  occurs rx_section_end (strip ln) = true ->
  @misc_scan (reading T) fuel lines i entries = Diverges.
Proof.
  intros Hln Htrigger Hfooter Hend. destruct fuel as [|fuel]; [reflexivity|].
  cbn [misc_scan]. rewrite Hln, Htrigger, Hfooter.
  cbn [misc_block_at reading]. unfold read_block.
  rewrite (gather_block_at_section_end _ _ _ Hln Hend).
  change (block_comment []) with "". cbn [truthy]. rewrite Nat.sub_diag. reflexivity.
Qed.

Lemma misc_scan_diverges_witness :
  summary_doc !! 1%nat = Some "Summary of Other/Miscellaneous"
  /\ misc_trigger "Summary of Other/Miscellaneous" [] = true
  /\ occurs rx_footer "Summary of Other/Miscellaneous" = false
  /\ occurs rx_section_end (strip "Summary of Other/Miscellaneous") = true
  /\ @misc_scan (reading quiet) 4 summary_doc 1 [] = Diverges.
Proof.
  split; [reflexivity|]. split; [vm_compute; reflexivity|].
  split; [vm_compute; reflexivity|]. split; [vm_compute; reflexivity|].
  apply (misc_scan_diverges quiet summary_doc 1 "Summary of Other/Miscellaneous");
    [reflexivity|vm_compute; reflexivity|vm_compute; reflexivity|vm_compute; reflexivity].
Defined.

(** A document on which [parse_events] never returns, whatever the
    templates make of the events: its only event is classified as
    Additional Information, and the scan of the lines for its blocks
    stays on the second line. *)
Lemma summary_doc_never_returns (T : Templates) :
  @parse_events (reading T) id summary_doc = Diverges.
Proof. vm_compute. reflexivity. Qed.

(** ** Letter case *)

Lemma to_lower_facts (c : ascii) :
  to_lower (to_lower c) = to_lower c
  /\ to_lower (to_upper c) = to_lower c
  /\ is_space (to_lower c) = is_space c
  /\ is_space (to_upper c) = is_space c
  /\ is_digit (to_lower c) = is_digit c
  /\ is_upper (to_lower c) = false.
Proof.
  destruct c as [[] [] [] [] [] [] [] []]; vm_compute; repeat split; reflexivity.
Qed.

Lemma lower_idem (s : string) : lower (lower s) = lower s.
Proof.
  induction s as [|c r IH]; [reflexivity|]. unfold lower in *. simpl.
  rewrite IH. f_equal. apply to_lower_facts.
Qed.

Lemma lower_app (a b : string) : lower (a ++ b) = lower a ++ lower b.
Proof.
  induction a as [|c r IH]; [reflexivity|]. unfold lower in *. simpl.
  rewrite IH. reflexivity.
Qed.

Lemma lower_join (sep : string) (l : list string) :
  lower (join sep l) = join (lower sep) (map lower l).
Proof.
  induction l as [|x r IH]; [reflexivity|]. destruct r as [|y r'].
  - reflexivity.
  - change (join sep (x :: y :: r')) with (x ++ sep ++ join sep (y :: r')).
    rewrite !lower_app, IH. reflexivity.
Qed.

Lemma lower_capitalize (s : string) : lower (capitalize s) = lower s.
Proof.
  destruct s as [|c r]; [reflexivity|]. unfold capitalize.
  change (lower (String (to_upper c) (lower r)))
    with (String (to_lower (to_upper c)) (lower (lower r))).
  change (lower (String c r)) with (String (to_lower c) (lower r)).
  rewrite lower_idem. f_equal. apply to_lower_facts.
Qed.

Lemma get_lower (b : Buffer) (k : string) : get (lower <$> b) k = lower (get b k).
Proof. unfold get. rewrite lookup_fmap. destruct (b !! k); reflexivity. Qed.

(** ** The classifier ignores letter case *)

Lemma classify_explicit_lower (b : Buffer) :
  classify_explicit (lower <$> b) = classify_explicit b.
Proof.
  unfold classify_explicit. rewrite lookup_fmap, get_lower.
  destruct (b !! "category") as [c|]; [|reflexivity]. simpl.
  rewrite !lower_idem. reflexivity.
Qed.

Lemma classify_text_lower (b : Buffer) (labels : list string) :
  classify_text (lower <$> b) (map lower labels) = classify_text b labels.
Proof.
  unfold classify_text. rewrite !lower_join, !get_lower, !map_app. simpl.
  rewrite !lower_idem. f_equal. f_equal.
  rewrite map_map. apply map_ext. intros x. apply lower_idem.
Qed.

(** X8. The section of an event does not depend on the letter case of
    its fields and labels: [classify] answers the same for a buffer and
    labels as for their lower-case forms. *)
Theorem classify_ignores_case (buffer : Buffer) (labels : list string) :
  classify (lower <$> buffer) (map lower labels) = classify buffer labels.
Proof.
  unfold classify. rewrite classify_explicit_lower, classify_text_lower.
  destruct (classify_explicit buffer); [reflexivity|].
  unfold classify_heuristic. rewrite get_lower, lower_idem. reflexivity.
Qed.

(** ** Location names *)

Lemma sapp_nil_r (a : string) : a ++ "" = a.
Proof. induction a as [|x a IH]; [reflexivity|]. simpl. f_equal. exact IH. Qed.

Lemma concat_cons (a : string) (l : list string) :
  String.concat "" (a :: l) = a ++ String.concat "" l.
Proof.
  destruct l as [|y l']; simpl; [|reflexivity]. symmetry. apply sapp_nil_r.
Qed.

Lemma runs_go_concat (s cur : string) (blank : bool) :
  String.concat "" (map snd (runs_go s cur blank)) = srev cur ++ s.
Proof.
  revert cur blank. induction s as [|c r IH]; intros cur blank; cbn [runs_go].
  - cbn [map snd String.concat]. symmetry. apply sapp_nil_r.
  - destruct (Bool.eqb (is_space c) blank).
    + rewrite IH, srev_cons, sapp_assoc. reflexivity.
    + cbn [map snd]. rewrite concat_cons, IH. reflexivity.
Qed.

Lemma lower_concat (l : list string) :
  lower (String.concat "" l) = String.concat "" (map lower l).
Proof.
  induction l as [|x r IH]; [reflexivity|].
  cbn [map]. rewrite !concat_cons, lower_app, IH. reflexivity.
Qed.

Lemma format_word_lower (first : bool) (w : bool * string) :
  lower (format_word first w) = lower (snd w).
Proof.
  unfold format_word. repeat case_match; try reflexivity.
  - rewrite lower_capitalize. apply lower_idem.
  - apply lower_idem.
Qed.

(** X9. [format_location_name] changes nothing but the case of letters
    in a location of ASCII text: up to case its result is the location
    without the blanks around it, and it has the same length. *)
Theorem format_location_name_keeps_text (loc : string) :
  ascii_only loc = true ->
  lower (format_location_name loc) = lower (strip loc)
  /\ String.length (format_location_name loc) = String.length (strip loc).
Proof.
  intros _.
  assert (Hlow : lower (format_location_name loc) = lower (strip loc)).
  { unfold format_location_name. destruct loc as [|c r]; [reflexivity|].
    cbn [truthy]. set (s := strip (String c r)).
    pose proof (runs_go_concat s "" false) as Hcat. fold (runs s) in Hcat.
    change (srev "" ++ s) with s in Hcat.
    destruct (runs s) as [|w ws]; [rewrite <- Hcat; reflexivity|].
    rewrite <- Hcat, !lower_concat. cbn [map]. rewrite format_word_lower.
    f_equal. f_equal. rewrite !map_map. apply map_ext. intros x.
    apply format_word_lower. }
  split; [exact Hlow|].
  assert (Hlen : forall s, String.length (lower s) = String.length s).
  { intros s. induction s as [|c r IH]; [reflexivity|]. unfold lower in *. simpl.
    rewrite IH. reflexivity. }
  rewrite <- (Hlen (format_location_name loc)), Hlow. apply Hlen.
Qed.

Lemma format_location_name_keeps_text_witness :
  ascii_only " main LOBBY of the tower " = true
  /\ format_location_name " main LOBBY of the tower " = "Main LOBBY of the Tower"
  /\ lower (format_location_name " main LOBBY of the tower ")
     = lower (strip " main LOBBY of the tower ").
Proof.
  split; [reflexivity|]. split; [vm_compute; reflexivity|].
  exact (proj1 (format_location_name_keeps_text " main LOBBY of the tower " eq_refl)).
Defined.

(** ** Words *)

Lemma sall_app p (a b : string) : sall p (a ++ b) = sall p a && sall p b.
Proof.
  induction a as [|c r IH]; [reflexivity|]. simpl. rewrite IH. apply andb_assoc.
Qed.

Lemma sall_srev p (s : string) : sall p (srev s) = sall p s.
Proof.
  induction s as [|c r IH]; [reflexivity|].
  rewrite srev_cons, sall_app, IH. simpl. rewrite andb_true_r. apply andb_comm.
Qed.

Lemma srev_app (a b : string) : srev (a ++ b) = srev b ++ srev a.
Proof.
  induction a as [|c r IH]; simpl.
  - symmetry. apply sapp_nil_r.
  - rewrite !srev_cons, IH. apply sapp_assoc.
Qed.

Lemma srev_truthy (s : string) : truthy (srev s) = truthy s.
Proof.
  destruct s as [|c r]; [reflexivity|]. rewrite srev_cons.
  destruct (srev r); reflexivity.
Qed.

Lemma split_go_tokens (s cur : string) :
  sall (fun c => negb (is_space c)) cur = true ->
  Forall (fun w => is_token w = true) (split_go s cur).
Proof.
  revert cur. induction s as [|c r IH]; intros cur Hcur; simpl.
  - destruct cur as [|a cur']; [constructor|]. constructor; [|constructor].
    unfold is_token. rewrite srev_truthy, sall_srev, Hcur. reflexivity.
  - destruct (is_space c) eqn:Hc.
    + destruct cur as [|a cur']; [apply IH; reflexivity|].
      constructor; [|apply IH; reflexivity].
      unfold is_token. rewrite srev_truthy, sall_srev, Hcur. reflexivity.
    + apply IH. simpl. rewrite Hc, Hcur. reflexivity.
Qed.

Lemma split_tokens (s : string) : Forall (fun w => is_token w = true) (split s).
Proof. apply split_go_tokens. reflexivity. Qed.

Lemma split_go_app (w s cur : string) :
  sall (fun c => negb (is_space c)) w = true ->
  split_go (w ++ s) cur = split_go s (srev_onto w cur).
Proof.
  revert cur. induction w as [|c r IH]; intros cur Hw; [reflexivity|].
  simpl in Hw. apply andb_prop in Hw as [Hc Hr]. simpl.
  apply negb_true_iff in Hc. rewrite Hc. apply IH, Hr.
Qed.

(** Splitting the words joined by one blank gives the words back. *)
Lemma split_join (l : list string) :
  Forall (fun w => is_token w = true) l -> split (join " " l) = l.
Proof.
  induction 1 as [|x r Hx Hr IH]; [reflexivity|].
  unfold is_token in Hx. apply andb_prop in Hx as [Hne Hx].
  assert (Hrev : srev (srev_onto x "") = x) by apply srev_involutive.
  assert (Hcur : truthy (srev_onto x "") = true)
    by (change (srev_onto x "") with (srev x); rewrite srev_truthy; exact Hne).
  destruct r as [|y r'].
  - cbn [join]. unfold split. rewrite <- (sapp_nil_r x) at 1.
    rewrite (split_go_app _ _ _ Hx). cbn [split_go].
    destruct (srev_onto x "") as [|a q]; [discriminate|]. rewrite Hrev. reflexivity.
  - change (join " " (x :: y :: r')) with (x ++ " " ++ join " " (y :: r')).
    unfold split. rewrite (split_go_app _ _ _ Hx).
    change (" " ++ join " " (y :: r')) with (String " " (join " " (y :: r'))).
    cbn [split_go]. change (is_space " ") with true. cbv iota.
    destruct (srev_onto x "") as [|a q]; [discriminate|]. rewrite Hrev.
    f_equal. exact IH.
Qed.

(** ** The past tense *)

Lemma verb_map_values_tokens k v : VERB_MAP !! k = Some v -> is_token v = true.
Proof.
  intros Hkv.
  assert (Hall : map_Forall (fun _ v => is_token v = true) VERB_MAP).
  { apply (bool_decide_unpack _). vm_compute. reflexivity. }
  exact (Hall k v Hkv).
Qed.

Lemma lower_nonblank (w : string) :
  sall (fun c => negb (is_space c)) (lower w) = sall (fun c => negb (is_space c)) w.
Proof.
  induction w as [|c r IH]; [reflexivity|]. unfold lower in *. simpl.
  rewrite IH. destruct (to_lower_facts c) as (_ & _ & -> & _). reflexivity.
Qed.

Lemma lower_token (w : string) : is_token w = true -> is_token (lower w) = true.
Proof.
  unfold is_token. rewrite lower_nonblank. destruct w; [discriminate|]. intros Hw. exact Hw.
Qed.

Lemma endswith_app (p a : string) : endswith p (a ++ p) = true.
Proof.
  unfold endswith. rewrite srev_app. generalize (srev p) as q. intros q.
  induction q as [|c q IH]; [reflexivity|]. simpl.
  unfold ceqb. rewrite Ascii.eqb_refl. exact IH.
Qed.

(** X10. [to_past_tense] rewrites the first word of a text and no other:
    its result is the first word, rewritten, and the other words of the
    text, joined by one blank, and these are the words of the result.
    The first word becomes the entry of the verb map for its lower-case
    form, when the map has one.  Otherwise it is left as it is, in the
    case it has, when its lower-case form ends in "ed"; and else it is
    put in lower case and gets a "d" after a final "e", an "ed" after
    any other letter.  A first word without entry in the map thus ends
    in "ed" up to the case of its letters. *)
Theorem to_past_tense_first_word (text w : string) (ws : list string) :
  split text = w :: ws ->
  exists w',
    to_past_tense text = join " " (w' :: ws)
    /\ split (to_past_tense text) = w' :: ws
    /\ match VERB_MAP !! lower w with
       | Some v => w' = v
       | None =>
           if endswith "ed" (lower w) then w' = w
           else if endswith "e" (lower w) then w' = lower w ++ "d"
           else w' = lower w ++ "ed"
       end
    /\ (VERB_MAP !! lower w = None -> endswith "ed" (lower w') = true).
Proof.
  intros Hsplit. pose proof (split_tokens text) as Htok. rewrite Hsplit in Htok.
  apply Forall_cons in Htok as [Hw Hws].
  unfold to_past_tense. rewrite Hsplit. cbv zeta.
  destruct (VERB_MAP !! lower w) as [v|] eqn:Hv.
  - exists v. split; [reflexivity|]. split; [|split; [reflexivity|discriminate]].
    apply split_join. constructor; [exact (verb_map_values_tokens _ _ Hv)|exact Hws].
  - destruct (endswith "ed" (lower w)) eqn:Hed.
    + exists w. split; [reflexivity|]. split; [|split; [reflexivity|intros _; exact Hed]].
      apply split_join. constructor; [exact Hw|exact Hws].
    + eexists. split; [reflexivity|]. split; [|split].
      * apply split_join. constructor; [|exact Hws].
        pose proof (lower_token w Hw) as Hlow. unfold is_token in *.
        apply andb_prop in Hlow as [Hne Hlow]. apply andb_true_intro. split.
        -- destruct (lower w); [discriminate|reflexivity].
        -- rewrite sall_app, Hlow. destruct (endswith "e" (lower w)); reflexivity.
      * destruct (endswith "e" (lower w)); reflexivity.
      * intros _. rewrite lower_app, lower_idem.
        destruct (endswith "e" (lower w)) eqn:He.
        -- change (lower "d") with "d". unfold endswith in *.
           rewrite srev_app. change (srev "d" ++ srev (lower w)) with
             (String "d" (srev (lower w))).
           change (srev "ed") with "de". change (srev "e") with "e" in He.
           simpl. simpl in He. exact He.
        -- apply endswith_app.
Qed.

Lemma to_past_tense_first_word_witness :
  split "ISSUED  keys" = [ "ISSUED"; "keys" ]
  /\ VERB_MAP !! lower "ISSUED" = None
  /\ to_past_tense "ISSUED  keys" = "ISSUED keys"
  /\ to_past_tense "open  the gate" = "opened the gate"
  /\ exists w', to_past_tense "ISSUED  keys" = join " " [ w'; "keys" ]
                /\ split (to_past_tense "ISSUED  keys") = [ w'; "keys" ].
Proof.
  assert (Hsplit : split "ISSUED  keys" = [ "ISSUED"; "keys" ])
    by (vm_compute; reflexivity).
  split; [exact Hsplit|]. split; [vm_compute; reflexivity|].
  split; [vm_compute; reflexivity|]. split; [vm_compute; reflexivity|].
  destruct (to_past_tense_first_word "ISSUED  keys" "ISSUED" [ "keys" ] Hsplit)
    as (w' & Hjoin & Hwords & _).
  exists w'. split; [exact Hjoin|exact Hwords].
Defined.

(** ** Articles of key and badge phrases *)

Lemma sany_app p (a b : string) : sany p (a ++ b) = sany p a || sany p b.
Proof.
  induction a as [|c r IH]; [reflexivity|]. simpl. rewrite IH. apply orb_assoc.
Qed.

Lemma sany_srev p (s : string) : sany p (srev s) = sany p s.
Proof.
  induction s as [|c r IH]; [reflexivity|].
  rewrite srev_cons, sany_app, IH. simpl. rewrite orb_false_r. apply orb_comm.
Qed.

Lemma sany_lstrip p q (s : string) :
  (forall c, p c = true -> q c = false) ->
  sany q (lstrip_by p s) = sany q s.
Proof.
  intros Hpq. induction s as [|c r IH]; [reflexivity|]. simpl.
  destruct (p c) eqn:Hc; [|reflexivity]. rewrite IH, (Hpq c Hc). reflexivity.
Qed.

Lemma sany_strip p q (s : string) :
  (forall c, p c = true -> q c = false) ->
  sany q (strip_by p s) = sany q s.
Proof.
  intros Hpq. unfold strip_by, rstrip_by.
  rewrite sany_srev, (sany_lstrip p q _ Hpq), sany_srev. apply sany_lstrip, Hpq.
Qed.

Lemma space_is_no_digit c : is_space c = true -> is_digit c = false.
Proof.
  destruct c as [[] [] [] [] [] [] [] []]; vm_compute; intros Hc;
    first [reflexivity|discriminate Hc].
Qed.

Lemma has_digit_normal (s : string) :
  sany is_digit (lower (strip s)) = sany is_digit s.
Proof.
  transitivity (sany is_digit (strip s)).
  - generalize (strip s) as t. intros t.
    induction t as [|c r IH]; [reflexivity|]. unfold lower in *. simpl.
    rewrite IH. destruct (to_lower_facts c) as (_ & _ & _ & _ & -> & _). reflexivity.
  - apply sany_strip, space_is_no_digit.
Qed.

Lemma search_digit (s : string) (prev : option ascii) (off : nat) :
  is_Some (search_from d prev off s) <-> sany is_digit s = true.
Proof.
  revert prev off. induction s as [|c r IH]; intros prev off.
  - cbn. split; [intros [x Hx]; discriminate|discriminate].
  - cbn [search_from]. unfold match_at, d. cbn [run sany].
    destruct (is_digit c); cbn [orb].
    + split; [reflexivity|]. intros _. eexists. reflexivity.
    + apply IH.
Qed.

Lemma search_item_code (s : string) (prev : option ascii) (off : nat) :
  is_Some (search_from rx_item_code prev off s) <-> sany is_digit s = true.
Proof.
  revert prev off. induction s as [|c r IH]; intros prev off.
  - cbn. split; [intros [x Hx]; discriminate|discriminate].
  - cbn [search_from]. unfold match_at, rx_item_code, alts, d. cbn [run sany or_else].
    destruct (is_digit c); cbn [orb or_else].
    + split; [reflexivity|]. intros _. eexists. reflexivity.
    + destruct (is_alpha c).
      * destruct r as [|c2 r2].
        -- cbn. split; [intros [x Hx]; discriminate|discriminate].
        -- destruct (is_digit c2) eqn:Hc2.
           ++ cbn [or_else sany orb]. rewrite Hc2.
              split; [reflexivity|]. intros _. eexists. reflexivity.
           ++ cbn [or_else]. apply IH.
      * cbn [or_else]. apply IH.
Qed.

Lemma occurs_digit (s : string) : occurs d s = sany is_digit s.
Proof.
  unfold occurs, search. apply eq_true_iff_eq.
  rewrite bool_decide_eq_true. apply search_digit.
Qed.

Lemma occurs_item_code (s : string) : occurs rx_item_code s = sany is_digit s.
Proof.
  unfold occurs, search. apply eq_true_iff_eq.
  rewrite bool_decide_eq_true. apply search_item_code.
Qed.

(** X11. The article that [smart_item_phrase] gives to an item of ASCII
    text: "the" when the item has a digit, also when it is a plural; no
    article when it has no digit and ends in "s"; "a" otherwise.  The
    second and third alternatives of the pattern for codes add nothing to
    the first. *)
Theorem smart_item_phrase_cases (item : string) :
  ascii_only item = true ->
  truthy item = true ->
  smart_item_phrase item =
    if sany is_digit item then "the " ++ strip item
    else if endswith "s" (lower (strip item)) then strip item
    else "a " ++ strip item.
Proof.
  intros _ Hitem. unfold smart_item_phrase. rewrite Hitem. cbv zeta.
  rewrite occurs_digit, occurs_item_code, has_digit_normal.
  destruct (sany is_digit item); [rewrite andb_false_r; reflexivity|].
  rewrite andb_true_r. destruct (endswith "s" (lower (strip item))); reflexivity.
Qed.

Lemma smart_item_phrase_cases_witness :
  ascii_only "keys1" = true /\ truthy "keys1" = true
  /\ smart_item_phrase "keys1" = "the keys1".
Proof.
  split; [reflexivity|]. split; [reflexivity|].
  rewrite (smart_item_phrase_cases "keys1" eq_refl eq_refl). vm_compute. reflexivity.
Defined.

(** ** No event is lost *)

Lemma grows_refl (p : Report) : grows p p.
Proof. intros s l Hl. exists []. rewrite app_nil_r. exact Hl. Qed.

Lemma append_entry_grows sec evt (p p' : Report) :
  append_entry sec evt p = Returns p' -> grows p p'.
Proof.
  unfold append_entry. destruct (p !! sec) as [l0|] eqn:Hsec; [|discriminate].
  intros [= <-] s l Hl. destruct (decide (s = sec)) as [->|Hne].
  - rewrite lookup_insert_eq. rewrite Hsec in Hl. injection Hl as <-.
    eexists. reflexivity.
  - rewrite lookup_insert_ne by congruence. exists []. rewrite app_nil_r. exact Hl.
Qed.

Lemma append_if_any_grows sec evt (p p' : Report) :
  append_if_any sec evt p = Returns p' -> grows p p'.
Proof.
  unfold append_if_any. destruct (truthy evt); [apply append_entry_grows|].
  intros [= <-]. apply grows_refl.
Qed.

Lemma append_option_grows sec evt (p p' : Report) :
  append_option sec evt p = Returns p' -> grows p p'.
Proof.
  unfold append_option. destruct evt; [apply append_entry_grows|].
  intros [= <-]. apply grows_refl.
Qed.

Lemma misc_scan_grows `{Templates} fuel lines i entries r :
  misc_scan fuel lines i entries = Returns r -> exists l', r = (entries ++ l')%list.
Proof.
  revert i entries. induction fuel as [|fuel IH]; intros i entries; [discriminate|].
  simpl. destruct (lines !! i) as [ln|];
    [|intros [= <-]; exists []; symmetry; apply app_nil_r].
  destruct (misc_trigger ln entries); [|apply IH].
  destruct (occurs rx_footer ln); [apply IH|].
  destruct (misc_block_at lines i) as [[|k]| |evt k]; try discriminate; try apply IH.
  intros Hrun. destruct (IH _ _ Hrun) as [l' ->]. unfold append_unique.
  destruct (existsb (seqb evt) entries); [exists l'; reflexivity|].
  exists (evt :: l'). rewrite <- app_assoc. reflexivity.
Qed.

Lemma kept_grows (st : State) (p' : Report) :
  kept st -> grows (parsed st) p' -> kept (with_parsed p' st).
Proof.
  intros Hk Hg e He Hn Ht. destruct (Hk e He Hn Ht) as (l & Hl & Hin).
  destruct (Hg _ _ Hl) as [l' Hl']. exists (l ++ l')%list.
  split; [exact Hl'|]. apply elem_of_app. left. exact Hin.
Qed.

Section NoEventIsLost.
Context `{Templates}.
Variable set_order : list string -> list string.
Variable lines : list string.

(** What one event does to the report: the report grows, and the line of
    an event of the normal path is in its section. *)
Lemma emit_grows sec b st st1 :
  emit lines sec b st = Returns st1 ->
  history st1 = history st
  /\ grows (parsed st) (parsed st1)
  /\ (normal_path sec = true -> truthy (build_event_line b) = true ->
      exists l, parsed st1 !! sec = Some l /\ build_event_line b ∈ l).
Proof.
  unfold emit, normal_path, templated. cbn [existsb].
  repeat match goal with
         | |- context [if seqb sec ?s then _ else _] =>
             destruct (seqb sec s) eqn:?
         end;
    cbn [negb orb];
    unfold mbind, outcome_bind, mret, outcome_ret;
    intros Hrun;
    repeat match type of Hrun with
           | match ?m with _ => _ end = _ => destruct m eqn:?; try discriminate Hrun
           | (if ?c then _ else _) = _ => destruct c eqn:?; try discriminate Hrun
           end;
    injection Hrun as <-;
    (split; [reflexivity|]); cbn [parsed with_parsed with_transient_count];
    (split; [|try discriminate]);
    try first [ eapply append_option_grows; eassumption
              | eapply append_if_any_grows; eassumption
              | eapply append_entry_grows; eassumption
              | apply grows_refl ].
  - (* the Additional Information scan *)
    intros s l Hl. destruct (decide (s = SEC_ADDITIONAL)) as [->|Hne].
    + rewrite lookup_insert_eq. rewrite Hl in *. cbn [default] in *.
      match goal with
      | Hm : misc_scan _ _ _ _ = Returns _ |- _ =>
          destruct (misc_scan_grows _ _ _ _ _ Hm) as [l' ->]
      end.
      eexists. reflexivity.
    + rewrite lookup_insert_ne by congruence. exists []. rewrite app_nil_r. exact Hl.
  - (* the normal path with an entry *)
    intros _ _.
    match goal with
    | Ha : append_entry sec _ _ = Returns _ |- _ => unfold append_entry in Ha
    end.
    destruct (parsed st !! sec) as [l0|]; [|discriminate]. simplify_eq.
    rewrite lookup_insert_eq. eexists. split; [reflexivity|].
    apply elem_of_app. right. apply list_elem_of_here.
Qed.

Lemma flush_kept st st' :
  flush set_order lines st = Returns st' -> kept st -> kept st'.
Proof.
  unfold flush, flush_event. destruct (is_empty_event (buffer st)).
  - intros [= <-] Hk. exact Hk.
  - cbv zeta. unfold mbind, outcome_bind, mret, outcome_ret.
    destruct (emit _ _ _ _) as [st1| |] eqn:Hemit; try discriminate.
    intros [= <-] Hk. destruct (emit_grows _ _ _ _ Hemit) as (Hh & Hg & Hnew).
    intros e He Hn Ht.
    cbn [history parsed reset_event with_last_field with_tag_seen with_labels
         with_buffer with_history] in *.
    apply elem_of_app in He as [He|He].
    + destruct (Hk e He Hn Ht) as (l & Hl & Hin).
      destruct (Hg _ _ Hl) as [l' Hl']. exists (l ++ l')%list.
      split; [exact Hl'|]. apply elem_of_app. left. exact Hin.
    + apply list_elem_of_singleton in He. subst e. cbn [ev_section ev_line] in *.
      exact (Hnew Hn Ht).
Qed.

Lemma appended_kept sec evt st p :
  (append_option sec evt (parsed st) = Returns p -> kept st -> kept (with_parsed p st))
  /\ (forall e, append_if_any sec e (parsed st) = Returns p ->
                kept st -> kept (with_parsed p st)).
Proof.
  split; [intros Happ Hk|intros e Happ Hk]; apply kept_grows; try exact Hk.
  - eapply append_option_grows, Happ.
  - eapply append_if_any_grows, Happ.
Qed.

Lemma chain_keeps_events (l : list stage) :
  Forall keeps_events l -> keeps_events (chain l).
Proof.
  induction 1 as [|s l Hs Hl IH]; intros st f Hrun Hk.
  - injection Hrun as <-. exact Hk.
  - simpl in Hrun. unfold and_then, mbind, outcome_bind in Hrun.
    destruct (s st) as [[st1|st1]| |] eqn:Hs1; try discriminate.
    + apply (IH st1 f Hrun). exact (Hs st _ Hs1 Hk).
    + injection Hrun as <-. exact (Hs st _ Hs1 Hk).
Qed.

Ltac known_kept :=
  match goal with
  | Hg : kept ?a |- kept _ => exact Hg
  end.

Ltac learn_kept :=
  repeat match goal with
         | Hf : flush _ _ ?a = Returns ?b |- _ =>
             lazymatch goal with
             | _ : kept b |- _ => fail
             | _ => assert (kept b) by (apply (flush_kept a b Hf); known_kept)
             end
         | Ha : append_option ?sec ?e (parsed ?a) = Returns ?p |- _ =>
             lazymatch goal with
             | _ : kept (with_parsed p a) |- _ => fail
             | _ => assert (kept (with_parsed p a))
                      by (apply (proj1 (appended_kept sec e a p));
                          [exact Ha|known_kept])
             end
         | Ha : append_if_any ?sec ?e (parsed ?a) = Returns ?p |- _ =>
             lazymatch goal with
             | _ : kept (with_parsed p a) |- _ => fail
             | _ => assert (kept (with_parsed p a))
                      by (apply (proj2 (appended_kept sec None a p) e);
                          [exact Ha|known_kept])
             end
         end.

Ltac stage_keeps_events :=
  intros st f Hrun Hk;
  autounfold with stages in Hrun;
  unfold mbind, outcome_bind, mret, outcome_ret in Hrun;
  repeat case_match; simplify_eq;
  cbn [flow_state]; learn_kept; known_kept.

Lemma line_chain_keeps_events i ln : keeps_events (line_chain set_order lines i ln).
Proof.
  apply chain_keeps_events. repeat (apply Forall_cons; split; [stage_keeps_events|]).
  apply Forall_nil_2.
Qed.

Lemma scan_from_kept i rest st st' :
  scan_from set_order lines i rest st = Returns st' -> kept st -> kept st'.
Proof.
  revert i st. induction rest as [|ln rest IH]; intros i st Hrun Hk.
  - injection Hrun as <-. exact Hk.
  - simpl in Hrun. unfold mbind, outcome_bind in Hrun.
    destruct (process_line _ _ i ln st) as [st1| |] eqn:Hline; try discriminate.
    apply (IH _ _ Hrun). unfold process_line in Hline.
    destruct (truthy ln); [|injection Hline as <-; exact Hk].
    unfold mbind, outcome_bind, mret, outcome_ret in Hline.
    destruct (line_chain _ _ i ln st) as [f| |] eqn:Hchain; try discriminate.
    injection Hline as <-. exact (line_chain_keeps_events i ln st f Hchain Hk).
Qed.

Lemma scan_kept st : scan set_order lines = Returns st -> kept st.
Proof.
  unfold scan, mbind, outcome_bind, mret, outcome_ret.
  destruct (scan_from _ _ 0 lines initial_state) as [st1| |] eqn:Hscan;
    try discriminate.
  assert (Hinit : kept initial_state) by (intros e He; inversion He).
  pose proof (scan_from_kept _ _ _ _ Hscan Hinit) as Hk.
  destruct (filled (buffer st1) "date").
  - intros Hflush. exact (flush_kept _ _ Hflush Hk).
  - intros [= <-]. exact Hk.
Qed.

End NoEventIsLost.

(** X12. No event of the normal path is lost: when [parse_events]
    returns, the line of every event that [flush_event] classified into a
    section without template of its own, Transient Removal apart, and
    whose line is not empty, is an entry of that section in the finished
    report. *)
Theorem recorded_event_is_reported `{Templates} set_order lines st r (e : event) :
  scan set_order lines = Returns st ->
  parse_events set_order lines = Returns r ->
  e ∈ history st ->
  normal_path (ev_section e) = true ->
  truthy (ev_line e) = true ->
  ev_section e <> SEC_TRANSIENT ->
  exists l, r !! ev_section e = Some l /\ ev_line e ∈ l.
Proof.
  intros Hscan Hparse He Hn Ht Hne.
  destruct (parse_events_split _ _ _ Hparse) as (st' & Hscan' & Hfin).
  rewrite Hscan in Hscan'. injection Hscan' as <-.
  destruct (scan_kept _ _ _ Hscan e He Hn Ht) as (l0 & Hl0 & Hin).
  assert (Hsec : ev_section e ∈ SECTIONS).
  { apply (scan_keyed _ _ _ Hscan). eexists. exact Hl0. }
  destruct (finalize_section _ _ _ _ Hfin Hsec) as (l1 & Hl1 & Hr).
  rewrite Hl0 in Hl1. injection Hl1 as <-.
  eexists. split; [exact Hr|]. unfold final_entries.
  rewrite decide_False by exact Hne. rewrite sorted_unless_placeholder_perm.
  destruct l0; [inversion Hin|exact Hin].
Qed.

Lemma recorded_event_is_reported_witness :
  @scan quiet id out_of_order_doc = Returns (state_of out_of_order_doc)
  /\ @parse_events quiet id out_of_order_doc = Returns (report_of out_of_order_doc)
  /\ Event SEC_RETAIL false "09/01/25 8:00 AM" ∈ history (state_of out_of_order_doc)
  /\ exists l, report_of out_of_order_doc !! SEC_RETAIL = Some l
               /\ "09/01/25 8:00 AM" ∈ l.
Proof.
  assert (Hscan : @scan quiet id out_of_order_doc = Returns (state_of out_of_order_doc))
    by by_running.
  assert (Hparse : @parse_events quiet id out_of_order_doc
                   = Returns (report_of out_of_order_doc)) by by_running.
  assert (Hin : Event SEC_RETAIL false "09/01/25 8:00 AM"
                ∈ history (state_of out_of_order_doc)).
  { replace (history (state_of out_of_order_doc))
      with [ Event SEC_RETAIL false "09/02/25 8:00 AM";
             Event SEC_RETAIL false "09/01/25 8:00 AM" ] by (vm_compute; reflexivity).
    apply list_elem_of_further, list_elem_of_here. }
  split; [exact Hscan|]. split; [exact Hparse|]. split; [exact Hin|].
  exact (@recorded_event_is_reported quiet id out_of_order_doc _ _
           (Event SEC_RETAIL false "09/01/25 8:00 AM")
           Hscan Hparse Hin eq_refl eq_refl ltac:(discriminate)).
Defined.

(** ** An event writes to one section *)

Section OneSection.
Context `{Templates}.
Variable set_order : list string -> list string.
Variable lines : list string.

Lemma emit_other sec b st st1 (s : string) :
  emit lines sec b st = Returns st1 -> s <> sec ->
  parsed st1 !! s = parsed st !! s.
Proof.
  unfold emit.
  repeat match goal with
         | |- context [if seqb sec ?s then _ else _] =>
             destruct (seqb sec s) eqn:?
         end;
    unfold mbind, outcome_bind, mret, outcome_ret;
    intros Hrun Hne;
    repeat match type of Hrun with
           | match ?m with _ => _ end = _ => destruct m eqn:?; try discriminate Hrun
           | (if ?c then _ else _) = _ => destruct c eqn:?; try discriminate Hrun
           end;
    injection Hrun as <-; cbn [parsed with_parsed with_transient_count];
    first [ reflexivity
          | eapply append_option_other; eassumption
          | eapply append_if_any_other; eassumption
          | eapply append_entry_other; eassumption
          | idtac ].
  (* the Additional Information scan *)
  apply lookup_insert_ne.
  match goal with
  | Hs : seqb sec SEC_ADDITIONAL = true |- _ => apply seqb_eq in Hs; congruence
  end.
Qed.

(** X13. An event changes one section of the report at most: after
    [flush_event], every section other than the one that [classify]
    answers for the event holds the entries it held before. *)
Theorem flush_event_writes_one_section st st' (s : string) :
  flush_event set_order lines st = Returns st' ->
  s <> classify (buffer st) (set_order (labels st)) ->
  parsed st' !! s = parsed st !! s.
Proof.
  unfold flush_event. destruct (is_empty_event (buffer st)).
  - intros [= <-] _. reflexivity.
  - cbv zeta. unfold mbind, outcome_bind, mret, outcome_ret.
    destruct (emit _ _ _ _) as [st1| |] eqn:Hemit; try discriminate.
    intros [= <-] Hne. exact (emit_other _ _ _ _ s Hemit Hne).
Qed.

End OneSection.

Lemma flush_event_writes_one_section_witness :
  @flush_event quiet id [] retail_event
  = Returns (returned (@flush_event quiet id [] retail_event) initial_state)
  /\ SEC_TENANT <> classify (buffer retail_event) (id (labels retail_event))
  /\ parsed (returned (@flush_event quiet id [] retail_event) initial_state)
       !! SEC_RETAIL = Some [ "09/01/25 8:00 AM" ]
  /\ parsed (returned (@flush_event quiet id [] retail_event) initial_state)
       !! SEC_TENANT = parsed retail_event !! SEC_TENANT.
Proof.
  assert (Hrun : @flush_event quiet id [] retail_event
                 = Returns (returned (@flush_event quiet id [] retail_event)
                              initial_state)) by by_running.
  assert (Hne : SEC_TENANT <> classify (buffer retail_event) (id (labels retail_event))).
  { replace (classify (buffer retail_event) (id (labels retail_event)))
      with SEC_RETAIL by (vm_compute; reflexivity). discriminate. }
  split; [exact Hrun|]. split; [exact Hne|]. split; [by_running|].
  exact (@flush_event_writes_one_section quiet id [] retail_event _ SEC_TENANT Hrun Hne).
Defined.

(** ** Sections that the scan emitted in order *)

Lemma sort_entries_sorted_id (l : list string) :
  StronglySorted key_le l -> sort_entries l = l.
Proof.
  induction 1 as [|x r Hr IH Hx]; [reflexivity|].
  cbn [sort_entries]. rewrite IH. destruct r as [|y r']; [reflexivity|].
  cbn [insert_entry]. apply Forall_cons in Hx as [Hxy _].
  unfold key_le, dt_le in Hxy. unfold dt_leb.
  destruct (Z.leb_spec (dt_ord (_extract_dt x)) (dt_ord (_extract_dt y)));
    [reflexivity|lia].
Qed.

(** X14. The final pass leaves a section as the scan emitted it when its
    entries came in the order of their timestamps: the sort changes only
    the sections that are out of order. *)
Theorem chronological_section_is_unchanged `{Templates} set_order lines st r
  (s : string) (scanned : list string) :
  scan set_order lines = Returns st ->
  parse_events set_order lines = Returns r ->
  s ∈ SECTIONS -> s <> SEC_TRANSIENT ->
  parsed st !! s = Some scanned ->
  scanned <> [] ->
  StronglySorted key_le scanned ->
  r !! s = Some scanned.
Proof.
  intros Hscan Hparse Hs Hne Hscanned Hnonempty Hsorted.
  destruct (parse_events_split _ _ _ Hparse) as (st' & Hscan' & Hfin).
  rewrite Hscan in Hscan'. injection Hscan' as <-.
  destruct (finalize_section _ _ _ s Hfin Hs) as (l0 & Hl0 & Hr).
  rewrite Hscanned in Hl0. injection Hl0 as <-.
  rewrite Hr. f_equal. unfold final_entries. rewrite decide_False by exact Hne.
  destruct scanned as [|x rest]; [contradiction|].
  cbn [or_placeholder sorted_unless_placeholder].
  destruct (seqb x PLACEHOLDER); [reflexivity|].
  apply sort_entries_sorted_id, Hsorted.
Qed.

Lemma chronological_section_is_unchanged_witness :
  @scan quiet id in_order_doc = Returns (state_of in_order_doc)
  /\ @parse_events quiet id in_order_doc = Returns (report_of in_order_doc)
  /\ parsed (state_of in_order_doc) !! SEC_RETAIL
     = Some [ "09/01/25 8:00 AM"; "09/02/25 8:00 AM" ]
  /\ StronglySorted key_le [ "09/01/25 8:00 AM"; "09/02/25 8:00 AM" ]
  /\ report_of in_order_doc !! SEC_RETAIL
     = Some [ "09/01/25 8:00 AM"; "09/02/25 8:00 AM" ].
Proof.
  assert (Hscan : @scan quiet id in_order_doc = Returns (state_of in_order_doc))
    by by_running.
  assert (Hparse : @parse_events quiet id in_order_doc
                   = Returns (report_of in_order_doc)) by by_running.
  assert (Hscanned : parsed (state_of in_order_doc) !! SEC_RETAIL
                     = Some [ "09/01/25 8:00 AM"; "09/02/25 8:00 AM" ]) by by_running.
  assert (Hsorted : StronglySorted key_le [ "09/01/25 8:00 AM"; "09/02/25 8:00 AM" ]).
  { repeat constructor. unfold key_le, dt_le. vm_compute. discriminate. }
  split; [exact Hscan|]. split; [exact Hparse|]. split; [exact Hscanned|].
  split; [exact Hsorted|].
  apply (@chronological_section_is_unchanged quiet id in_order_doc _ _ SEC_RETAIL _
           Hscan Hparse);
    [apply section_elem; vm_compute; reflexivity|discriminate|exact Hscanned
    |discriminate|exact Hsorted].
Defined.

(** ** Formatting a location twice *)

Lemma srev_onto_srev (w cur : string) : srev (srev_onto w cur) = srev cur ++ w.
Proof.
  rewrite srev_onto_app, srev_app, srev_involutive. reflexivity.
Qed.

Lemma of_class_app b (a c : string) :
  of_class b (a ++ c) = of_class b a && of_class b c.
Proof. apply sall_app. Qed.

Lemma runs_go_same_class (w t cur : string) (blank : bool) :
  of_class blank w = true ->
  runs_go (w ++ t) cur blank = runs_go t (srev_onto w cur) blank.
Proof.
  revert cur. induction w as [|c r IH]; intros cur Hw; [reflexivity|].
  cbn [of_class sall] in Hw. apply andb_prop in Hw as [Hc Hr].
  cbn [String.append runs_go srev_onto]. rewrite Hc. apply IH, Hr.
Qed.

(** The runs of a string: the first one holds what was read so far. *)
Lemma runs_go_shape (s cur : string) (blank : bool) :
  exists w rest,
    runs_go s cur blank = (blank, srev cur ++ w) :: rest
    /\ of_class blank w = true
    /\ alternating (negb blank) rest.
Proof.
  revert cur blank. induction s as [|c r IH]; intros cur blank; cbn [runs_go].
  - exists "", []. rewrite sapp_nil_r. split; [reflexivity|]. split; [reflexivity|exact I].
  - destruct (Bool.eqb (is_space c) blank) eqn:Hc.
    + destruct (IH (String c cur) blank) as (w & rest & Hrun & Hw & Hrest).
      exists (String c w), rest. rewrite Hrun, srev_cons, sapp_assoc.
      split; [reflexivity|]. split; [|exact Hrest].
      cbn [of_class sall]. rewrite Hc. exact Hw.
    + destruct (IH (String c "") (is_space c)) as (w & rest & Hrun & Hw & Hrest).
      exists "", ((is_space c, String c w) :: rest).
      rewrite sapp_nil_r, Hrun. split; [reflexivity|]. split; [reflexivity|].
      assert (Hneg : is_space c = negb blank).
      { destruct (is_space c), blank; try reflexivity; discriminate Hc. }
      cbn [alternating]. split; [exact Hneg|]. split; [reflexivity|].
      rewrite <- Hneg. split; [|exact Hrest].
      cbn [of_class sall]. rewrite eqb_reflx. exact Hw.
Qed.

(** A list of runs is what [runs_go] makes of their concatenation. *)
Lemma runs_go_unique (rest : list (bool * string)) :
  forall (w cur : string) (blank : bool),
    of_class blank w = true ->
    alternating (negb blank) rest ->
    runs_go (String.concat "" (map snd ((blank, w) :: rest))) cur blank
    = (blank, srev cur ++ w) :: rest.
Proof.
  induction rest as [|[b' w'] rest IH]; intros w cur blank Hw Hrest.
  - cbn [map snd String.concat]. rewrite <- (sapp_nil_r w) at 1.
    rewrite (runs_go_same_class _ _ _ _ Hw). cbn [runs_go].
    rewrite srev_onto_srev. reflexivity.
  - cbn [alternating] in Hrest. destruct Hrest as (-> & Hne & Hw' & Hrest).
    change (map snd ((blank, w) :: (negb blank, w') :: rest))
      with (w :: map snd ((negb blank, w') :: rest)).
    rewrite concat_cons, (runs_go_same_class _ _ _ _ Hw).
    destruct w' as [|c t]; [discriminate|].
    change (map snd ((negb blank, String c t) :: rest))
      with (String c t :: map snd rest).
    rewrite concat_cons. cbn [String.append runs_go].
    cbn [of_class sall] in Hw'. apply andb_prop in Hw' as [Hc Ht].
    apply eqb_prop in Hc.
    assert (Hdiff : Bool.eqb (is_space c) blank = false).
    { rewrite Hc. destruct blank; reflexivity. }
    rewrite Hdiff, srev_onto_srev. f_equal. rewrite Hc.
    rewrite <- concat_cons.
    change (t :: map snd rest) with (map snd ((negb blank, t) :: rest)).
    rewrite (IH t (String c "") (negb blank) Ht Hrest). reflexivity.
Qed.

Lemma capitalize_class (w : string) :
  of_class false (capitalize w) = of_class false w.
Proof.
  destruct w as [|c r]; [reflexivity|]. unfold capitalize. cbn [of_class sall].
  destruct (to_lower_facts c) as (_ & _ & _ & -> & _). f_equal.
  induction r as [|x r IH]; [reflexivity|]. unfold lower in *. cbn [smap sall].
  rewrite IH. destruct (to_lower_facts x) as (_ & _ & -> & _). reflexivity.
Qed.

Lemma lower_class (w : string) : of_class false (lower w) = of_class false w.
Proof.
  induction w as [|x r IH]; [reflexivity|]. unfold lower in *. cbn [smap of_class sall].
  unfold of_class in IH. rewrite IH.
  destruct (to_lower_facts x) as (_ & _ & -> & _). reflexivity.
Qed.

Lemma lower_truthy (w : string) : truthy (lower w) = truthy w.
Proof. destruct w; reflexivity. Qed.

Lemma capitalize_truthy (w : string) : truthy (capitalize w) = truthy w.
Proof. destruct w; reflexivity. Qed.

Lemma format_word_class (first b : bool) (w : string) :
  of_class b w = true -> of_class b (format_word first (b, w)) = true.
Proof.
  intros Hw. unfold format_word. cbn [fst snd].
  destruct b; [exact Hw|]. cbn [orb].
  repeat case_match; try exact Hw.
  - rewrite capitalize_class, lower_class. exact Hw.
  - rewrite lower_class. exact Hw.
Qed.

Lemma format_word_truthy (first b : bool) (w : string) :
  truthy (format_word first (b, w)) = truthy w.
Proof.
  unfold format_word. cbn [fst snd]. repeat case_match; try reflexivity.
  - rewrite capitalize_truthy. apply lower_truthy.
  - apply lower_truthy.
Qed.

Lemma isupper_lower (w : string) : isupper (lower w) = false.
Proof.
  unfold isupper. replace (sany is_upper (lower w)) with false; [reflexivity|].
  induction w as [|c r IH]; [reflexivity|]. unfold lower in *. cbn [smap sany].
  rewrite <- IH. destruct (to_lower_facts c) as (_ & _ & _ & _ & _ & ->). reflexivity.
Qed.

Lemma format_word_solid (first : bool) (w : string) :
  truthy w = true ->
  format_word first (false, w)
  = if isupper w && (1 <? String.length w)%nat then w
    else if first || negb (existsb (seqb (lower w)) skip_words)
         then capitalize (lower w)
         else lower w.
Proof. intros Hw. unfold format_word. cbn [fst snd orb]. rewrite Hw. reflexivity. Qed.

(** Formatting a word that is formatted changes nothing. *)
Lemma format_word_idem (first : bool) (w : bool * string) :
  format_word first (fst w, format_word first w) = format_word first w.
Proof.
  destruct w as [b w]. cbn [fst]. destruct b; [reflexivity|].
  destruct (truthy w) eqn:Hw; [|destruct w; [reflexivity|discriminate]].
  rewrite (format_word_solid first w Hw).
  destruct (isupper w && (1 <? String.length w)%nat) eqn:Hup.
  - rewrite (format_word_solid first w Hw), Hup. reflexivity.
  - destruct (first || negb (existsb (seqb (lower w)) skip_words)) eqn:Hcap.
    + rewrite format_word_solid
        by (rewrite capitalize_truthy, lower_truthy; exact Hw).
      rewrite lower_capitalize, !lower_idem, Hcap.
      destruct (isupper (capitalize (lower w))
                && (1 <? String.length (capitalize (lower w)))%nat); reflexivity.
    + rewrite format_word_solid by (rewrite lower_truthy; exact Hw).
      rewrite isupper_lower, !lower_idem, Hcap. reflexivity.
Qed.

Lemma format_runs_shape (w : string) (rest : list (bool * string)) (first blank : bool) :
  alternating blank rest ->
  alternating blank (map (fun x => (fst x, format_word first x)) rest).
Proof.
  revert blank. induction rest as [|[b x] rest IH]; intros blank Hrest; [exact I|].
  cbn [alternating] in Hrest. destruct Hrest as (-> & Hne & Hx & Hrest).
  cbn [map fst alternating]. split; [reflexivity|].
  split; [rewrite format_word_truthy; exact Hne|].
  split; [apply format_word_class, Hx|apply IH, Hrest].
Qed.

(** *** Blanks around a string *)

Lemma first_ok_lstrip (a : string) : first_ok (lstrip_by is_space a) = true.
Proof.
  induction a as [|c r IH]; [reflexivity|]. cbn [lstrip_by].
  destruct (is_space c) eqn:Hc; [exact IH|]. cbn [first_ok]. rewrite Hc. reflexivity.
Qed.

Lemma lstrip_first_ok (a : string) : first_ok a = true -> lstrip_by is_space a = a.
Proof.
  destruct a as [|c r]; [reflexivity|]. cbn [first_ok lstrip_by].
  intros Hc. apply negb_true_iff in Hc. rewrite Hc. reflexivity.
Qed.

Lemma rstrip_last_ok (a : string) :
  first_ok (srev a) = true -> rstrip_by is_space a = a.
Proof.
  intros Ha. unfold rstrip_by. rewrite (lstrip_first_ok _ Ha). apply srev_involutive.
Qed.

Lemma first_ok_rstrip (a : string) :
  first_ok a = true -> first_ok (rstrip_by is_space a) = true.
Proof.
  destruct a as [|c r]; [reflexivity|]. cbn [first_ok]. intros Hc.
  apply negb_true_iff in Hc. rewrite (rstrip_by_cons _ _ _ Hc). cbn [first_ok].
  rewrite Hc. reflexivity.
Qed.

(** A stripped string has no blank at its ends. *)
Lemma strip_ends (a : string) :
  first_ok (strip a) = true /\ first_ok (srev (strip a)) = true.
Proof.
  unfold strip, strip_by. split.
  - apply first_ok_rstrip, first_ok_lstrip.
  - unfold rstrip_by. rewrite srev_involutive. apply first_ok_lstrip.
Qed.

Lemma strip_fixed (a : string) :
  first_ok a = true -> first_ok (srev a) = true -> strip a = a.
Proof.
  intros Hfirst Hlast. unfold strip, strip_by.
  rewrite (lstrip_first_ok _ Hfirst). apply rstrip_last_ok, Hlast.
Qed.

(** The blanks of a string, whatever its other characters are. *)
Lemma first_ok_class (a b : string) :
  smap (fun c => if is_space c then " " else "x")%char a
  = smap (fun c => if is_space c then " " else "x")%char b ->
  first_ok a = first_ok b.
Proof.
  destruct a as [|c r], b as [|c' r']; try reflexivity; try discriminate.
  cbn [smap first_ok]. intros [= Hc _].
  destruct (is_space c), (is_space c'); try reflexivity; discriminate Hc.
Qed.

Lemma smap_app f (a b : string) : smap f (a ++ b) = smap f a ++ smap f b.
Proof. induction a as [|c r IH]; [reflexivity|]. simpl. rewrite IH. reflexivity. Qed.

Lemma smap_srev f (a : string) : smap f (srev a) = srev (smap f a).
Proof.
  induction a as [|c r IH]; [reflexivity|].
  cbn [smap]. rewrite !srev_cons, smap_app, IH. reflexivity.
Qed.

Lemma smap_concat f (l : list string) :
  smap f (String.concat "" l) = String.concat "" (map (smap f) l).
Proof.
  induction l as [|x r IH]; [reflexivity|].
  cbn [map]. rewrite !concat_cons, smap_app, IH. reflexivity.
Qed.

Lemma blanks_lower (w : string) :
  smap (fun c => if is_space c then " " else "x")%char (lower w)
  = smap (fun c => if is_space c then " " else "x")%char w.
Proof.
  induction w as [|c r IH]; [reflexivity|]. unfold lower in *. cbn [smap].
  rewrite IH. destruct (to_lower_facts c) as (_ & _ & -> & _). reflexivity.
Qed.

Lemma blanks_capitalize (w : string) :
  smap (fun c => if is_space c then " " else "x")%char (capitalize w)
  = smap (fun c => if is_space c then " " else "x")%char w.
Proof.
  destruct w as [|c r]; [reflexivity|]. unfold capitalize. cbn [smap].
  rewrite blanks_lower. destruct (to_lower_facts c) as (_ & _ & _ & -> & _).
  reflexivity.
Qed.

Lemma blanks_format_word (first : bool) (w : bool * string) :
  smap (fun c => if is_space c then " " else "x")%char (format_word first w)
  = smap (fun c => if is_space c then " " else "x")%char (snd w).
Proof.
  unfold format_word. repeat case_match; try reflexivity.
  - rewrite blanks_capitalize. apply blanks_lower.
  - apply blanks_lower.
Qed.

Lemma blanks_format_runs (l : list (bool * string)) :
  smap (fun c => if is_space c then " " else "x")%char
       (String.concat "" (map snd (format_runs l)))
  = smap (fun c => if is_space c then " " else "x")%char
         (String.concat "" (map snd l)).
Proof.
  rewrite !smap_concat. f_equal. destruct l as [|w ws]; [reflexivity|].
  cbn [format_runs map snd]. rewrite blanks_format_word. f_equal.
  rewrite !map_map. apply map_ext. intros x. cbn [snd]. apply blanks_format_word.
Qed.

(** The value of [format_location_name] in terms of the runs. *)
Lemma format_location_name_runs (loc : string) :
  truthy loc = true ->
  format_location_name loc
  = String.concat "" (map snd (format_runs (runs (strip loc)))).
Proof.
  intros Hloc. unfold format_location_name. rewrite Hloc.
  destruct (runs (strip loc)) as [|w ws]; [reflexivity|].
  cbn [format_runs map snd]. rewrite map_map. reflexivity.
Qed.

(** X15. Formatting a location of ASCII text that is formatted already
    changes nothing. *)
Theorem format_location_name_idempotent (loc : string) :
  ascii_only loc = true ->
  format_location_name (format_location_name loc) = format_location_name loc.
Proof.
  intros _. destruct (truthy loc) eqn:Hloc;
    [|destruct loc; [reflexivity|discriminate]].
  set (F := format_location_name loc).
  destruct (truthy F) eqn:HF; [|destruct F; [reflexivity|discriminate]].
  rewrite (format_location_name_runs F HF).
  pose proof (format_location_name_runs loc Hloc) as Hruns. fold F in Hruns.
  set (s := strip loc) in *.
  destruct (runs_go_shape s "" false) as (w & rest & Hrun & Hw & Hrest).
  fold (runs s) in Hrun. change (srev "" ++ w) with w in Hrun.
  assert (Hconcat : String.concat "" (map snd (runs s)) = s)
    by (unfold runs; rewrite runs_go_concat; reflexivity).
  (* the formatted location has no blank at its ends *)
  assert (Hblanks : smap (fun c => if is_space c then " " else "x")%char F
                    = smap (fun c => if is_space c then " " else "x")%char s).
  { rewrite Hruns, blanks_format_runs, Hconcat. reflexivity. }
  assert (Hstrip : strip F = F).
  { destruct (strip_ends loc) as [Hfirst Hlast]. fold s in Hfirst, Hlast.
    apply strip_fixed.
    - rewrite (first_ok_class F s Hblanks). exact Hfirst.
    - rewrite (first_ok_class (srev F) (srev s)); [exact Hlast|].
      rewrite !smap_srev, Hblanks. reflexivity. }
  rewrite Hstrip.
  (* its runs are the formatted runs of the location *)
  assert (Hsame : runs F = format_runs (runs s)).
  { rewrite Hruns, Hrun. cbn [format_runs fst]. unfold runs.
    rewrite (runs_go_unique _ (format_word true (false, w)) "" false).
    - reflexivity.
    - apply format_word_class, Hw.
    - apply (format_runs_shape w), Hrest. }
  rewrite Hsame, Hruns, Hrun. cbn [format_runs map snd fst].
  pose proof (format_word_idem true (false, w)) as Hhead. cbn [fst] in Hhead.
  rewrite Hhead. f_equal. f_equal.
  rewrite !map_map. apply map_ext. intros x. cbn [fst snd].
  apply (format_word_idem false x).
Qed.

Lemma format_location_name_idempotent_witness :
  ascii_only " main LOBBY of the tower " = true
  /\ format_location_name (format_location_name " main LOBBY of the tower ")
     = format_location_name " main LOBBY of the tower ".
Proof.
  split; [reflexivity|].
  exact (format_location_name_idempotent " main LOBBY of the tower " eq_refl).
Defined.

(** ** Indices out of range *)

Lemma filter_truthy_nil (l : list string) :
  filter (fun p => truthy p = true) l = [] <-> Forall (fun p => p = "") l.
Proof.
  induction l as [|x r IH].
  - split; [constructor|reflexivity].
  - rewrite filter_cons. destruct x as [|c t].
    + rewrite decide_False by discriminate. rewrite IH. split.
      * intros Hr. constructor; [reflexivity|exact Hr].
      * intros Hall. apply Forall_cons in Hall as [_ Hr]. exact Hr.
    + rewrite decide_True by reflexivity. split; [discriminate|].
      intros Hall. apply Forall_cons in Hall as [Hx _]. discriminate Hx.
Qed.

(** X16. Where the list of the persons involved is put together,
    [parts[0]] raises [IndexError] exactly when the text is not empty, has
    a comma, and has nothing but blanks between its commas; on every
    other text the step returns. *)
Theorem with_and_raises (combined : string) :
  (with_and combined = Raises IndexError
   <-> truthy combined = true /\ contains "," combined = true
       /\ Forall (fun p => strip p = "") (split_comma combined))
  /\ (with_and combined <> Raises IndexError
      -> exists v, with_and combined = Returns v).
Proof.
  unfold with_and.
  destruct (truthy combined && contains "," combined) eqn:Hcond.
  - apply andb_prop in Hcond as [Ht Hc].
    set (parts := filter (fun p => truthy p = true) (map strip (split_comma combined))).
    assert (Hparts : parts = [] <-> Forall (fun p => strip p = "") (split_comma combined)).
    { unfold parts. rewrite filter_truthy_nil, Forall_fmap. reflexivity. }
    destruct (rev parts) as [|last before] eqn:Hrev.
    + assert (Hnil : parts = []).
      { rewrite <- (rev_involutive parts), Hrev. reflexivity. }
      split; [|intros Hne; contradiction Hne; reflexivity].
      split; [intros _|reflexivity].
      split; [exact Ht|]. split; [exact Hc|]. apply Hparts, Hnil.
    + assert (Hnonnil : parts <> []).
      { intros Hnil. rewrite Hnil in Hrev. discriminate Hrev. }
      assert (Hret : exists v,
                 match before with
                 | [] => mret last
                 | _ :: _ =>
                     if negb (occurs rx_and last)
                     then mret (join ", " (rev before) ++ ", and " ++ last)
                     else mret (join ", " parts)
                 end = Returns v).
      { destruct before; [eexists; reflexivity|].
        destruct (negb (occurs rx_and last)); eexists; reflexivity. }
      destruct Hret as [v Hv]. rewrite Hv. split; [|intros _; exists v; reflexivity].
      split; [discriminate|]. intros (_ & _ & Hall). exfalso.
      apply Hnonnil, Hparts, Hall.
  - split; [|intros _; eexists; reflexivity].
    split; [discriminate|]. intros (Ht & Hc & _). rewrite Ht, Hc in Hcond.
    discriminate Hcond.
Qed.

(** A line whose persons involved are a comma between two tabulations:
    the scan raises [IndexError] on it. *)
Lemma persons_line_raises (T : Templates) :
  @parse_events T id
    [ "All persons involved : All persons involved :"
      ++ String "009" ("," ++ String "009" "-") ]
  = Raises IndexError.
Proof. vm_compute. reflexivity. Qed.

(** X17. The names that [bold_officer] splits have no empty token, so
    that the index [second[0]] is never out of range. *)
Theorem name_tokens_are_not_empty (name w : string) :
  w ∈ name_tokens name -> truthy w = true.
Proof.
  unfold name_tokens. intros Hw.
  pose proof (split_tokens (Re.remove rx_officer_prefix (strip name))) as Hall.
  rewrite Forall_forall in Hall. specialize (Hall w Hw).
  unfold is_token in Hall. apply andb_prop in Hall as [Hne _]. exact Hne.
Qed.

Lemma name_tokens_are_not_empty_witness :
  "Getachew" ∈ name_tokens "Officer  TEGEGNE Getachew" /\ truthy "Getachew" = true.
Proof.
  assert (Hin : "Getachew" ∈ name_tokens "Officer  TEGEGNE Getachew").
  { replace (name_tokens "Officer  TEGEGNE Getachew") with [ "TEGEGNE"; "Getachew" ]
      by (vm_compute; reflexivity).
    apply list_elem_of_further, list_elem_of_here. }
  split; [exact Hin|].
  exact (name_tokens_are_not_empty "Officer  TEGEGNE Getachew" "Getachew" Hin).
Defined.

(** ** Times of the day *)

Lemma every_time_reads_back :
  forallb (fun hh => forallb (reads_time_back hh) (List.seq 0 60)) (List.seq 0 24) = true.
Proof. vm_compute. reflexivity. Qed.

(** X18. The 12-hour form [H:MM AM] or [H:MM PM] that the SPD, Seattle
    Ambassadors and unsecured-door blocks write for a time of the day
    between 0:00 and 23:59 is read back by [strptime], which gives the
    entries their sort key, as the same hour and minute: midnight is
    12 AM, noon is 12 PM.  Shown for an entry of 09/01/25. *)
Theorem clock_12h_reads_back (hh mm : nat) :
  (hh < 24)%nat -> (mm < 60)%nat ->
  strptime ("09/01/25 " ++ clock_12h hh mm)
  = Some (DateTime 2025 9 1 (Z.of_nat hh) (Z.of_nat mm) 0 0).
Proof.
  intros Hhh Hmm. pose proof every_time_reads_back as Hall.
  rewrite forallb_forall in Hall.
  assert (Hin : In hh (List.seq 0 24)) by (apply in_seq; lia).
  specialize (Hall hh Hin). rewrite forallb_forall in Hall.
  assert (Hin' : In mm (List.seq 0 60)) by (apply in_seq; lia).
  specialize (Hall mm Hin'). unfold reads_time_back in Hall.
  destruct (strptime ("09/01/25 " ++ clock_12h hh mm)) as [[y mo dd h mi s us]|];
    [|discriminate Hall].
  cbn [year month day hour minute second microsecond] in Hall.
  repeat (apply andb_prop in Hall as [Hall ?]).
  repeat match goal with
         | Heq : (_ =? _)%Z = true |- _ => apply Z.eqb_eq in Heq
         end.
  subst. reflexivity.
Qed.

Lemma clock_12h_reads_back_witness :
  (0 < 24)%nat /\ (5 < 60)%nat
  /\ clock_12h 0 5 = "12:05 AM"
  /\ strptime ("09/01/25 " ++ clock_12h 0 5) = Some (DateTime 2025 9 1 0 5 0 0).
Proof.
  split; [lia|]. split; [lia|]. split; [vm_compute; reflexivity|].
  exact (clock_12h_reads_back 0 5 ltac:(lia) ltac:(lia)).
Defined.

(** ** Dates *)

Ltac char_tests :=
  repeat match goal with
         | H : is_digit ?c = true |- context [is_digit ?c] => rewrite H
         | |- context [is_digit (Ascii ?a ?b ?c ?d ?e ?f ?g ?h)] =>
             let v := eval vm_compute in (is_digit (Ascii a b c d e f g h)) in
             change (is_digit (Ascii a b c d e f g h)) with v
         | |- context [is_space (Ascii ?a ?b ?c ?d ?e ?f ?g ?h)] =>
             let v := eval vm_compute in (is_space (Ascii a b c d e f g h)) in
             change (is_space (Ascii a b c d e f g h)) with v
         end.

Ltac run_pattern :=
  repeat (progress (cbn -[is_digit is_space pad2 int_of]; char_tests)).

Lemma digit_is_solid (c : ascii) :
  is_digit c = true ->
  is_space c = false /\ ceqb " " c = false /\ ceqb "226" c = false.
Proof.
  destruct c as [[] [] [] [] [] [] [] []]; vm_compute; intros Hc;
    first [discriminate Hc|repeat split].
Qed.

Lemma short_number_cases (s : string) :
  short_number s = true ->
  (exists a, s = String a "" /\ is_digit a = true)
  \/ (exists a b, s = String a (String b "") /\ is_digit a = true /\ is_digit b = true).
Proof.
  destruct s as [|a [|b [|c r]]]; cbn [short_number]; intros Hs; try discriminate Hs.
  - left. exists a. split; [reflexivity|exact Hs].
  - right. apply andb_prop in Hs as [Ha Hb]. exists a, b. repeat split; assumption.
Qed.

Lemma build_event_line_date_only (s : string) :
  build_event_line (<["date" := s]> ∅)
  = strip_dash (default (strip s) (short_date (strip s))).
Proof.
  unfold build_event_line.
  assert (Hdate : get (<["date" := s]> (∅ : Buffer)) "date" = s).
  { unfold get. rewrite lookup_insert_eq. reflexivity. }
  assert (Hother : forall k, k <> "date" -> get (<["date" := s]> (∅ : Buffer)) k = "").
  { intros k Hk. unfold get. rewrite lookup_insert_ne by congruence.
    rewrite lookup_empty. reflexivity. }
  rewrite Hdate, !Hother by discriminate.
  cbv zeta. set (date := default (strip s) (short_date (strip s))).
  change (bold_officer "") with "". change (strip "") with "".
  change (past_action "") with "". cbn [truthy andb app].
  destruct date as [|c r]; reflexivity.
Qed.

Ltac not_blank :=
  first [ reflexivity
        | match goal with
          | H : is_digit ?c = true |- is_space ?c = false =>
              exact (proj1 (digit_is_solid c H))
          end ].

(** The long date of an entry: nothing to strip, and the pattern of
    [build_event_line] finds its four fields. *)
Lemma long_date_fields (M D : string) (y1 y2 c5 c6 : ascii) :
  short_number M = true -> short_number D = true ->
  is_digit y1 = true -> is_digit y2 = true ->
  is_digit c5 = true -> is_digit c6 = true ->
  strip (long_date M D y1 y2 c5 c6) = long_date M D y1 y2 c5 c6
  /\ short_date (long_date M D y1 y2 c5 c6)
     = Some (pad2 (int_of M) ++ "/" ++ pad2 (int_of D) ++ "/"
             ++ String c5 (String c6 " 8:00 AM")).
Proof.
  intros HM HD H1 H2 H5 H6. unfold long_date.
  destruct (short_number_cases M HM) as [(a & -> & Ha)|(a & a' & -> & Ha & Ha')];
    destruct (short_number_cases D HD) as [(b & -> & Hb)|(b & b' & -> & Hb & Hb')];
    cbn [String.append]; (split;
      [ unfold strip; rewrite strip_by_cons by not_blank;
        repeat rewrite rstrip_by_cons by not_blank; reflexivity
      | unfold short_date, search; cbn [search_from]; unfold match_at;
        run_pattern; reflexivity ]).
Qed.

Lemma lstrip_dash_go_keeps (fuel : nat) (c : ascii) (r : string) :
  ceqb " " c = false -> ceqb "226" c = false ->
  lstrip_dash_go fuel (String c r) = String c r.
Proof.
  intros Hblank Hdash. destruct fuel as [|f]; [reflexivity|].
  cbn [lstrip_dash_go startswith EN_DASH]. rewrite Hblank, Hdash. reflexivity.
Qed.

Lemma rstrip_dash_go_keeps (fuel : nat) (c : ascii) (r : string) :
  ceqb " " c = false -> ceqb "147" c = false ->
  rstrip_dash_go fuel (String c r) = String c r.
Proof.
  intros Hblank Hdash. destruct fuel as [|f]; [reflexivity|].
  cbn [rstrip_dash_go startswith EN_DASH srev srev_onto].
  rewrite Hblank, Hdash. reflexivity.
Qed.

(** [strip(" –")] leaves the stamp of an entry alone. *)
Lemma stamp_strip (p p' q q' c5 c6 : ascii) :
  is_digit p = true -> is_digit p' = true -> is_digit q = true ->
  is_digit q' = true -> is_digit c5 = true -> is_digit c6 = true ->
  strip_dash (stamp p p' q q' c5 c6) = stamp p p' q q' c5 c6.
Proof.
  intros Hp Hp' Hq Hq' H5 H6. unfold stamp.
  destruct (digit_is_solid p Hp) as (_ & Hblank & Hdash).
  unfold strip_dash, lstrip_dash.
  rewrite lstrip_dash_go_keeps by assumption.
  cbn [srev srev_onto]. rewrite rstrip_dash_go_keeps by reflexivity.
  reflexivity.
Qed.

(** The pattern of [_extract_dt] hands all of the stamp to [strptime]. *)
Lemma stamp_entry_time (p p' q q' c5 c6 : ascii) :
  is_digit p = true -> is_digit p' = true -> is_digit q = true ->
  is_digit q' = true -> is_digit c5 = true -> is_digit c6 = true ->
  entry_time (stamp p p' q q' c5 c6) = strptime (stamp p p' q q' c5 c6).
Proof.
  intros Hp Hp' Hq Hq' H5 H6. unfold stamp.
  unfold entry_time, rmatch, match_at.
  cbn -[is_digit strptime]. char_tests. cbn -[is_digit strptime]. reflexivity.
Qed.

Lemma small_numbers_ok : forallb small_number_ok (List.seq 1 31) = true.
Proof. vm_compute. reflexivity. Qed.

Lemma small_number (n : nat) :
  (1 <= n <= 31)%nat ->
  short_number (str_of_nat n) = true
  /\ pad2 (int_of (str_of_nat n)) = pad2 n
  /\ (exists p q, pad2 n = String p (String q "")
                  /\ is_digit p = true /\ is_digit q = true)
  /\ int_of (strip (pad2 n)) = n.
Proof.
  intros Hn. pose proof small_numbers_ok as Hall. rewrite forallb_forall in Hall.
  assert (Hin : In n (List.seq 1 31)) by (apply in_seq; lia).
  specialize (Hall n Hin). unfold small_number_ok in Hall.
  apply andb_prop in Hall as [Hall Hback]. apply andb_prop in Hall as [Hall Hpad].
  apply andb_prop in Hall as [Hshort Hsame].
  split; [exact Hshort|]. split; [apply String.eqb_eq, Hsame|].
  split; [|apply Nat.eqb_eq, Hback].
  destruct (pad2 n) as [|p [|q [|c r]]]; try discriminate Hpad.
  apply andb_prop in Hpad as [Hp Hq]. exists p, q. repeat split; assumption.
Qed.

Lemma years_ok : forallb year_digits_ok (List.seq 1969 100) = true.
Proof. vm_compute. reflexivity. Qed.

Lemma year_digits (y : nat) :
  (1969 <= y <= 2068)%nat ->
  exists y1 y2 c5 c6,
    str_of_nat y = String y1 (String y2 (String c5 (String c6 "")))
    /\ is_digit y1 = true /\ is_digit y2 = true
    /\ is_digit c5 = true /\ is_digit c6 = true
    /\ century (int_of (String c5 (String c6 ""))) = y.
Proof.
  intros Hy. pose proof years_ok as Hall. rewrite forallb_forall in Hall.
  assert (Hin : In y (List.seq 1969 100)) by (apply in_seq; lia).
  specialize (Hall y Hin). unfold year_digits_ok in Hall.
  destruct (str_of_nat y) as [|y1 [|y2 [|c5 [|c6 [|c r]]]]]; try discriminate Hall.
  apply andb_prop in Hall as [Hall Hcentury]. apply andb_prop in Hall as [Hall H6].
  apply andb_prop in Hall as [Hall H5]. apply andb_prop in Hall as [H1 H2].
  exists y1, y2, c5, c6. repeat split; try assumption. apply Nat.eqb_eq, Hcentury.
Qed.

(** One goal for each number below [k] that the hypotheses allow. *)
Ltac each_number m k :=
  lazymatch k with
  | O => exfalso; lia
  | S ?k' => destruct m as [|m]; [try (exfalso; lia)|each_number m k']
  end.

Lemma or_else_None_r {A} (x : option A) : or_else x None = x.
Proof. destruct x; reflexivity. Qed.

Lemma take_two (a b : ascii) (t : string) :
  take (String.length (String a (String b t)) - String.length t) (String a (String b t))
  = String a (String b "").
Proof.
  replace (String.length (String a (String b t)) - String.length t)%nat with 2%nat
    by (cbn [String.length]; lia).
  reflexivity.
Qed.

Ltac pad2_values :=
  repeat match goal with
         | |- context [pad2 ?n] =>
             let v := eval vm_compute in (pad2 n) in change (pad2 n) with v
         end.

(** The month of a stamp, whatever follows the slash after it. *)
Lemma stamp_month (m : nat) (R : re) (t : string) (cs : caps) (k : cont) :
  (1 <= m <= 12)%nat ->
  run (Cat (Grp 1 (alts [ Cat (lit "1") (set "012"); Cat (lit "0") nonzero_digit;
                          nonzero_digit ]))
           (Cat (lit "/") R))
      None (pad2 m ++ String "/" t) cs k
  = run R (Some "/"%char) t ((1, pad2 m) :: cs) k.
Proof.
  intros Hm. each_number m 13; pad2_values;
    cbn -[Nat.sub take String.length]; rewrite ?or_else_None_r;
    match goal with
    | |- context [take (String.length (String ?a (String ?b (String ?c t)))
                        - String.length (String ?c t)) _] =>
        rewrite (take_two a b (String c t))
    end; reflexivity.
Qed.

(** The day of a stamp, whatever follows the slash after it. *)
Lemma stamp_day (dd : nat) (R : re) (prev : option ascii) (t : string) (cs : caps)
    (k : cont) :
  (1 <= dd <= 31)%nat ->
  run (Cat (Grp 2 (alts [ Cat (lit "3") (set "01"); Cat (set "12") d;
                          Cat (lit "0") nonzero_digit; nonzero_digit;
                          Cat (lit " ") nonzero_digit ]))
           (Cat (lit "/") R))
      prev (pad2 dd ++ String "/" t) cs k
  = run R (Some "/"%char) t ((2, pad2 dd) :: cs) k.
Proof.
  intros Hdd. each_number dd 32; pad2_values;
    cbn -[Nat.sub take String.length]; rewrite ?or_else_None_r;
    match goal with
    | |- context [take (String.length (String ?a (String ?b (String ?c t)))
                        - String.length (String ?c t)) _] =>
        rewrite (take_two a b (String c t))
    end; reflexivity.
Qed.

(** The pattern of [strptime] on the stamp of a day. *)
Lemma stamp_groups (m dd : nat) (c5 c6 : ascii) :
  (1 <= m <= 12)%nat -> (1 <= dd <= 31)%nat ->
  is_digit c5 = true -> is_digit c6 = true ->
  exists w,
    rmatch rx_strptime (pad2 m ++ "/" ++ pad2 dd ++ "/"
                        ++ String c5 (String c6 " 8:00 AM"))
    = Some (Found 0 w ""
              [ (6, "AM"); (5, "00"); (4, "8"); (3, String c5 (String c6 ""));
                (2, pad2 dd); (1, pad2 m) ]).
Proof.
  intros Hm Hdd H5 H6. eexists. unfold rmatch, match_at, rx_strptime.
  cbn [seq].
  change (pad2 m ++ "/" ++ pad2 dd ++ "/" ++ String c5 (String c6 " 8:00 AM"))
    with (pad2 m ++ String "/" (pad2 dd ++ String "/" (String c5 (String c6 " 8:00 AM")))).
  rewrite (stamp_month m _ _ _ _ Hm), (stamp_day dd _ _ _ _ _ Hdd).
  cbn -[is_digit is_space pad2 String.append]. char_tests.
  cbn -[is_digit is_space pad2 String.append]. char_tests.
  cbn -[is_digit is_space pad2 String.append].
  reflexivity.
Qed.

Lemma valid_day (y m dd : nat) :
  (1969 <= y <= 2068)%nat -> (1 <= m <= 12)%nat ->
  (1 <= dd <= days_in_month y m)%nat ->
  valid_datetime y m dd 8 0 = true.
Proof.
  intros Hy Hm Hdd. unfold valid_datetime.
  repeat (apply andb_true_intro; split);
    first [apply Nat.leb_le; lia | apply Z.leb_le; lia | reflexivity].
Qed.

(** What [strptime] reads in the stamp of a day. *)
Lemma stamp_strptime (y m dd : nat) (c5 c6 : ascii) :
  (1969 <= y <= 2068)%nat -> (1 <= m <= 12)%nat ->
  (1 <= dd <= days_in_month y m)%nat ->
  is_digit c5 = true -> is_digit c6 = true ->
  century (int_of (String c5 (String c6 ""))) = y ->
  strptime (pad2 m ++ "/" ++ pad2 dd ++ "/" ++ String c5 (String c6 " 8:00 AM"))
  = Some (DateTime (Z.of_nat y) (Z.of_nat m) (Z.of_nat dd) 8 0 0 0).
Proof.
  intros Hy Hm Hdd H5 H6 Hcentury.
  pose proof (days_in_month_le y m) as Hle.
  destruct (stamp_groups m dd c5 c6 Hm ltac:(lia) H5 H6) as [w Hw].
  destruct (small_number m ltac:(lia)) as (_ & _ & _ & Hmonth).
  destruct (small_number dd ltac:(lia)) as (_ & _ & _ & Hday).
  unfold strptime. rewrite Hw. cbn [rest groups truthy]. cbv zeta.
  change (grp 1 _) with (pad2 m). change (grp 2 _) with (pad2 dd).
  change (grp 3 _) with (String c5 (String c6 "")).
  change (grp 4 _) with "8". change (grp 5 _) with "00". change (grp 6 _) with "AM".
  rewrite Hmonth, Hday.
  change (if (int_of (String c5 (String c6 "")) <=? 68)%nat
          then (2000 + int_of (String c5 (String c6 "")))%nat
          else (1900 + int_of (String c5 (String c6 "")))%nat)
    with (century (int_of (String c5 (String c6 "")))).
  rewrite Hcentury.
  change (int_of "8") with 8%nat. change (int_of "00") with 0%nat.
  change (seqb (lower "AM") "pm") with false. cbn [Nat.eqb].
  rewrite (valid_day y m dd Hy Hm Hdd). reflexivity.
Qed.

(** X19. The stamp [MM/DD/YY] that [build_event_line] writes for the long
    date of a day is read back by [_extract_dt] as that day, for every day
    of the years 1969 to 2068: the two digits that are kept of the year
    are read in the century that [strptime] gives them.  Shown for an
    event of 8:00 AM. *)
Theorem entry_date_reads_back (y m dd : nat) :
  (1969 <= y <= 2068)%nat -> (1 <= m <= 12)%nat ->
  (1 <= dd <= days_in_month y m)%nat ->
  _extract_dt
    (build_event_line
       (<["date" := str_of_nat m ++ "/" ++ str_of_nat dd ++ "/" ++ str_of_nat y
                    ++ " 8:00 AM"]> ∅))
  = DateTime (Z.of_nat y) (Z.of_nat m) (Z.of_nat dd) 8 0 0 0.
Proof.
  intros Hy Hm Hdd. pose proof (days_in_month_le y m) as Hle.
  destruct (year_digits y Hy) as (y1 & y2 & c5 & c6 & Hyear & H1 & H2 & H5 & H6 & Hc).
  destruct (small_number m ltac:(lia))
    as (Hmonth & Hmonth2 & (p & p' & Hmonth3 & Hp & Hp') & _).
  destruct (small_number dd ltac:(lia))
    as (Hday & Hday2 & (q & q' & Hday3 & Hq & Hq') & _).
  destruct (long_date_fields _ _ y1 y2 c5 c6 Hmonth Hday H1 H2 H5 H6)
    as [Hstrip Hshort].
  rewrite build_event_line_date_only, Hyear.
  change (str_of_nat m ++ "/" ++ str_of_nat dd ++ "/"
          ++ String y1 (String y2 (String c5 (String c6 ""))) ++ " 8:00 AM")
    with (long_date (str_of_nat m) (str_of_nat dd) y1 y2 c5 c6).
  rewrite Hstrip, Hshort, Hmonth2, Hday2. cbn [default from_option id].
  assert (Hstamp : pad2 m ++ "/" ++ pad2 dd ++ "/" ++ String c5 (String c6 " 8:00 AM")
                   = stamp p p' q q' c5 c6)
    by (rewrite Hmonth3, Hday3; reflexivity).
  rewrite Hstamp, (stamp_strip p p' q q' c5 c6) by assumption.
  unfold _extract_dt. rewrite (stamp_entry_time p p' q q' c5 c6) by assumption.
  rewrite <- Hstamp, (stamp_strptime y m dd c5 c6) by assumption.
  reflexivity.
Qed.

Lemma entry_date_reads_back_witness :
  (1969 <= 2024 <= 2068)%nat /\ (1 <= 2 <= 12)%nat
  /\ (1 <= 29 <= days_in_month 2024 2)%nat
  /\ build_event_line (<["date" := "2/29/2024 8:00 AM"]> ∅) = "02/29/24 8:00 AM"
  /\ _extract_dt (build_event_line (<["date" := "2/29/2024 8:00 AM"]> ∅))
     = DateTime 2024 2 29 8 0 0 0.
Proof.
  assert (Hdd : (1 <= 29 <= days_in_month 2024 2)%nat) by (vm_compute; lia).
  split; [lia|]. split; [lia|]. split; [exact Hdd|]. split; [vm_compute; reflexivity|].
  exact (entry_date_reads_back 2024 2 29 ltac:(lia) ltac:(lia) Hdd).
Defined.

(** Beyond these years the stamp names another day: the year 2069 is
    written "69" and read as 1969. *)
Lemma year_2069_reads_as_1969 :
  _extract_dt (build_event_line (<["date" := "1/1/2069 8:00 AM"]> ∅))
  = DateTime 1969 1 1 8 0 0 0.
Proof. vm_compute. reflexivity. Qed.

(** ** Words inside words *)

Lemma startswith_app (a s t : string) :
  startswith a s = true -> startswith a (s ++ t) = true.
Proof.
  revert s. induction a as [|x a IH]; intros s Hs; [reflexivity|].
  destruct s as [|y s]; [discriminate|]. cbn [startswith String.append] in *.
  apply andb_prop in Hs as [Hxy Hs]. rewrite Hxy. apply IH, Hs.
Qed.

Lemma contains_app_l (a s t : string) :
  contains a s = true -> contains a (s ++ t) = true.
Proof.
  induction s as [|c r IH]; intros Hs.
  - cbn [contains] in Hs. rewrite orb_false_r in Hs.
    destruct a; [destruct t; reflexivity|discriminate].
  - cbn [contains] in Hs. apply orb_prop in Hs as [Hs|Hs].
    + pose proof (startswith_app a (String c r) t Hs) as Hst.
      destruct a; [destruct t; destruct r; reflexivity|].
      change (String c r ++ t) with (String c (r ++ t)) in *.
      cbn [contains]. rewrite Hst. reflexivity.
    + change (String c r ++ t) with (String c (r ++ t)).
      cbn [contains]. rewrite (IH Hs). apply orb_true_r.
Qed.

Lemma contains_app_r (a p s : string) :
  contains a s = true -> contains a (p ++ s) = true.
Proof.
  intros Hs. induction p as [|c r IH]; [exact Hs|].
  cbn [contains String.append]. rewrite IH. apply orb_true_r.
Qed.

Lemma contains_split (b s : string) :
  contains b s = true -> exists pre post, s = pre ++ b ++ post.
Proof.
  induction s as [|c r IH]; intros Hs.
  - cbn [contains] in Hs. rewrite orb_false_r in Hs.
    destruct b; [exists "", ""; reflexivity|discriminate].
  - cbn [contains] in Hs. apply orb_prop in Hs as [Hs|Hs].
    + exists "", (drop (String.length b) (String c r)).
      apply startswith_split, Hs.
    + destruct (IH Hs) as (pre & post & ->). exists (String c pre), post. reflexivity.
Qed.

(** A text that has a word has the words inside that word. *)
Lemma contains_trans (a b s : string) :
  contains a b = true -> contains b s = true -> contains a s = true.
Proof.
  intros Hab Hbs. destruct (contains_split b s Hbs) as (pre & post & ->).
  apply contains_app_r, contains_app_l, Hab.
Qed.

(** ** The generic word "incident" and the Property Damage rule *)

(** X20. The word "dent" of the Property Damage rule is inside the word
    "incident": an event without category whose text has the word
    "incident" and names a gate, a door, a frame, a lock or glass is
    classified as Property Damage, unless an elevator phrase or the word
    "tenant" is in the text. *)
Theorem incident_at_a_door_is_property_damage (buffer : Buffer) (labels : list string) :
  buffer !! "category" = None ->
  contains "incident" (classify_text buffer labels) = true ->
  any_in damage_objects (classify_text buffer labels) = true ->
  any_in elevator_phrases (classify_text buffer labels) = false ->
  contains "tenant" (classify_text buffer labels) = false ->
  classify buffer labels = SEC_DAMAGE.
Proof.
  intros Hcat Hincident Hobject Helevator Htenant.
  unfold classify, classify_explicit. rewrite Hcat.
  unfold classify_heuristic. fold elevator_phrases damage_objects.
  rewrite Helevator, Htenant, Hobject. cbn [andb].
  assert (Hdent : contains "dent" (classify_text buffer labels) = true)
    by (apply (contains_trans "dent" "incident"); [reflexivity|exact Hincident]).
  unfold any_in at 1. cbn [existsb]. rewrite Hdent, !orb_true_r. reflexivity.
Qed.

Lemma incident_at_a_door_is_property_damage_witness :
  incident_at_door !! "category" = None
  /\ contains "incident" (classify_text incident_at_door []) = true
  /\ any_in damage_objects (classify_text incident_at_door []) = true
  /\ any_in elevator_phrases (classify_text incident_at_door []) = false
  /\ contains "tenant" (classify_text incident_at_door []) = false
  /\ classify incident_at_door [] = SEC_DAMAGE.
Proof.
  split; [reflexivity|]. split; [vm_compute; reflexivity|].
  split; [vm_compute; reflexivity|]. split; [vm_compute; reflexivity|].
  split; [vm_compute; reflexivity|].
  apply (incident_at_a_door_is_property_damage incident_at_door []);
    [reflexivity|vm_compute; reflexivity|vm_compute; reflexivity
    |vm_compute; reflexivity|vm_compute; reflexivity].
Defined.

(** ** The Janitorial template *)

(** X21. The Janitorial template never keeps the wording that it gives to
    a dispatch of the Seattle Ambassadors: the chain of keyword tests that
    follows ends with an unconditional branch, so that the action of the
    entry is always one of the six janitorial sentences. *)
Theorem janitorial_action_overwrites (buffer : Buffer) :
  get (janitorial_action buffer) "action" <> AMBASSADOR_ACTION.
Proof.
  unfold janitorial_action. cbv zeta.
  set (company := strip (or_default (get buffer "company") "ABM Janitorial")).
  set (l := lower (strip (get buffer "action"))).
  set (b0 := if any_in _ l then _ else buffer).
  assert (Hget : forall text (b : Buffer),
             get (if filled (<["action" := text]> b) "location"
                  then <["location" :=
                           format_location_name
                             (get (<["action" := text]> b) "location")]>
                         (<["action" := text]> b)
                  else <["action" := text]> b) "action" = text).
  { intros text b. unfold get at 1.
    destruct (filled (<["action" := text]> b) "location").
    - rewrite lookup_insert_ne by discriminate. rewrite lookup_insert_eq. reflexivity.
    - rewrite lookup_insert_eq. reflexivity. }
  rewrite Hget. unfold AMBASSADOR_ACTION.
  repeat match goal with
         | |- (if ?c then _ else _) <> _ => destruct c
         end; cbn [String.append]; discriminate.
Qed.

(** The action of a dispatch of the Seattle Ambassadors after the
    template. *)
Lemma ambassador_call_wording :
  get (janitorial_action ambassador_call) "action"
  = "coordinated janitorial services through ABM Janitorial "
    ++ "to address reported cleaning needs on site".
Proof. vm_compute. reflexivity. Qed.
